(** * A shallow embedding of [run.py]: the computer-use tool and its agent loop

    The first half holds the definitions, in the order of the source file:

    - [Py]: the Python values the program manipulates (what [json.loads]
      returns, and f-strings left unrendered), the exceptions it can raise
      and the builtins it applies to values it does not control (truth
      value, [len], [int], [float], indexing, slicing, iteration);
    - [Json]: [json.loads] on a [str], as the decoder of CPython 3.11
      behaves;
    - [Effect]: computations that extend a trace of backend calls and may
      raise;
    - [Tool]: [_ensure_xy], [_maybe_int], [ToolResult] and the methods of
      [ComputerUseTool];
    - [Agent]: the state of [ComputerUseAgent] and its method [run];
    - [Scenario]: a concrete desktop and scripted model replies;
    - [Props]: the predicates the statements are written with;
    - [Startup]: [_ensure_display], [_get_pyautogui], the constructor of
      [ComputerUseTool], the defaults of [build_parser] and [main];
    - [Behaviour]: the predicates of the further statements;
    - [Examples]: further hosts, tools and tool calls.

    The second half holds the lemmas and, for each claim about the program,
    one theorem named after what it states.

    Calls into the input and capture backends (pyautogui, mss, PIL, time,
    print) are recorded on a trace, in the order the program issues them.
    What the world answers (the cursor position, the encoded frame, the
    timestamp, the reply of the model, whether the standard output can
    encode a line) is read from oracles. [print] raises
    [UnicodeEncodeError] on a line the standard output cannot encode; the
    other exceptions raised inside the backends themselves are outside the
    model, and so are the import of pyautogui, the parsing of the command
    line and the rendering of a payload as JSON text
    ([ToolResult.as_json]). *)

From Stdlib Require Import ZArith NArith List String Ascii Bool Lia.
From Stdlib Require Import Floats.SpecFloat.
Import ListNotations.

Set Implicit Arguments.
Set Warnings "-register-all".

(* ===================================================================== *)
(** * Python values *)
(* ===================================================================== *)

Module Py.

Local Open Scope string_scope.
Local Open Scope list_scope.
Local Open Scope Z_scope.

(** A Python [str] is a sequence of Unicode code points. *)
Definition char := N.
Definition str := list char.

Definition str_of_string (s : string) : str :=
  map N_of_ascii (list_ascii_of_string s).

Coercion str_of_string : string >-> str.

Fixpoint str_eqb (a b : str) : bool :=
  match a, b with
  | [], [] => true
  | x :: a', y :: b' => N.eqb x y && str_eqb a' b'
  | _, _ => false
  end.

(** Python floats are IEEE 754 binary64 numbers. *)
Definition prec : Z := 53.
Definition emax : Z := 1024.
Definition float := spec_float.

(** The values of the program: those [json.loads] returns, and the
    [str] an f-string evaluates to. Rendering a value to text ([str()] and
    [repr()] of arbitrary objects) is not modelled: an f-string is kept as
    [PFString], the list of its literal pieces and of the values
    interpolated between them. *)
Inductive pyval : Type :=
| PNone
| PBool (b : bool)
| PInt (n : Z)
| PFloat (f : float)
| PStr (s : str)
| PList (l : list pyval)
| PDict (d : list (str * pyval))
| PFString (pieces : list (str + pyval)).

(** A [dict] keeps its keys in insertion order. *)
Definition dict := list (str * pyval).

Fixpoint dict_lookup (d : dict) (k : str) : option pyval :=
  match d with
  | [] => None
  | (k', v) :: d' => if str_eqb k' k then Some v else dict_lookup d' k
  end.

(** [d[k] = v]: an existing key keeps its place, a new key goes last. *)
Fixpoint dict_set (d : dict) (k : str) (v : pyval) : dict :=
  match d with
  | [] => [(k, v)]
  | (k', v') :: d' =>
      if str_eqb k' k then (k', v) :: d' else (k', v') :: dict_set d' k v
  end.

(** [d.update(e)] *)
Definition dict_update (d e : dict) : dict :=
  fold_left (fun acc kv => dict_set acc (fst kv) (snd kv)) e d.

(** [d.get(k)] and [d.get(k, default)] *)
Definition dict_get (d : dict) (k : str) : pyval :=
  match dict_lookup d k with Some v => v | None => PNone end.

Definition dict_get_default (d : dict) (k : str) (default : pyval) : pyval :=
  match dict_lookup d k with Some v => v | None => default end.

(** Exceptions.  A [ValueError] raised by the program carries its message;
    one raised by the interpreter carries [None]. [JSONDecodeError] and
    [UnicodeEncodeError] are subclasses of [ValueError] in Python. *)
Inductive exn : Type :=
| ValueError (msg : option pyval)
| JSONDecodeError
| UnicodeEncodeError
| TypeError
| KeyError
| IndexError
| OverflowError
| APIError.

Definition result (A : Type) : Type := exn + A.

Definition rbind {A B} (r : result A) (k : A -> result B) : result B :=
  match r with inl e => inl e | inr a => k a end.

(* --------------------------------------------------------------------- *)
(** ** Floats *)

(** The nearest binary64 to [m * 10^e], ties to even: what [float()] makes
    of a decimal literal with digits [m] and exponent [e]. The two guards
    only avoid building powers of ten whose result is known: from [10^309]
    on everything rounds to infinity, below [10^-330] everything rounds to
    zero; [nd] is the number of digits of [m]. *)
Definition float_of_decimal (neg : bool) (m : Z) (nd : Z) (e : Z) : float :=
  match m with
  | Zpos p =>
      if 309 <=? e then S754_infinity neg
      else if nd + e <=? -330 then S754_zero neg
      else if 0 <=? e then binary_round prec emax neg (Z.to_pos (m * 10 ^ e)) 0
      else SFdiv prec emax (S754_finite neg p 0)
                           (S754_finite false (Z.to_pos (10 ^ (- e))) 0)
  | _ => S754_zero neg
  end.

(** [float(n)] for an [int] *)
Definition float_of_Z (n : Z) : result float :=
  match binary_normalize prec emax n 0 false with
  | S754_infinity _ => inl OverflowError
  | f => inr f
  end.

(** [int(f)] for a [float]: truncation toward zero *)
Definition float_trunc (f : float) : result Z :=
  match f with
  | S754_zero _ => inr 0
  | S754_finite s m e =>
      let a := if 0 <=? e then Zpos m * 2 ^ e else Zpos m / 2 ^ (- e) in
      inr (if s then - a else a)
  | S754_infinity _ => inl OverflowError
  | S754_nan => inl (ValueError None)
  end.

Definition float_is_zero (f : float) : bool :=
  match f with S754_zero _ => true | _ => false end.

(* --------------------------------------------------------------------- *)
(** ** Text to number: [int(str)] and [float(str)] *)

Definition is_digit (c : N) : bool := (N.leb 48 c && N.leb c 57)%N.

(** The zero of every run of ten decimal digits (Unicode 14, [Nd]) above
    ASCII, and the white space above ASCII. *)
Definition decimal_zeros : list N :=
  [1632; 1776; 1984; 2406; 2534; 2662; 2790; 2918; 3046; 3174; 3302; 3430;
   3558; 3664; 3792; 3872; 4160; 4240; 6112; 6160; 6470; 6608; 6784; 6800;
   6992; 7088; 7232; 7248; 42528; 43216; 43264; 43472; 43504; 43600; 44016;
   65296; 66720; 68912; 69734; 69872; 69942; 70096; 70384; 70736; 70864;
   71248; 71360; 71472; 71904; 72016; 72784; 73040; 73120; 92768; 92864;
   93008; 120782; 120792; 120802; 120812; 120822; 123200; 123632; 125264;
   130032]%N.

Definition unicode_spaces : list N :=
  [133; 160; 5760; 8192; 8193; 8194; 8195; 8196; 8197; 8198; 8199; 8200;
   8201; 8202; 8232; 8233; 8239; 8287; 12288]%N.

Definition to_decimal (c : N) : option N :=
  match find (fun z => N.leb z c && N.ltb c (z + 10))%N decimal_zeros with
  | Some z => Some (c - z)%N
  | None => None
  end.

(** Digits and white space above ASCII become their ASCII counterparts;
    the text is cut at the first other character above ASCII, which is
    replaced by a question mark. *)
Fixpoint to_ascii_number (s : str) : str :=
  match s with
  | [] => []
  | c :: s' =>
      if N.ltb c 127 then c :: to_ascii_number s'
      else if existsb (N.eqb c) unicode_spaces then 32%N :: to_ascii_number s'
      else match to_decimal c with
           | Some d => (48 + d)%N :: to_ascii_number s'
           | None => [63%N]
           end
  end.

Definition is_space (c : N) : bool :=
  (N.leb 9 c && N.leb c 13)%N || N.eqb c 32.

Fixpoint lstrip (s : str) : str :=
  match s with
  | c :: s' => if is_space c then lstrip s' else s
  | [] => []
  end.

Definition strip (s : str) : str := rev (lstrip (rev (lstrip s))).

(** Digits with single underscores between them: the digits read, or
    [None] when the text is not of that shape. [prev] tells whether the
    previous character was a digit. *)
Fixpoint digits_us (s : str) (prev : bool) (acc : list N) : option (list N * str) :=
  match s with
  | c :: s' =>
      if is_digit c then digits_us s' true (acc ++ [(c - 48)%N])
      else if N.eqb c 95 then
        if prev then
          match s' with
          | c' :: _ => if is_digit c' then digits_us s' false acc else None
          | [] => None
          end
        else None
      else if prev then Some (acc, s) else None
  | [] => if prev then Some (acc, []) else None
  end.

Definition Z_of_digits (ds : list N) : Z :=
  fold_left (fun a d => 10 * a + Z.of_N d) ds 0.

Definition split_sign (s : str) : bool * str :=
  match s with
  | 45%N :: s' => (true, s')
  | 43%N :: s' => (false, s')
  | _ => (false, s)
  end.

(** The interpreter's default limit on the digits of an integer literal. *)
Definition int_max_str_digits : nat := 4300.

Definition int_of_str (s : str) : result Z :=
  let (neg, body) := split_sign (strip (to_ascii_number s)) in
  match digits_us body false [] with
  | Some (ds, []) =>
      if Nat.ltb int_max_str_digits (List.length ds) then inl (ValueError None)
      else inr (if neg then - Z_of_digits ds else Z_of_digits ds)
  | _ => inl (ValueError None)
  end.

Definition lower (c : N) : N :=
  if (N.leb 65 c && N.leb c 90)%N then (c + 32)%N else c.

(** [float(str)]: [inf], [infinity] and [nan] in any case, or a decimal
    number with an optional fraction and exponent. *)
Definition float_of_str (s : str) : result float :=
  let (neg, body) := split_sign (strip (to_ascii_number s)) in
  let low := map lower body in
  if str_eqb low "inf" || str_eqb low "infinity" then inr (S754_infinity neg)
  else if str_eqb low "nan" then inr S754_nan
  else
    let int_part :=
      match digits_us body false [] with
      | Some (ds, rest) => (ds, rest, true)
      | None => ([], body, false)
      end in
    let '(ids, rest, has_int) := int_part in
    let frac_part :=
      match rest with
      | 46%N :: rest' =>
          match digits_us rest' false [] with
          | Some (fs, rest'') => Some (fs, rest'', true)
          | None => if has_int then Some ([], rest', false) else None
          end
      | _ => if has_int then Some ([], rest, false) else None
      end in
    match frac_part with
    | None => inl (ValueError None)
    | Some (fds, rest, _) =>
        let exp_part :=
          match rest with
          | c :: rest' =>
              if N.eqb (lower c) 101 then
                let (eneg, erest) := split_sign rest' in
                match digits_us erest false [] with
                | Some (es, []) =>
                    Some (if eneg then - Z_of_digits es else Z_of_digits es)
                | _ => None
                end
              else None
          | [] => Some 0
          end in
        match exp_part with
        | None => inl (ValueError None)
        | Some e =>
            let ds := ids ++ fds in
            inr (float_of_decimal neg (Z_of_digits ds) (Z.of_nat (List.length ds))
                                  (e - Z.of_nat (List.length fds)))
        end
    end.

(* --------------------------------------------------------------------- *)
(** ** Builtins on values the program does not control *)

(** Truth value, as [if v:], [not v] and [v or w] test it. Every f-string
    of the program has literal text, so none renders to the empty [str]. *)
Definition truthy (v : pyval) : bool :=
  match v with
  | PNone => false
  | PBool b => b
  | PInt n => negb (n =? 0)
  | PFloat f => negb (float_is_zero f)
  | PStr s => match s with [] => false | _ => true end
  | PList l => match l with [] => false | _ => true end
  | PDict d => match d with [] => false | _ => true end
  | PFString _ => true
  end.

(** [v or w] *)
Definition por (v w : pyval) : pyval := if truthy v then v else w.

(** [len(v)] *)
Definition len (v : pyval) : result Z :=
  match v with
  | PStr s => inr (Z.of_nat (List.length s))
  | PList l => inr (Z.of_nat (List.length l))
  | PDict d => inr (Z.of_nat (List.length d))
  | _ => inl TypeError
  end.

(** [l[i]] on a list, with Python's negative indices *)
Definition list_index {A} (l : list A) (i : Z) : result A :=
  let n := Z.of_nat (List.length l) in
  let j := if i <? 0 then i + n else i in
  if (j <? 0) || (n <=? j) then inl IndexError
  else match nth_error l (Z.to_nat j) with
       | Some a => inr a
       | None => inl IndexError
       end.

(** [v[i]] for an [int] index. The keys of a decoded object are all [str],
    so an [int] is never among them. *)
Definition getitem_int (v : pyval) (i : Z) : result pyval :=
  match v with
  | PList l => list_index l i
  | PStr s => rbind (list_index s i) (fun c => inr (PStr [c]))
  | PDict _ => inl KeyError
  | _ => inl TypeError
  end.

(** [int(v)] *)
Definition int (v : pyval) : result Z :=
  match v with
  | PInt n => inr n
  | PBool b => inr (if b then 1 else 0)
  | PFloat f => float_trunc f
  | PStr s => int_of_str s
  | _ => inl TypeError
  end.

(** [float(v)] *)
Definition to_float (v : pyval) : result float :=
  match v with
  | PInt n => float_of_Z n
  | PBool b => float_of_Z (if b then 1 else 0)
  | PFloat f => inr f
  | PStr s => float_of_str s
  | _ => inl TypeError
  end.

(** [v[:n]] for [n >= 0] *)
Definition slice_to (v : pyval) (n : nat) : result pyval :=
  match v with
  | PStr s => inr (PStr (firstn n s))
  | PList l => inr (PList (firstn n l))
  | _ => inl TypeError
  end.

(** The items [for x in v] visits *)
Definition iter (v : pyval) : result (list pyval) :=
  match v with
  | PList l => inr l
  | PStr s => inr (map (fun c => PStr [c]) s)
  | PDict d => inr (map (fun kv => PStr (fst kv)) d)
  | _ => inl TypeError
  end.

(** The items [for x in reversed(v)] visits *)
Definition reversed (v : pyval) : result (list pyval) :=
  rbind (iter v) (fun l => inr (rev l)).

(** Lists and dicts cannot be hashed: they are neither dict keys nor set
    members, and looking one up raises [TypeError]. *)
Definition hashable (v : pyval) : bool :=
  match v with
  | PList _ | PDict _ => false
  | _ => true
  end.

(** [v == s] for a [str] constant [s]. It is applied to the status of a
    payload only, which is never an f-string. *)
Definition eq_str (v : pyval) (s : str) : bool :=
  match v with
  | PStr s' => str_eqb s' s
  | _ => false
  end.

(** [v in {s1, s2, ...}] for a set of [str] constants *)
Definition in_str_set (v : pyval) (set : list str) : result bool :=
  if hashable v then inr (existsb (eq_str v) set) else inl TypeError.

End Py.

(* ===================================================================== *)
(** * [json.loads] *)
(* ===================================================================== *)

(** The decoder of the standard library on a [str], with its defaults:
    [NaN], [Infinity] and [-Infinity] are accepted, control characters
    inside strings are not, a repeated key keeps its last value, and
    anything but white space after the value is an error. The
    interpreter's recursion limit on deeply nested documents is not
    modelled. *)
Module Json.

Import Py.
Local Open Scope list_scope.
Local Open Scope N_scope.

Definition is_ws (c : N) : bool :=
  (c =? 32) || (c =? 9) || (c =? 10) || (c =? 13).

Fixpoint skip_ws (s : str) : str :=
  match s with
  | c :: s' => if is_ws c then skip_ws s' else s
  | [] => []
  end.

Definition hex_digit (c : N) : option N :=
  if (48 <=? c) && (c <=? 57) then Some (c - 48)
  else if (97 <=? c) && (c <=? 102) then Some (c - 87)
  else if (65 <=? c) && (c <=? 70) then Some (c - 55)
  else None.

Definition hex4 (a b c d : N) : option N :=
  match hex_digit a, hex_digit b, hex_digit c, hex_digit d with
  | Some x, Some y, Some z, Some w => Some (((x * 16 + y) * 16 + z) * 16 + w)
  | _, _, _, _ => None
  end.

Definition is_high_surrogate (u : N) : bool := (55296 <=? u) && (u <=? 56319).
Definition is_low_surrogate (u : N) : bool := (56320 <=? u) && (u <=? 57343).
Definition join_surrogates (hi lo : N) : N :=
  65536 + (hi - 55296) * 1024 + (lo - 56320).

(** The character a backslash and [c] stand for, [u] apart *)
Definition simple_escape (c : N) : option N :=
  match c with
  | 34 => Some 34 | 92 => Some 92 | 47 => Some 47
  | 98 => Some 8 | 102 => Some 12 | 110 => Some 10
  | 114 => Some 13 | 116 => Some 9
  | _ => None
  end.

(** The text of a string literal, read from just after its opening quote,
    and what follows its closing quote. [acc] holds the characters read so
    far, last one first. A high surrogate followed by the escape of a low
    one is joined with it into one character. *)
Fixpoint scanstring (s : str) (acc : str) : option (str * str) :=
  match s with
  | [] => None
  | c :: rest =>
      if c =? 34 then Some (rev acc, rest)
      else if c =? 92 then
        match rest with
        | [] => None
        | e :: rest1 =>
            if e =? 117 then
              match rest1 with
              | h1 :: h2 :: h3 :: h4 :: rest2 =>
                  match hex4 h1 h2 h3 h4 with
                  | None => None
                  | Some u =>
                      if is_high_surrogate u then
                        match rest2 with
                        | b :: e2 :: l1 :: l2 :: l3 :: l4 :: rest3 =>
                            if (b =? 92) && (e2 =? 117) then
                              match hex4 l1 l2 l3 l4 with
                              | None => None
                              | Some u2 =>
                                  if is_low_surrogate u2
                                  then scanstring rest3 (join_surrogates u u2 :: acc)
                                  else scanstring rest2 (u :: acc)
                              end
                            else scanstring rest2 (u :: acc)
                        | _ => scanstring rest2 (u :: acc)
                        end
                      else scanstring rest2 (u :: acc)
                  end
              | _ => None
              end
            else
              match simple_escape e with
              | Some x => scanstring rest1 (x :: acc)
              | None => None
              end
        end
      else if c <=? 31 then None
      else scanstring rest (c :: acc)
  end.

Fixpoint span_digits (s : str) : list N * str :=
  match s with
  | c :: s' =>
      if is_digit c then let (ds, r) := span_digits s' in ((c - 48) :: ds, r)
      else ([], s)
  | [] => ([], [])
  end.

(** An optional minus sign *)
Definition minus_prefix (s : str) : bool * str :=
  match s with
  | c :: r => if c =? 45 then (true, r) else (false, s)
  | [] => (false, s)
  end.

(** The integer part of a number: a single zero, or digits that start
    with a non-zero one *)
Definition int_part (s : str) : option (list N * str) :=
  match s with
  | c :: r =>
      if c =? 48 then Some ([0], r)
      else if (49 <=? c) && (c <=? 57) then Some (span_digits s)
      else None
  | [] => None
  end.

(** The fraction: a point followed by at least one digit *)
Definition frac_part (s : str) : list N * str :=
  match s with
  | p :: c :: _ =>
      if (p =? 46) && is_digit c then span_digits (tl s) else ([], s)
  | _ => ([], s)
  end.

(** The exponent: [e] or [E], an optional sign, at least one digit *)
Definition exp_part (s : str) : option Z * str :=
  match s with
  | c :: r =>
      if (c =? 101) || (c =? 69) then
        let (eneg, r') :=
          match r with
          | c' :: r' =>
              if c' =? 45 then (true, r')
              else if c' =? 43 then (false, r')
              else (false, r)
          | [] => (false, r)
          end in
        match span_digits r' with
        | ([], _) => (None, s)
        | (es, r'') =>
            (Some (if eneg then (- Z_of_digits es)%Z else Z_of_digits es), r'')
        end
      else (None, s)
  | [] => (None, s)
  end.

(** A number at the head of [s]: [None] when there is none. An integer
    literal longer than the interpreter allows raises [ValueError]. *)
Definition match_number (s : str) : option (result pyval * str) :=
  let (neg, s1) := minus_prefix s in
  match int_part s1 with
  | None => None
  | Some (ids, r1) =>
      let (fds, r2) := frac_part r1 in
      let (exp, r3) := exp_part r2 in
      match fds, exp with
      | [], None =>
          if Nat.ltb int_max_str_digits (List.length ids)
          then Some (inl (ValueError None), r3)
          else Some (inr (PInt (if neg then (- Z_of_digits ids)%Z
                                else Z_of_digits ids)), r3)
      | _, _ =>
          let ds := (ids ++ fds)%list in
          let e := match exp with Some e => e | None => 0%Z end in
          Some (inr (PFloat (float_of_decimal neg (Z_of_digits ds)
                               (Z.of_nat (List.length ds))
                               (e - Z.of_nat (List.length fds))%Z)), r3)
      end
  end.

(** [s] starts with the characters of [w]: what follows them. *)
Fixpoint after_prefix (w s : str) : option str :=
  match w, s with
  | [], _ => Some s
  | a :: w', b :: s' => if a =? b then after_prefix w' s' else None
  | _ :: _, [] => None
  end.

Definition literal (w : string) (v : pyval) (s : str) : option (result pyval * str) :=
  match after_prefix w s with
  | Some r => Some (inr v, r)
  | None => None
  end.

(** A constant or a number at the head of [s] *)
Definition scan_atom (s : str) : option (result pyval * str) :=
  match literal "null" PNone s with Some x => Some x | None =>
  match literal "true" (PBool true) s with Some x => Some x | None =>
  match literal "false" (PBool false) s with Some x => Some x | None =>
  match literal "NaN" (PFloat S754_nan) s with Some x => Some x | None =>
  match literal "Infinity" (PFloat (S754_infinity false)) s with Some x => Some x | None =>
  match literal "-Infinity" (PFloat (S754_infinity true)) s with Some x => Some x | None =>
  match_number s
  end end end end end end.

(** The three mutually recursive scanners take a bound on the calls they
    may nest, and answer [None] when it is used up; [loads] gives them a
    bound they never reach (lemma [loads_fuel] below). *)

(** One value at the head of [s] (no white space is skipped before it),
    and the arrays and objects inside it. *)
Fixpoint scan_once (fuel : nat) (s : str) : option (result (pyval * str)) :=
  match fuel with
  | O => None
  | S fuel' =>
      match s with
      | [] => Some (inl JSONDecodeError)
      | c :: r =>
          if c =? 34 then
            match scanstring r [] with
            | Some (t, r') => Some (inr (PStr t, r'))
            | None => Some (inl JSONDecodeError)
            end
          else if c =? 123 then
            match skip_ws r with
            | [] => Some (inl JSONDecodeError)
            | c' :: r' =>
                if c' =? 125 then Some (inr (PDict [], r'))
                else
                  match parse_object fuel' (c' :: r') [] with
                  | Some (inr (d, r'')) => Some (inr (PDict d, r''))
                  | Some (inl e) => Some (inl e)
                  | None => None
                  end
            end
          else if c =? 91 then
            match skip_ws r with
            | [] => Some (inl JSONDecodeError)
            | c' :: r' =>
                if c' =? 93 then Some (inr (PList [], r'))
                else
                  match parse_array fuel' (c' :: r') [] with
                  | Some (inr (l, r'')) => Some (inr (PList l, r''))
                  | Some (inl e) => Some (inl e)
                  | None => None
                  end
            end
          else
            match scan_atom s with
            | Some (inr v, r') => Some (inr (v, r'))
            | Some (inl e, _) => Some (inl e)
            | None => Some (inl JSONDecodeError)
            end
      end
  end

(** The items of an array, from its first value to its closing bracket *)
with parse_array (fuel : nat) (s : str) (acc : list pyval)
    : option (result (list pyval * str)) :=
  match fuel with
  | O => None
  | S fuel' =>
      match scan_once fuel' s with
      | None => None
      | Some (inl e) => Some (inl e)
      | Some (inr (v, r)) =>
          match skip_ws r with
          | [] => Some (inl JSONDecodeError)
          | c :: r' =>
              if c =? 93 then Some (inr ((acc ++ [v])%list, r'))
              else if c =? 44 then parse_array fuel' (skip_ws r') (acc ++ [v])%list
              else Some (inl JSONDecodeError)
          end
      end
  end

(** The pairs of an object, from its first key to its closing brace *)
with parse_object (fuel : nat) (s : str) (acc : dict)
    : option (result (dict * str)) :=
  match fuel with
  | O => None
  | S fuel' =>
      match s with
      | [] => Some (inl JSONDecodeError)
      | q :: r =>
          if q =? 34 then
            match scanstring r [] with
            | None => Some (inl JSONDecodeError)
            | Some (k, r1) =>
                match skip_ws r1 with
                | [] => Some (inl JSONDecodeError)
                | c :: r2 =>
                    if c =? 58 then
                      match scan_once fuel' (skip_ws r2) with
                      | None => None
                      | Some (inl e) => Some (inl e)
                      | Some (inr (v, r3)) =>
                          match skip_ws r3 with
                          | [] => Some (inl JSONDecodeError)
                          | c' :: r4 =>
                              if c' =? 125 then Some (inr (dict_set acc k v, r4))
                              else if c' =? 44
                              then parse_object fuel' (skip_ws r4) (dict_set acc k v)
                              else Some (inl JSONDecodeError)
                          end
                      end
                    else Some (inl JSONDecodeError)
                end
            end
          else Some (inl JSONDecodeError)
      end
  end.

Definition fuel_for (s : str) : nat := 2 * List.length s + 1.

(** [JSONDecoder.decode]: white space, one value, white space, the end *)
Definition decode (s : str) : result pyval :=
  match scan_once (fuel_for s) (skip_ws s) with
  | Some (inr (v, r)) =>
      match skip_ws r with
      | [] => inr v
      | _ => inl JSONDecodeError
      end
  | Some (inl e) => inl e
  | None => inl JSONDecodeError
  end.

(** [json.loads(s)]; a leading byte order mark is refused. *)
Definition loads (s : str) : result pyval :=
  match s with
  | c :: _ => if c =? 65279 then inl JSONDecodeError else decode s
  | [] => decode s
  end.

(** JSON text is written here with single quotes where JSON has double
    quotes. *)
Definition dq (s : string) : str :=
  map (fun c => if c =? 39 then 34 else c) (str_of_string s).

End Json.

(* ===================================================================== *)
(** * Effects: a trace of backend calls, and exceptions *)
(* ===================================================================== *)

Module Effect.

Import Py.
Local Open Scope list_scope.

(** A computation on a state [S] either returns or raises; the state
    reached is kept in both cases, since what was done before an exception
    stays done. *)
Inductive outcome (S A : Type) : Type :=
| Ok (a : A) (s : S)
| Raise (e : exn) (s : S).

Arguments Ok {S A} a s.
Arguments Raise {S A} e s.

Definition M (S A : Type) : Type := S -> outcome S A.

Definition ret {S A} (a : A) : M S A := fun s => Ok a s.

Definition bind {S A B} (c : M S A) (k : A -> M S B) : M S B :=
  fun s => match c s with
           | Ok a s' => k a s'
           | Raise e s' => Raise e s'
           end.

Definition raise {S A} (e : exn) : M S A := fun s => Raise e s.

(** A builtin that may raise *)
Definition lift {S A} (r : result A) : M S A :=
  match r with inl e => raise e | inr a => ret a end.

Definition gets {S A} (f : S -> A) : M S A := fun s => Ok (f s) s.

Definition modify {S} (f : S -> S) : M S unit := fun s => Ok tt (f s).

(** [for x in l: body(x)] *)
Fixpoint for_each {S A} (l : list A) (body : A -> M S unit) : M S unit :=
  match l with
  | [] => ret tt
  | x :: l' => bind (body x) (fun _ => for_each l' body)
  end.

Module Notations.

Declare Scope py_scope.
Delimit Scope py_scope with py.

Notation "x <- c ;; k" := (bind c (fun x => k))
  (at level 61, c at next level, right associativity) : py_scope.

Notation "c ;; k" := (bind c (fun _ => k))
  (at level 61, right associativity) : py_scope.

End Notations.

End Effect.

(* ===================================================================== *)
(** * [ComputerUseTool] *)
(* ===================================================================== *)

Module Tool.

Import Py Effect Effect.Notations.
Local Open Scope string_scope.
Local Open Scope list_scope.
Local Open Scope Z_scope.
Local Open Scope py_scope.

(** One entry of [sct.monitors] *)
Record monitor : Type := {
  mon_left : Z;
  mon_top : Z;
  mon_width : Z;
  mon_height : Z
}.

(** A [pathlib.Path] on a POSIX system *)
Record path : Type := {
  path_absolute : bool;
  path_parts : list str
}.

(** [p / name], for a file name without separators *)
Definition path_join (p : path) (name : str) : path :=
  {| path_absolute := path_absolute p; path_parts := path_parts p ++ [name] |}.

Fixpoint join_parts (parts : list str) : str :=
  match parts with
  | [] => []
  | [x] => x
  | x :: rest => x ++ [47%N] ++ join_parts rest
  end.

(** [str(p)] *)
Definition path_str (p : path) : str :=
  match path_absolute p, path_parts p with
  | true, parts => 47%N :: join_parts parts
  | false, [] => "."
  | false, parts => join_parts parts
  end.

(** The calls the program makes into pyautogui ([pg]), mss ([sct]), PIL,
    [time] and [print], with their arguments. *)
Inductive event : Type :=
| PgMoveTo (x y : Z) (duration : float)
| PgClick (at_xy : option (Z * Z)) (button : str)
| PgDoubleClick (x y : Z)
| PgTripleClick (x y : Z)
| PgMouseDown
| PgDragTo (x y : Z) (duration : float) (button : str)
| PgMouseUp
| PgScroll (clicks : Z)
| PgHscroll (clicks : Z)
| PgTypewrite (message : pyval) (interval : float)
| PgKeyDown (key : pyval)
| PgKeyUp (key : pyval)
| TimeSleep (secs : float)
| SctGrab (m : monitor)
| ImgSave (p : path)
| Print (line : pyval).

Definition trace := list event.

(** What the world answers. Each answer may depend on everything the
    program has done so far. *)
Record environment : Type := {
  (** [sct.monitors] *)
  monitors : list monitor;
  (** the base64 text of the PNG encoding of the frame last grabbed *)
  png_base64 : trace -> str;
  (** [pg.position()] *)
  position : trace -> Z * Z;
  (** [time.strftime("%Y%m%d-%H%M%S")] *)
  strftime : trace -> str;
  (** whether [sys.stdout] can encode the line [print] is given, with the
      encoding and the error handler it was opened with *)
  stdout_accepts : pyval -> bool
}.

(** The fields [__init__] stores on the tool *)
Record ComputerUseTool : Type := {
  screenshot_dir : path;
  monitor_index : Z;
  mouse_move_duration : float;
  drag_duration : float
}.

Definition T (A : Type) : Type := M trace A.

Definition emit (e : event) : T unit := modify (fun t => t ++ [e]).

(** [ValueError("...")] as the program raises it *)
Definition value_error {A} (msg : string) : T A :=
  raise (ValueError (Some (PStr msg))).

(* --------------------------------------------------------------------- *)
(** ** [time.sleep] *)

Definition ns_per_s : float := binary_round prec emax false 1000000000 0.

(** A float rounded away from zero to a whole number; [None] for an
    infinity or a NaN. *)
Definition round_away (d : float) : option Z :=
  match d with
  | S754_zero _ => Some 0
  | S754_finite s m e =>
      let a := if 0 <=? e then Zpos m * 2 ^ e
               else (Zpos m + 2 ^ (- e) - 1) / 2 ^ (- e) in
      Some (if s then - a else a)
  | _ => None
  end.

(** [time.sleep(secs)] on CPython 3.11, x86-64: the duration is converted
    to a signed 64-bit count of nanoseconds, rounding away from zero, before
    its sign is checked. A count of exactly [2^63] passes the range check
    and wraps around to a negative one. *)
Definition time_sleep (secs : float) : T unit :=
  match secs with
  | S754_nan => raise (ValueError None)
  | _ =>
      match round_away (SFmul prec emax secs ns_per_s) with
      | None => raise OverflowError
      | Some ns =>
          if (ns <? - 2 ^ 63) || (2 ^ 63 <? ns) then raise OverflowError
          else if (ns <? 0) || (ns =? 2 ^ 63) then raise (ValueError None)
          else emit (TimeSleep secs)
      end
  end.

(* --------------------------------------------------------------------- *)
(** ** Module-level helpers *)

Definition coordinate_required : string :=
  "coordinate=[x, y] is required for this action.".

(** [_ensure_xy]; the two-element list it returns is the pair [(x, y)]. *)
Definition _ensure_xy {S} (coordinate : pyval) : M S (Z * Z) :=
  if negb (truthy coordinate) then raise (ValueError (Some (PStr coordinate_required)))
  else
    n <- lift (len coordinate) ;;
    if negb (n =? 2) then raise (ValueError (Some (PStr coordinate_required)))
    else
      c0 <- lift (getitem_int coordinate 0) ;;
      x <- lift (int c0) ;;
      c1 <- lift (getitem_int coordinate 1) ;;
      y <- lift (int c1) ;;
      ret (x, y).

(** [_maybe_int] *)
Definition _maybe_int {S} (value : pyval) (default : Z) : M S Z :=
  match value with
  | PNone => ret default
  | _ => lift (int value)
  end.

(** [ToolResult] *)
Record ToolResult : Type := { payload : dict }.

(* --------------------------------------------------------------------- *)
(** ** The handlers *)

Section Handlers.

Variable env : environment.
Variable self : ComputerUseTool.

Definition ok (detail : pyval) : dict :=
  [("status" : str, PStr "ok"); ("detail" : str, detail)].

(** [f"... ({x}, {y})."] *)
Definition at_xy (before : string) (x y : Z) : pyval :=
  PFString [inl (before : str); inr (PInt x); inl (", " : str);
            inr (PInt y); inl (")." : str)].

Definition _mouse_move (params : dict) : T dict :=
  xy <- _ensure_xy (dict_get params "coordinate") ;;
  let (x, y) := (xy : Z * Z) in
  emit (PgMoveTo x y (mouse_move_duration self)) ;;
  ret (ok (at_xy "Moved to (" x y)).

Definition _left_click (params : dict) : T dict :=
  let coord := dict_get params "coordinate" in
  if truthy coord then
    xy <- _ensure_xy coord ;;
    let (x, y) := (xy : Z * Z) in
    emit (PgClick (Some (x, y)) "left") ;;
    ret (ok (at_xy "Left click at (" x y))
  else
    emit (PgClick None "left") ;;
    ret (ok (PStr "Left click at current cursor.")).

Definition _right_click (params : dict) : T dict :=
  let coord := dict_get params "coordinate" in
  if truthy coord then
    xy <- _ensure_xy coord ;;
    let (x, y) := (xy : Z * Z) in
    emit (PgClick (Some (x, y)) "right") ;;
    ret (ok (at_xy "Right click at (" x y))
  else
    emit (PgClick None "right") ;;
    ret (ok (PStr "Right click at current cursor.")).

Definition _middle_click (params : dict) : T dict :=
  let coord := dict_get params "coordinate" in
  if truthy coord then
    xy <- _ensure_xy coord ;;
    let (x, y) := (xy : Z * Z) in
    emit (PgClick (Some (x, y)) "middle") ;;
    ret (ok (at_xy "Middle click at (" x y))
  else
    emit (PgClick None "middle") ;;
    ret (ok (PStr "Middle click at current cursor.")).

Definition _double_click (params : dict) : T dict :=
  xy <- _ensure_xy (dict_get params "coordinate") ;;
  let (x, y) := (xy : Z * Z) in
  emit (PgDoubleClick x y) ;;
  ret (ok (at_xy "Double click at (" x y)).

Definition _triple_click (params : dict) : T dict :=
  xy <- _ensure_xy (dict_get params "coordinate") ;;
  let (x, y) := (xy : Z * Z) in
  emit (PgTripleClick x y) ;;
  ret (ok (at_xy "Triple click at (" x y)).

Definition _left_click_drag (params : dict) : T dict :=
  xy <- _ensure_xy (dict_get params "coordinate") ;;
  let (x, y) := (xy : Z * Z) in
  emit PgMouseDown ;;
  emit (PgDragTo x y (drag_duration self) "left") ;;
  emit PgMouseUp ;;
  ret (ok (at_xy "Drag to (" x y)).

Definition _scroll (params : dict) : T dict :=
  pixels <- _maybe_int (dict_get params "pixels") 0 ;;
  emit (PgScroll pixels) ;;
  ret (ok (PFString [inl ("Scroll " : str); inr (PInt pixels);
                     inl (" vertically." : str)])).

Definition _hscroll (params : dict) : T dict :=
  pixels <- _maybe_int (dict_get params "pixels") 0 ;;
  emit (PgHscroll pixels) ;;
  ret (ok (PFString [inl ("Scroll " : str); inr (PInt pixels);
                     inl (" horizontally." : str)])).

(** The typing interval [0.01] *)
Definition typewrite_interval : float := float_of_decimal false 1 1 (-2).

Definition quote : str := [34%N].

Definition _type (params : dict) : T dict :=
  let text := dict_get params "text" in
  match text with
  | PNone => value_error "text is required for action=type."
  | _ =>
      emit (PgTypewrite text typewrite_interval) ;;
      shown <- lift (slice_to text 50) ;;
      ret (ok (PFString [inl (("Typed " : str) ++ quote); inr shown;
                         inl (quote ++ ("." : str))]))
  end.

Definition _key (params : dict) : T dict :=
  let keys := por (dict_get params "keys") (PList []) in
  if negb (truthy keys) then value_error "keys is required for action=key."
  else
    downs <- lift (iter keys) ;;
    for_each downs (fun key => emit (PgKeyDown key)) ;;
    ups <- lift (reversed keys) ;;
    for_each ups (fun key => emit (PgKeyUp key)) ;;
    ret (ok (PFString [inl ("Pressed keys " : str); inr keys; inl ("." : str)])).

Definition _wait (params : dict) : T dict :=
  let duration := dict_get params "time" in
  match duration with
  | PNone => value_error "time is required for action=wait."
  | _ =>
      secs <- lift (to_float duration) ;;
      time_sleep secs ;;
      ret (ok (PFString [inl ("Waited " : str); inr duration;
                         inl (" seconds." : str)]))
  end.

Definition _answer (params : dict) : T dict :=
  let text := por (dict_get params "text") (PStr []) in
  ret [("status" : str, PStr "answer"); ("text" : str, text)].

Definition _terminate (params : dict) : T dict :=
  let status := dict_get params "status" in
  known <- lift (in_str_set status ["success" : str; "failure" : str]) ;;
  if negb known
  then value_error "status must be success or failure for action=terminate."
  else ret [("status" : str, PStr "terminate"); ("result" : str, status)].

(** [_now_ts] *)
Definition _now_ts : T str := gets (strftime env).

Definition _attach_screenshot (result : dict) : T dict :=
  monitor <- lift (list_index (monitors env) (monitor_index self)) ;;
  emit (SctGrab monitor) ;;
  ts <- _now_ts ;;
  let path := path_join (screenshot_dir self) (ts ++ (".png" : str)) in
  emit (ImgSave path) ;;
  encoded <- gets (png_base64 env) ;;
  cursor <- gets (position env) ;;
  ret (dict_update result
         [("screenshot" : str, PStr (("data:image/png;base64," : str) ++ encoded));
          ("screenshot_path" : str, PStr (path_str path));
          ("cursor" : str, PDict [("x" : str, PInt (fst cursor));
                                  ("y" : str, PInt (snd cursor))]);
          ("display" : str, PDict [("width" : str, PInt (mon_width monitor));
                                   ("height" : str, PInt (mon_height monitor))])]).

(** The dispatch table of [call] *)
Definition handlers : list (str * (dict -> T dict)) :=
  [("mouse_move" : str, _mouse_move);
   ("left_click" : str, _left_click);
   ("right_click" : str, _right_click);
   ("middle_click" : str, _middle_click);
   ("double_click" : str, _double_click);
   ("triple_click" : str, _triple_click);
   ("left_click_drag" : str, _left_click_drag);
   ("scroll" : str, _scroll);
   ("hscroll" : str, _hscroll);
   ("type" : str, _type);
   ("key" : str, _key);
   ("wait" : str, _wait);
   ("answer" : str, _answer);
   ("terminate" : str, _terminate)].

Fixpoint table_get {A} (table : list (str * A)) (k : str) : option A :=
  match table with
  | [] => None
  | (k', a) :: rest => if str_eqb k' k then Some a else table_get rest k
  end.

(** [{...}.get(action)]: a key that cannot be hashed raises, a key that is
    missing (any value that is not one of the fourteen names) gives [None]. *)
Definition handler_for (action : pyval) : T (option (dict -> T dict)) :=
  if negb (hashable action) then raise TypeError
  else match action with
       | PStr name => ret (table_get handlers name)
       | _ => ret None
       end.

(** [params["action"]], with the [dict] it was found in *)
Definition action_of (params : pyval) : T (pyval * dict) :=
  match params with
  | PDict d =>
      match dict_lookup d "action" with
      | Some action => ret (action, d)
      | None => raise KeyError
      end
  | _ => raise TypeError
  end.

Definition call (params : pyval) : T ToolResult :=
  ad <- action_of params ;;
  let (action, d) := (ad : pyval * dict) in
  handler <- handler_for action ;;
  match handler with
  | None =>
      raise (ValueError (Some (PFString [inl ("Unsupported action: " : str);
                                         inr action])))
  | Some handler =>
      result <- handler d ;;
      bookkeeping <- lift (in_str_set action ["answer" : str; "terminate" : str]) ;;
      if (bookkeeping : bool) then ret {| payload := result |}
      else
        attached <- _attach_screenshot result ;;
        ret {| payload := attached |}
  end.

End Handlers.

End Tool.

(* ===================================================================== *)
(** * [ComputerUseAgent] *)
(* ===================================================================== *)

Module Agent.

Import Py Effect Effect.Notations Tool.
Local Open Scope string_scope.
Local Open Scope list_scope.
Local Open Scope py_scope.

Definition newline : str := [10%N].

Definition SYSTEM_PROMPT : str :=
  ("You are an automation agent with direct access to a GUI computer." : str)
  ++ newline ++ ("- Be precise and avoid unnecessary movements." : str)
  ++ newline ++ ("- Always inspect the most recent screenshot before clicking." : str)
  ++ newline ++ ("- If an application needs time to load, wait before taking more actions." : str)
  ++ newline ++ ("- You must finish by calling action=answer with the final response and action=terminate with success/failure." : str).

(** The action names [COMPUTER_USE_TOOL_SPEC] announces to the model *)
Definition TOOL_SPEC_ACTIONS : list str :=
  ["key" : str; "type" : str; "mouse_move" : str; "left_click" : str;
   "left_click_drag" : str; "right_click" : str; "middle_click" : str;
   "double_click" : str; "triple_click" : str; "scroll" : str;
   "hscroll" : str; "wait" : str; "terminate" : str; "answer" : str].

(** One entry of [message.tool_calls] *)
Record tool_call : Type := {
  id : str;
  function_name : str;
  function_arguments : option str
}.

(** [response.choices[0].message] *)
Record chat_message : Type := {
  content : option str;
  tool_calls : option (list tool_call)
}.

(** The entries of [self.messages]: the two dicts of [__init__], the
    replies of the model as received, and the dicts [run] appends for tool
    results. The [content] of a tool message is the JSON text of a payload
    ([ToolResult.as_json]); it is kept as that payload. *)
Inductive message : Type :=
| RoleContent (role : str) (text : str)
| Assistant (reply : chat_message)
| ToolMessage (tool_call_id : str) (name : str) (as_json : dict).

Definition role (m : message) : str :=
  match m with
  | RoleContent r _ => r
  | Assistant _ => "assistant"
  | ToolMessage _ _ _ => "tool"
  end.

(** The fields [__init__] stores on the agent, apart from the client *)
Record ComputerUseAgent : Type := {
  tool : ComputerUseTool;
  model : str;
  task : str;
  temperature : float;
  max_turns : Z
}.

(** What [run] changes: the three mutable fields of the agent, and the
    trace of backend calls. *)
Record state : Type := {
  messages : list message;
  final_answer : pyval;
  terminated : pyval;
  events : trace
}.

Definition with_messages (s : state) (l : list message) : state :=
  {| messages := l; final_answer := final_answer s;
     terminated := terminated s; events := events s |}.

Definition with_final_answer (s : state) (v : pyval) : state :=
  {| messages := messages s; final_answer := v;
     terminated := terminated s; events := events s |}.

Definition with_terminated (s : state) (v : pyval) : state :=
  {| messages := messages s; final_answer := final_answer s;
     terminated := v; events := events s |}.

Definition with_events (s : state) (t : trace) : state :=
  {| messages := messages s; final_answer := final_answer s;
     terminated := terminated s; events := t |}.

(** The state [__init__] leaves *)
Definition init (self : ComputerUseAgent) : state :=
  {| messages := [RoleContent "system" SYSTEM_PROMPT; RoleContent "user" (task self)];
     final_answer := PNone;
     terminated := PNone;
     events := [] |}.

(** The three ways out of the loop of [run]: the model replied without a
    tool call, a terminate status was recorded, or the turns ran out. *)
Inductive exit : Type :=
| NoToolCalls
| Terminated
| TurnLimit.

Definition A (X : Type) : Type := M state X.

(** A computation of the tool, run on the trace of the agent *)
Definition on_trace {X} (c : T X) : A X :=
  fun s => match c (events s) with
           | Ok a t => Ok a (with_events s t)
           | Raise e t => Raise e (with_events s t)
           end.

(** [print(line)]: the line is encoded as a whole before any of it is
    written, and [UnicodeEncodeError] is raised when [sys.stdout] cannot
    encode it (a lone surrogate, which a JSON text can hold as an escape,
    on a UTF-8 terminal). *)
Definition print (env : environment) (line : pyval) : A unit :=
  if stdout_accepts env line then on_trace (emit (Print line))
  else raise UnicodeEncodeError.

Definition append (m : message) : A unit :=
  modify (fun s => with_messages s (messages s ++ [m])).

Section Run.

Variable env : environment.

(** [self.client.chat.completions.create(model=..., messages=...,
    tools=[COMPUTER_USE_TOOL_SPEC], temperature=...).choices[0].message]:
    the reply of the endpoint to a request, or the exception of a failed
    request. *)
Variable create : str -> list message -> float -> result chat_message.

Variable self : ComputerUseAgent.

(** [arguments or "{}"] *)
Definition arguments_or_empty (arguments : option str) : str :=
  match arguments with
  | None | Some [] => "{}"
  | Some a => a
  end.

(** The body of [for tool_call in tool_calls] *)
Definition dispatch (tc : tool_call) : A unit :=
  arguments <- lift (Json.loads (arguments_or_empty (function_arguments tc))) ;;
  result <- on_trace (call env (tool self) arguments) ;;
  let payload := payload result in
  (if eq_str (dict_get payload "status") "answer" then
     modify (fun s => with_final_answer s (dict_get_default payload "text" (PStr []))) ;;
     answer <- gets final_answer ;;
     print env (PFString [inl ("[Agent Answer] " : str); inr answer])
   else ret tt) ;;
  (if eq_str (dict_get payload "status") "terminate" then
     modify (fun s => with_terminated s (dict_get payload "result")) ;;
     status <- gets terminated ;;
     print env (PFString [inl ("[Terminate] status=" : str); inr status])
   else ret tt) ;;
  append (ToolMessage (id tc) (function_name tc) payload).

(** [content] or the empty string, and [tool_calls or []] *)
Definition content_or_empty (m : chat_message) : str :=
  match content m with Some c => c | None => [] end.

Definition tool_calls_or_empty (m : chat_message) : list tool_call :=
  match tool_calls m with Some l => l | None => [] end.

(** The loop of [run] with [turns] iterations left. The Python method
    returns nothing; the value returned here tells which way the loop was
    left. *)
Fixpoint run_loop (turns : nat) : A exit :=
  match turns with
  | O => ret TurnLimit
  | S turns' =>
      history <- gets messages ;;
      reply <- lift (create (model self) history (temperature self)) ;;
      append (Assistant reply) ;;
      match tool_calls_or_empty reply with
      | [] =>
          let text := content_or_empty reply in
          print env (PFString [inl ("[Assistant] " : str); inr (PStr text)]) ;;
          modify (fun s => with_final_answer s (PStr text)) ;;
          ret NoToolCalls
      | calls =>
          for_each calls dispatch ;;
          verdict <- gets terminated ;;
          if truthy verdict then ret Terminated else run_loop turns'
      end
  end.

(** [run]: [range(1, max_turns + 1)] has [max_turns] items, none when
    [max_turns] is not positive. *)
Definition run : A exit := run_loop (Z.to_nat (max_turns self)).

End Run.

End Agent.

(* ===================================================================== *)
(** * A concrete desktop and scripted models, for runs that compute *)
(* ===================================================================== *)

Module Scenario.

Import Py Effect Tool Agent.
Local Open Scope string_scope.
Local Open Scope list_scope.
Local Open Scope Z_scope.

(** Where the last positioned call of a trace left the cursor *)
Fixpoint cursor_after (t : trace) (start : Z * Z) : Z * Z :=
  match t with
  | [] => start
  | PgMoveTo x y _ :: t' => cursor_after t' (x, y)
  | PgClick (Some xy) _ :: t' => cursor_after t' xy
  | PgDoubleClick x y :: t' => cursor_after t' (x, y)
  | PgTripleClick x y :: t' => cursor_after t' (x, y)
  | PgDragTo x y _ _ :: t' => cursor_after t' (x, y)
  | _ :: t' => cursor_after t' start
  end.

(** The surrogate code points, U+D800 to U+DFFF *)
Definition is_surrogate (c : N) : bool := ((55296 <=? c) && (c <=? 57343))%N.

Definition encodable (s : str) : bool := negb (existsb is_surrogate s).

(** A standard output opened as UTF-8 with the error handler [strict]: a
    line is encoded unless it holds a surrogate. Of the values an f-string
    of the program formats only a text is written as it is; a number, a
    list or an object is written in its [repr], where a surrogate is
    escaped. *)
Definition utf8_strict (line : pyval) : bool :=
  match line with
  | PStr s => encodable s
  | PFString parts =>
      forallb (fun part => match part with
                           | inl s => encodable s
                           | inr (PStr s) => encodable s
                           | inr _ => true
                           end) parts
  | _ => true
  end.

(** A desktop with one 1920x1080 monitor (entry 0 of [sct.monitors] is the
    union of all monitors), the cursor starting at (10, 20), and a UTF-8
    terminal. *)
Definition desktop : environment :=
  {| monitors := [ {| mon_left := 0; mon_top := 0; mon_width := 1920; mon_height := 1080 |};
                   {| mon_left := 0; mon_top := 0; mon_width := 1920; mon_height := 1080 |} ];
     png_base64 := fun _ => "iVBORw0KGgo=" : str;
     position := fun t => cursor_after t (10, 20);
     strftime := fun _ => "20240101-120000" : str;
     stdout_accepts := utf8_strict |}.

(** The tool as [main] builds it from the defaults of [build_parser] *)
Definition default_tool : ComputerUseTool :=
  {| screenshot_dir := {| path_absolute := false; path_parts := ["screenshots" : str] |};
     monitor_index := 1;
     mouse_move_duration := S754_zero false;
     drag_duration := float_of_decimal false 15 2 (-2) |}.

Definition agent_with (turns : Z) : ComputerUseAgent :=
  {| tool := default_tool;
     model := "Qwen/Qwen3-VL-30B-A3B-Instruct";
     task := "Open a browser and search for the weather.";
     temperature := S754_zero false;
     max_turns := turns |}.

Definition replies_so_far (history : list message) : nat :=
  List.length (filter (fun m => match m with Assistant _ => true | _ => false end) history).

(** An endpoint that answers the n-th request with the n-th reply of a
    script, and fails once the script is over. *)
Definition scripted (script : list chat_message)
    (_ : str) (history : list message) (_ : float) : result chat_message :=
  match nth_error script (replies_so_far history) with
  | Some reply => inr reply
  | None => inl APIError
  end.

(** An endpoint that answers every request with the same reply *)
Definition always (reply : chat_message)
    (_ : str) (_ : list message) (_ : float) : result chat_message :=
  inr reply.

Definition call_with (call_id : string) (arguments : string) : tool_call :=
  {| id := call_id; function_name := "computer_use";
     function_arguments := Some (Json.dq arguments) |}.

Definition reply_with (calls : list tool_call) : chat_message :=
  {| content := None; tool_calls := Some calls |}.

Definition request (arguments : string) : pyval :=
  match Json.loads (Json.dq arguments) with
  | inr v => v
  | inl _ => PNone
  end.

(** The state a computation ends in, whether it returned or raised *)
Definition state_of {S A} (o : outcome S A) : S :=
  match o with
  | Ok _ s => s
  | Raise _ s => s
  end.

(** Tool calls as a model may issue them. The fourth is cut off in the
    middle of its JSON text, the fifth is a double click with one number
    for a coordinate, and the text of the sixth is the JSON escape of a
    lone surrogate, U+D800. *)
Definition click_call : tool_call :=
  call_with "call_1" "{'action': 'left_click', 'coordinate': [100, 200]}".

Definition terminate_call : tool_call :=
  call_with "call_2" "{'action': 'terminate', 'status': 'success'}".

Definition answer_call : tool_call :=
  call_with "call_3" "{'action': 'answer', 'text': 'done'}".

Definition malformed_call : tool_call :=
  call_with "call_4" "{'action': 'left_click', 'coordinate': [100, 200".

Definition bad_click_call : tool_call :=
  call_with "call_5" "{'action': 'double_click', 'coordinate': [1]}".


End Scenario.

(* ===================================================================== *)
(** * The vocabulary of the statements *)
(* ===================================================================== *)

Unset Implicit Arguments.

Module Props.

Import Py Effect Tool Agent.
Local Open Scope string_scope.
Local Open Scope list_scope.

(** ** Results of the tool *)

(** The validation errors of the executor, as the program raises them *)
Definition coordinate_error : exn :=
  ValueError (Some (PStr coordinate_required)).

Definition text_error : exn :=
  ValueError (Some (PStr "text is required for action=type.")).

Definition keys_error : exn :=
  ValueError (Some (PStr "keys is required for action=key.")).

(** The detail of a [type] result: the word Typed, then the first fifty
    characters of the text between double quotes, then a full stop *)
Definition typed_detail (shown : pyval) : pyval :=
  PFString [inl (("Typed " : str) ++ quote); inr shown; inl (quote ++ ("." : str))].

(** [f"Pressed keys {keys}."] *)
Definition pressed_detail (keys : pyval) : pyval :=
  PFString [inl ("Pressed keys " : str); inr keys; inl ("." : str)].

(** The three clicks and the button each one presses *)
Definition click_buttons : list (str * str) :=
  [("left_click" : str, "left" : str);
   ("right_click" : str, "right" : str);
   ("middle_click" : str, "middle" : str)].

(** [returns c Q]: every value [c] returns satisfies [Q]. *)
Definition returns {S A} (c : M S A) (Q : A -> Prop) : Prop :=
  forall s a s', c s = Ok a s' -> Q a.

(** The payload of an input action: a status "ok" and a detail *)
Definition ok_payload (p : dict) : Prop := exists detail, p = ok detail.

(** The payload of [answer] *)
Definition answer_payload (p : dict) : Prop :=
  exists text, p = [("status" : str, PStr "answer"); ("text" : str, text)].

(** The payload of [terminate]: the verdict is one of the two words *)
Definition terminate_payload (p : dict) : Prop :=
  exists verdict : str,
    (verdict = "success" \/ verdict = "failure") /\
    p = [("status" : str, PStr "terminate"); ("result" : str, PStr verdict)].

(** The payload the handler of an action returns *)
Definition shape (name : str) : dict -> Prop :=
  if str_eqb name "answer" then answer_payload
  else if str_eqb name "terminate" then terminate_payload
  else ok_payload.



(** ** Rounds of the loop *)

(** [payload.get("status") == "terminate"] and
    [payload.get("status") == "answer"] *)
Definition is_terminate (p : dict) : bool :=
  eq_str (dict_get p "status") "terminate".

Definition is_answer (p : dict) : bool :=
  eq_str (dict_get p "status") "answer".

(** [m] is the tool message [run] appends for the call [tc]: it has the
    role "tool" and carries the identifier and the function name of [tc]. *)
Definition answers (tc : tool_call) (m : message) : Prop :=
  role m = "tool" /\
  exists p, m = ToolMessage (id tc) (function_name tc) p.

(** A tool message whose payload has the status "terminate" *)
Definition terminate_message (m : message) : bool :=
  match m with
  | ToolMessage _ _ p => is_terminate p
  | _ => false
  end.

(** The state after the reply of the model is appended to the history *)
Definition replied (s : state) (reply : chat_message) : state :=
  with_messages s (messages s ++ [Assistant reply]).

(** The text an [answer] request records: its [text], or the empty string
    when that is absent or tests false *)
Definition answer_text (d : dict) : pyval := por (dict_get d "text") (PStr []).



End Props.

(* ===================================================================== *)
(** * Start-up and [main] *)
(* ===================================================================== *)

(** The code that runs before and after [ComputerUseAgent.run]:
    [_ensure_display], [_get_pyautogui], [ComputerUseTool.__init__] and
    [main]. What [import pyautogui], [mkdir] and the argument parser do
    inside is outside the model: the import is taken to succeed, [mkdir]
    is recorded, and [main] starts from the parsed arguments. *)
Module Startup.

Import Py Effect Effect.Notations Tool Agent.
Local Open Scope string_scope.
Local Open Scope list_scope.
Local Open Scope py_scope.

(** [sys.platform] and [os.environ] *)
Record host : Type := {
  platform : str;
  environ : list (str * str)
}.

(** [s.startswith(prefix)] *)
Fixpoint startswith (s prefix : str) : bool :=
  match prefix, s with
  | [], _ => true
  | a :: prefix', b :: s' => N.eqb a b && startswith s' prefix'
  | _ :: _, [] => false
  end.

(** [k in os.environ] *)
Definition in_environ (h : host) (k : str) : bool :=
  existsb (fun kv => str_eqb (fst kv) k) (environ h).

(** The message of [_ensure_display], code point by code point *)
Definition DISPLAY_MESSAGE : str :=
  [68; 73; 83; 80; 76; 65; 89; 32; 54872; 44221; 32; 48320; 49688; 44032;
   32; 49444; 51221; 46104; 51648; 32; 50506; 50520; 49845; 45768; 45796;
   46; 32; 112; 121; 97; 117; 116; 111; 103; 117; 105; 47484; 32; 49324;
   50857; 54616; 47140; 47732; 32; 88; 49; 49; 32; 46608; 45716; 32; 44032;
   49345; 32; 46356; 49828; 54540; 47112; 51060; 40; 88; 118; 102; 98; 32;
   46321; 41; 44032; 32; 54596; 50836; 54633; 45768; 45796; 46; 32; 50696;
   58; 32; 96; 115; 117; 100; 111; 32; 97; 112; 116; 32; 105; 110; 115;
   116; 97; 108; 108; 32; 120; 118; 102; 98; 32; 38; 38; 32; 120; 118; 102;
   98; 45; 114; 117; 110; 32; 45; 115; 32; 34; 45; 115; 99; 114; 101; 101;
   110; 32; 48; 32; 49; 57; 50; 48; 120; 49; 48; 56; 48; 120; 50; 52; 34;
   32; 117; 118; 32; 114; 117; 110; 32; 112; 121; 116; 104; 111; 110; 32;
   114; 117; 110; 46; 112; 121; 32; 46; 46; 46; 96]%N.

(** The exception of the start-up code *)
Inductive startup_exn : Type :=
| RuntimeError (msg : str).

(** [_ensure_display] *)
Definition _ensure_display (h : host) : startup_exn + unit :=
  if startswith (platform h) "linux" && negb (in_environ h "DISPLAY")
  then inl (RuntimeError DISPLAY_MESSAGE)
  else inr tt.

(** The imported [pyautogui] module, as far as the program configures it *)
Record pyautogui : Type := {
  FAILSAFE : bool
}.

(** The module as [import pyautogui] delivers it *)
Definition imported : pyautogui := {| FAILSAFE := true |}.

(** What the start-up code changes in the process: the global
    [_pyautogui], and the directories [mkdir] was asked to create. *)
Record process : Type := {
  _pyautogui : option pyautogui;
  mkdir_calls : list path
}.

(** [_get_pyautogui]: the module, and the new value of the global *)
Definition _get_pyautogui (h : host) (global : option pyautogui)
    : (startup_exn + pyautogui) * option pyautogui :=
  match global with
  | Some pg => (inr pg, global)
  | None =>
      match _ensure_display h with
      | inl e => (inl e, None)
      | inr _ =>
          let pg := {| FAILSAFE := false |} in
          (inr pg, Some pg)
      end
  end.

(** [ComputerUseTool.__init__]: the fields are stored, the module is
    fetched, and only then the screenshot directory is made. *)
Definition ComputerUseTool__init__ (h : host) (dir : path) (index : Z)
    (move_duration drag : float) (p : process)
    : (startup_exn + ComputerUseTool) * process :=
  let self := {| screenshot_dir := dir; monitor_index := index;
                 mouse_move_duration := move_duration;
                 drag_duration := drag |} in
  match _get_pyautogui h (_pyautogui p) with
  | (inl e, global) =>
      (inl e, {| _pyautogui := global; mkdir_calls := mkdir_calls p |})
  | (inr _, global) =>
      (inr self, {| _pyautogui := global;
                    mkdir_calls := mkdir_calls p ++ [screenshot_dir self] |})
  end.

(** The namespace [parser.parse_args()] returns *)
Record Namespace : Type := {
  arg_model : str;
  arg_task : str;
  arg_api_key : str;
  arg_base_url : str;
  arg_timeout : float;
  arg_max_turns : Z;
  arg_temperature : float;
  arg_screenshot_dir : path;
  arg_monitor_index : Z;
  arg_mouse_move_duration : float;
  arg_drag_duration : float
}.

(** The defaults of [build_parser]: the namespace of an empty command
    line *)
Definition DEFAULTS : Namespace :=
  {| arg_model := "Qwen/Qwen3-VL-30B-A3B-Instruct";
     arg_task := "Open a browser and search for the weather.";
     arg_api_key := "EMPTY";
     arg_base_url := "http://localhost:8000/v1";
     arg_timeout := float_of_decimal false 6000 4 (-1);
     arg_max_turns := 200;
     arg_temperature := float_of_decimal false 0 1 (-1);
     arg_screenshot_dir :=
       {| path_absolute := false; path_parts := ["screenshots" : str] |};
     arg_monitor_index := 1;
     arg_mouse_move_duration := float_of_decimal false 0 1 (-1);
     arg_drag_duration := float_of_decimal false 15 2 (-2) |}.

(** The two closing lines of [main] *)
Definition report (env : environment) : A unit :=
  answer <- gets final_answer ;;
  (if truthy answer
   then print env (PFString [inl ("[Final Answer] " : str); inr answer])
   else ret tt) ;;
  status <- gets terminated ;;
  (if truthy status
   then print env (PFString [inl ("[Task Status] " : str); inr status])
   else ret tt).

(** How [main] ends *)
Inductive ending : Type :=
| StartupFailed (e : startup_exn) (p : process)
| RunFailed (e : exn) (s : state) (p : process)
| Finished (s : state) (p : process).

Section Main.

Variable env : environment.

(** [OpenAI(api_key=..., base_url=..., timeout=...)]: the endpoint behind
    the client these three settings build *)
Variable OpenAI :
  str -> str -> float -> str -> list message -> float -> result chat_message.

Variable h : host.

(** The agent [main] builds *)
Definition agent_of (args : Namespace) (tool : ComputerUseTool) : ComputerUseAgent :=
  {| Agent.tool := tool;
     model := arg_model args;
     task := arg_task args;
     temperature := arg_temperature args;
     max_turns := arg_max_turns args |}.

(** [main], from the parsed arguments on *)
Definition main (args : Namespace) (p : process) : ending :=
  let client := OpenAI (arg_api_key args) (arg_base_url args) (arg_timeout args) in
  match ComputerUseTool__init__ h (arg_screenshot_dir args)
          (arg_monitor_index args) (arg_mouse_move_duration args)
          (arg_drag_duration args) p with
  | (inl e, p') => StartupFailed e p'
  | (inr tool, p') =>
      let agent := agent_of args tool in
      match bind (run env client agent) (fun _ => report env) (init agent) with
      | Ok _ s => Finished s p'
      | Raise e s => RunFailed e s p'
      end
  end.

End Main.

End Startup.

(* ===================================================================== *)
(** * The vocabulary of the further statements *)
(* ===================================================================== *)

Module Behaviour.

Import Py Effect Tool Agent Props.
Local Open Scope string_scope.
Local Open Scope list_scope.

(** ** Computations and the state *)

(** [unchanged c]: [c] leaves the state as it found it, whether it
    returns or raises. *)
Definition unchanged {S A} (c : M S A) : Prop :=
  forall s, (exists a, c s = Ok a s) \/ (exists e, c s = Raise e s).

(** [never_raises c] *)
Definition never_raises {S A} (c : M S A) : Prop :=
  forall s, exists a s', c s = Ok a s'.

(** [raises_early c]: when [c] raises, the state is the one it started
    from: nothing was done before the exception. *)
Definition raises_early {S A} (c : M S A) : Prop :=
  forall s e s', c s = Raise e s' -> s' = s.

(** ** The history *)

(** The messages of the rounds of a run. Each round is the reply of the
    model followed by the tool messages of the calls dispatched, in call
    order; in every round but the last all calls of the reply were
    dispatched. *)
Inductive rounds : list message -> Prop :=
| rounds_nil : rounds []
| rounds_last (reply : chat_message) (done rest : list tool_call)
    (new : list message) :
    tool_calls_or_empty reply = done ++ rest ->
    Forall2 answers done new ->
    rounds (Assistant reply :: new)
| rounds_cons (reply : chat_message) (new more : list message) :
    Forall2 answers (tool_calls_or_empty reply) new ->
    rounds more ->
    rounds (Assistant reply :: new ++ more).

(** The rounds of a run that returned: every call of every reply has its
    tool message. *)
Inductive full_rounds : list message -> Prop :=
| full_rounds_nil : full_rounds []
| full_rounds_cons (reply : chat_message) (new more : list message) :
    Forall2 answers (tool_calls_or_empty reply) new ->
    full_rounds more ->
    full_rounds (Assistant reply :: new ++ more).

(** The number of replies of the model in a list of messages *)
Definition replies (l : list message) : nat :=
  List.length (filter (fun m => match m with Assistant _ => true | _ => false end) l).

(** The verdict and the final answer after the tool messages [new] of a
    round: each terminate result replaces the verdict, each answer result
    replaces the answer. *)
Definition verdict_after (new : list message) (before : pyval) : pyval :=
  fold_left (fun v m =>
               match m with
               | ToolMessage _ _ p => if is_terminate p then dict_get p "result" else v
               | _ => v
               end) new before.

Definition answer_after (new : list message) (before : pyval) : pyval :=
  fold_left (fun v m =>
               match m with
               | ToolMessage _ _ p =>
                   if is_answer p then dict_get_default p "text" (PStr []) else v
               | _ => v
               end) new before.

(** The line [run] prints for a reply without tool calls *)
Definition reply_line (reply : chat_message) : pyval :=
  PFString [inl ("[Assistant] " : str); inr (PStr (content_or_empty reply))].

(** The state a reply without tool calls leaves, once it was printed *)
Definition text_reply (s : state) (reply : chat_message) : state :=
  {| messages := messages s ++ [Assistant reply];
     final_answer := PStr (content_or_empty reply);
     terminated := terminated s;
     events := events s ++
       [Print (PFString [inl ("[Assistant] " : str);
                         inr (PStr (content_or_empty reply))])] |}.

(** Whether the standard output can encode every line of a list of
    [print] calls *)
Definition accepted (env : environment) (lines : trace) : bool :=
  forallb (fun ev => match ev with
                     | Print line => stdout_accepts env line
                     | _ => true
                     end) lines.

(** The lines [main] prints after a run *)
Definition report_lines (s : state) : trace :=
  (if truthy (final_answer s)
   then [Print (PFString [inl ("[Final Answer] " : str); inr (final_answer s)])]
   else []) ++
  (if truthy (terminated s)
   then [Print (PFString [inl ("[Task Status] " : str); inr (terminated s)])]
   else []).

(** The validation error of [_terminate] *)
Definition status_required : exn :=
  ValueError (Some (PStr "status must be success or failure for action=terminate.")).

(** The four keys [_attach_screenshot] writes *)
Definition screenshot_keys : list str :=
  ["screenshot" : str; "screenshot_path" : str; "cursor" : str; "display" : str].

End Behaviour.

(* ===================================================================== *)
(** * Further hosts, tools and tool calls, for runs that compute *)
(* ===================================================================== *)

Module Examples.

Import Py Effect Tool Agent Scenario Startup.
Local Open Scope string_scope.
Local Open Scope list_scope.
Local Open Scope Z_scope.

(** A Linux host without a display, one whose DISPLAY is set to the empty
    text, and a host that is not Linux *)
Definition headless : host :=
  {| platform := "linux"; environ := [("HOME" : str, "/root" : str)] |}.

Definition empty_display : host :=
  {| platform := "linux";
     environ := [("HOME" : str, "/root" : str); ("DISPLAY" : str, [])] |}.

Definition mac : host :=
  {| platform := "darwin"; environ := [("HOME" : str, "/Users/me" : str)] |}.

(** The process before anything was loaded *)
Definition unloaded : process := {| _pyautogui := None; mkdir_calls := [] |}.

(** The default tool pointed at a monitor the desktop does not have *)
Definition far_tool : ComputerUseTool :=
  {| screenshot_dir := screenshot_dir default_tool;
     monitor_index := 5;
     mouse_move_duration := mouse_move_duration default_tool;
     drag_duration := drag_duration default_tool |}.

(** More tool calls: a terminate with the other verdict, a second answer,
    a call without arguments and one whose arguments are a JSON list. *)
Definition fail_call : tool_call :=
  call_with "call_6" "{'action': 'terminate', 'status': 'failure'}".

Definition second_answer_call : tool_call :=
  call_with "call_7" "{'action': 'answer', 'text': 'done twice'}".

Definition bare_call : tool_call :=
  {| id := "call_8"; function_name := "computer_use"; function_arguments := None |}.

Definition list_call : tool_call := call_with "call_9" "[1, 2]".

(** A reply that is text only, and one whose text is a lone surrogate *)
Definition text_only : chat_message :=
  {| content := Some ("All done." : str); tool_calls := None |}.

Definition unprintable_text : chat_message :=
  {| content := Some [55296%N]; tool_calls := Some [] |}.

(** A client whose endpoint answers every request with an answer and a
    terminate call, whatever the settings *)
Definition answering_client (_ _ : str) (_ : float)
    : str -> list message -> float -> result chat_message :=
  always (reply_with [answer_call; terminate_call]).

End Examples.

(* ===================================================================== *)
(** * Facts about the values and the effects *)
(* ===================================================================== *)

Import Py Effect Effect.Notations Tool Agent Scenario Props.
Local Open Scope string_scope.
Local Open Scope list_scope.
Local Open Scope Z_scope.

Section PyFacts.

Lemma str_eqb_refl (s : str) : str_eqb s s = true.
Proof.
  induction s as [|c s IH]; cbn [str_eqb]; [reflexivity|].
  now rewrite N.eqb_refl, IH.
Qed.

Lemma str_eqb_eq (a b : str) : str_eqb a b = true <-> a = b.
Proof.
  split; [|intros ->; apply str_eqb_refl].
  revert b; induction a as [|x a IH]; intros [|y b]; cbn [str_eqb]; try discriminate.
  - reflexivity.
  - intros H. apply andb_true_iff in H as [Hxy Hab].
    apply N.eqb_eq in Hxy. apply IH in Hab. now subst.
Qed.

Lemma str_eqb_neq (a b : str) : str_eqb a b = false <-> a <> b.
Proof.
  split.
  - intros H E. apply str_eqb_eq in E. congruence.
  - intros H. destruct (str_eqb a b) eqn:E; [|reflexivity].
    apply str_eqb_eq in E. contradiction.
Qed.

Lemma dict_lookup_set_same (d : dict) (k : str) (v : pyval) :
  dict_lookup (dict_set d k v) k = Some v.
Proof.
  induction d as [|[k' v'] d IH]; simpl.
  - now rewrite str_eqb_refl.
  - destruct (str_eqb k' k) eqn:E; simpl; rewrite E; [reflexivity|exact IH].
Qed.

Lemma dict_lookup_set_other (d : dict) (k k' : str) (v : pyval) :
  k <> k' -> dict_lookup (dict_set d k v) k' = dict_lookup d k'.
Proof.
  intros Hne. induction d as [|[k0 v0] d IH]; simpl.
  - apply str_eqb_neq in Hne. now rewrite Hne.
  - destruct (str_eqb k0 k) eqn:E; simpl.
    + apply str_eqb_eq in E; subst k0.
      apply str_eqb_neq in Hne. now rewrite Hne.
    + destruct (str_eqb k0 k'); [reflexivity|exact IH].
Qed.

Lemma dict_get_absent (d : dict) (k : str) :
  dict_lookup d k = None -> dict_get d k = PNone.
Proof. unfold dict_get. now intros ->. Qed.

Lemma dict_get_present (d : dict) (k : str) (v : pyval) :
  dict_lookup d k = Some v -> dict_get d k = v.
Proof. unfold dict_get. now intros ->. Qed.

End PyFacts.

(** ** The decoder never runs out of fuel *)

Section JsonFacts.

Import Json.

Lemma skip_ws_le (s : str) : (List.length (skip_ws s) <= List.length s)%nat.
Proof.
  induction s as [|c s IH]; cbn [skip_ws]; [lia|].
  destruct (is_ws c); cbn [List.length]; lia.
Qed.

(** Case analysis on the test or the scrutinee at the head of a hypothesis *)
Ltac split_head H :=
  match type of H with
  | (if ?b then _ else _) = _ => destruct b
  | match ?x with _ => _ end = _ => destruct x
  end.

Lemma scanstring_lt (n : nat) :
  forall s acc t r,
    (List.length s <= n)%nat ->
    scanstring s acc = Some (t, r) ->
    (List.length r < List.length s)%nat.
Proof.
  induction n as [|n IH]; intros s acc t r Hn H.
  - destruct s; [discriminate|cbn [List.length] in Hn; lia].
  - destruct s as [|c rest]; [discriminate|].
    cbn [scanstring] in H. cbn [List.length] in *.
    repeat (split_head H; try discriminate; cbn [List.length] in * );
      try (injection H as _ <-; lia);
      try (apply IH in H; cbn [List.length] in *; lia).
Qed.

Lemma span_digits_le (s : str) :
  (List.length (snd (span_digits s)) <= List.length s)%nat.
Proof.
  induction s as [|c s IH]; cbn [span_digits]; [cbn; lia|].
  destruct (is_digit c); [|cbn; lia].
  destruct (span_digits s) as [ds r]. cbn [snd List.length] in *. lia.
Qed.

Lemma minus_prefix_le (s : str) :
  (List.length (snd (minus_prefix s)) <= List.length s)%nat.
Proof.
  destruct s as [|c r]; cbn [minus_prefix]; [cbn; lia|].
  destruct (c =? 45)%N; cbn [snd List.length]; lia.
Qed.

Lemma int_part_lt (s : str) ds r :
  int_part s = Some (ds, r) -> (List.length r < List.length s)%nat.
Proof.
  destruct s as [|c s']; [discriminate|]. cbn [int_part].
  destruct (c =? 48)%N.
  - intros H; injection H as _ <-. cbn [List.length]; lia.
  - destruct ((49 <=? c) && (c <=? 57))%N eqn:E; [|discriminate].
    intros H; injection H as H. cbn [span_digits] in H.
    assert (Hd : is_digit c = true).
    { unfold is_digit. apply andb_true_iff in E as [E1 E2].
      apply N.leb_le in E1, E2. apply andb_true_iff.
      split; apply N.leb_le; lia. }
    rewrite Hd in H. pose proof (span_digits_le s') as Hle.
    destruct (span_digits s') as [ds' r']. injection H as _ <-.
    cbn [snd List.length] in *. lia.
Qed.

Lemma frac_part_le (s : str) :
  (List.length (snd (frac_part s)) <= List.length s)%nat.
Proof.
  unfold frac_part. destruct s as [|p [|c s']]; cbn [snd]; try lia.
  destruct ((p =? 46)%N && is_digit c); cbn [snd]; [|lia].
  pose proof (span_digits_le (tl (p :: c :: s'))) as H.
  cbn [tl List.length] in *. lia.
Qed.

Lemma exp_part_le (s : str) :
  (List.length (snd (exp_part s)) <= List.length s)%nat.
Proof.
  unfold exp_part. destruct s as [|c r]; cbn [snd]; [lia|].
  destruct ((c =? 101) || (c =? 69))%N; cbn [snd]; [|lia].
  destruct r as [|c' r'].
  - destruct (span_digits []) as [[|e es] r''] eqn:E; cbn [snd]; [lia|].
    cbn in E. discriminate.
  - destruct (c' =? 45)%N; [|destruct (c' =? 43)%N];
      match goal with
      | |- context [span_digits ?r0] =>
          pose proof (span_digits_le r0) as Hle;
          destruct (span_digits r0) as [[|e es] r'']
      end; cbn [snd List.length] in *; lia.
Qed.

Lemma match_number_lt (s : str) x r :
  match_number s = Some (x, r) -> (List.length r < List.length s)%nat.
Proof.
  unfold match_number.
  pose proof (minus_prefix_le s) as H1.
  destruct (minus_prefix s) as [neg s1]. cbn [snd] in H1.
  destruct (int_part s1) as [[ids r1]|] eqn:Hi; [|discriminate].
  apply int_part_lt in Hi.
  pose proof (frac_part_le r1) as H2.
  destruct (frac_part r1) as [fds r2]. cbn [snd] in H2.
  pose proof (exp_part_le r2) as H3.
  destruct (exp_part r2) as [exp r3]. cbn [snd] in H3.
  intros H.
  assert (r = r3) as ->.
  { destruct fds; destruct exp; try (injection H as _ <-; reflexivity).
    destruct (Nat.ltb int_max_str_digits (List.length ids));
      injection H as _ <-; reflexivity. }
  lia.
Qed.

Lemma after_prefix_length (w s r : str) :
  after_prefix w s = Some r -> List.length s = (List.length w + List.length r)%nat.
Proof.
  revert s. induction w as [|a w IH]; intros s; cbn [after_prefix].
  - intros H; injection H as <-. reflexivity.
  - destruct s as [|b s]; [discriminate|].
    destruct (a =? b)%N; [|discriminate].
    intros H. apply IH in H. cbn [List.length]. lia.
Qed.

Lemma literal_lt (w : string) v s x r :
  w <> EmptyString ->
  literal w v s = Some (x, r) -> (List.length r < List.length s)%nat.
Proof.
  intros Hw. unfold literal.
  destruct (after_prefix w s) as [r'|] eqn:E; [|discriminate].
  intros H; injection H as _ <-. apply after_prefix_length in E.
  destruct w; [contradiction|]. cbn in E. lia.
Qed.

Lemma scan_atom_lt (s : str) x r :
  scan_atom s = Some (x, r) -> (List.length r < List.length s)%nat.
Proof.
  unfold scan_atom.
  repeat match goal with
  | |- match literal ?w ?v s with _ => _ end = _ -> _ =>
      destruct (literal w v s) as [[x' r']|] eqn:?;
      [ intros H; injection H as -> ->;
        eapply literal_lt; [|eassumption]; discriminate | ]
  end.
  apply match_number_lt.
Qed.

(** A scanner that succeeds has consumed at least one character. *)
Lemma scanners_consume (fuel : nat) :
  (forall s v r, scan_once fuel s = Some (inr (v, r)) ->
     (List.length r < List.length s)%nat) /\
  (forall s acc l r, parse_array fuel s acc = Some (inr (l, r)) ->
     (List.length r < List.length s)%nat) /\
  (forall s acc d r, parse_object fuel s acc = Some (inr (d, r)) ->
     (List.length r < List.length s)%nat).
Proof.
  induction fuel as [|fuel (IHv & IHa & IHo)].
  - repeat split; intros; discriminate.
  - split; [|split].
    + intros s v r H. cbn [scan_once] in H.
      destruct s as [|c s']; [discriminate|].
      destruct (c =? 34)%N.
      { destruct (scanstring s' []) as [[t r']|] eqn:E; [|discriminate].
        injection H as _ <-. apply (scanstring_lt _ _ _ _ _ (le_n _)) in E.
        cbn [List.length]. lia. }
      destruct (c =? 123)%N.
      { pose proof (skip_ws_le s') as Hle.
        destruct (skip_ws s') as [|c' r']; [discriminate|].
        destruct (c' =? 125)%N.
        - injection H as _ <-. cbn [List.length] in *. lia.
        - destruct (parse_object fuel (c' :: r') []) as [[e|[d r'']]|] eqn:E;
            try discriminate.
          injection H as _ <-. apply IHo in E. cbn [List.length] in *. lia. }
      destruct (c =? 91)%N.
      { pose proof (skip_ws_le s') as Hle.
        destruct (skip_ws s') as [|c' r']; [discriminate|].
        destruct (c' =? 93)%N.
        - injection H as _ <-. cbn [List.length] in *. lia.
        - destruct (parse_array fuel (c' :: r') []) as [[e|[l r'']]|] eqn:E;
            try discriminate.
          injection H as _ <-. apply IHa in E. cbn [List.length] in *. lia. }
      destruct (scan_atom (c :: s')) as [[[e|v'] r']|] eqn:E; try discriminate.
      injection H as _ <-. now apply scan_atom_lt in E.
    + intros s acc l r H. cbn [parse_array] in H.
      destruct (scan_once fuel s) as [[e|[v r0]]|] eqn:E; try discriminate.
      apply IHv in E. pose proof (skip_ws_le r0) as Hle.
      destruct (skip_ws r0) as [|c r']; [discriminate|].
      destruct (c =? 93)%N.
      * injection H as _ <-. cbn [List.length] in *. lia.
      * destruct (c =? 44)%N; [|discriminate].
        apply IHa in H. pose proof (skip_ws_le r') as Hle'.
        cbn [List.length] in *. lia.
    + intros s acc d r H. cbn [parse_object] in H.
      destruct s as [|q s']; [discriminate|].
      destruct (q =? 34)%N; [|discriminate].
      destruct (scanstring s' []) as [[k r1]|] eqn:Ek; [|discriminate].
      apply (scanstring_lt _ _ _ _ _ (le_n _)) in Ek.
      pose proof (skip_ws_le r1) as Hle1.
      destruct (skip_ws r1) as [|c r2]; [discriminate|].
      destruct (c =? 58)%N; [|discriminate].
      pose proof (skip_ws_le r2) as Hle2.
      destruct (scan_once fuel (skip_ws r2)) as [[e|[v r3]]|] eqn:E;
        try discriminate.
      apply IHv in E. pose proof (skip_ws_le r3) as Hle3.
      destruct (skip_ws r3) as [|c' r4]; [discriminate|].
      destruct (c' =? 125)%N.
      * injection H as _ <-. cbn [List.length] in *. lia.
      * destruct (c' =? 44)%N; [|discriminate].
        apply IHo in H. pose proof (skip_ws_le r4) as Hle4.
        cbn [List.length] in *. lia.
Qed.

(** The bound is never used up: with more than twice as much fuel as
    characters (one more for what follows an opening bracket) every
    scanner answers. *)
Lemma scanners_fuel (fuel : nat) :
  (forall s, (2 * List.length s < fuel)%nat -> scan_once fuel s <> None) /\
  (forall s acc, (2 * List.length s + 1 < fuel)%nat ->
     parse_array fuel s acc <> None) /\
  (forall s acc, (2 * List.length s + 1 < fuel)%nat ->
     parse_object fuel s acc <> None).
Proof.
  induction fuel as [|fuel (IHv & IHa & IHo)].
  - repeat split; intros; lia.
  - split; [|split].
    + intros s Hf. cbn [scan_once].
      destruct s as [|c s']; [discriminate|]. cbn [List.length] in Hf.
      destruct (c =? 34)%N.
      { destruct (scanstring s' []) as [[t r']|]; discriminate. }
      destruct (c =? 123)%N.
      { pose proof (skip_ws_le s') as Hle.
        destruct (skip_ws s') as [|c' r']; [discriminate|].
        destruct (c' =? 125)%N; [discriminate|].
        specialize (IHo (c' :: r') []).
        destruct (parse_object fuel (c' :: r') []) as [[e|[d r'']]|];
          try discriminate.
        exfalso. apply IHo; [|reflexivity]. cbn [List.length] in *. lia. }
      destruct (c =? 91)%N.
      { pose proof (skip_ws_le s') as Hle.
        destruct (skip_ws s') as [|c' r']; [discriminate|].
        destruct (c' =? 93)%N; [discriminate|].
        specialize (IHa (c' :: r') []).
        destruct (parse_array fuel (c' :: r') []) as [[e|[l r'']]|];
          try discriminate.
        exfalso. apply IHa; [|reflexivity]. cbn [List.length] in *. lia. }
      destruct (scan_atom (c :: s')) as [[[e|v'] r']|]; discriminate.
    + intros s acc Hf. cbn [parse_array].
      specialize (IHv s).
      destruct (scan_once fuel s) as [[e|[v r0]]|] eqn:E; try discriminate.
      * apply (proj1 (scanners_consume fuel)) in E.
        pose proof (skip_ws_le r0) as Hle.
        destruct (skip_ws r0) as [|c r']; [discriminate|].
        destruct (c =? 93)%N; [discriminate|].
        destruct (c =? 44)%N; [|discriminate].
        apply IHa. pose proof (skip_ws_le r') as Hle'.
        cbn [List.length] in *. lia.
      * exfalso. apply IHv; [lia|reflexivity].
    + intros s acc Hf. cbn [parse_object].
      destruct s as [|q s']; [discriminate|]. cbn [List.length] in Hf.
      destruct (q =? 34)%N; [|discriminate].
      destruct (scanstring s' []) as [[k r1]|] eqn:Ek; [|discriminate].
      apply (scanstring_lt _ _ _ _ _ (le_n _)) in Ek.
      pose proof (skip_ws_le r1) as Hle1.
      destruct (skip_ws r1) as [|c r2]; [discriminate|].
      destruct (c =? 58)%N; [|discriminate].
      pose proof (skip_ws_le r2) as Hle2.
      specialize (IHv (skip_ws r2)).
      destruct (scan_once fuel (skip_ws r2)) as [[e|[v r3]]|] eqn:E;
        try discriminate.
      * apply (proj1 (scanners_consume fuel)) in E.
        pose proof (skip_ws_le r3) as Hle3.
        destruct (skip_ws r3) as [|c' r4]; [discriminate|].
        destruct (c' =? 125)%N; [discriminate|].
        destruct (c' =? 44)%N; [|discriminate].
        apply IHo. pose proof (skip_ws_le r4) as Hle4.
        cbn [List.length] in *. lia.
      * exfalso. apply IHv; [cbn [List.length] in *; lia|reflexivity].
Qed.

(** [loads] gives the scanners enough fuel. *)
Lemma loads_fuel (s : str) : scan_once (fuel_for s) (skip_ws s) <> None.
Proof.
  apply (proj1 (scanners_fuel (fuel_for s))).
  unfold fuel_for. pose proof (skip_ws_le s). lia.
Qed.

End JsonFacts.

Section EffectFacts.

Context {S : Type}.

Lemma bind_Ok_inv {A B} (c : M S A) (k : A -> M S B) s b s' :
  bind c k s = Ok b s' -> exists a s1, c s = Ok a s1 /\ k a s1 = Ok b s'.
Proof.
  unfold bind. destruct (c s) as [a s1|e s1]; [|discriminate].
  intros H. exists a, s1. split; [reflexivity|exact H].
Qed.

Lemma bind_Raise_inv {A B} (c : M S A) (k : A -> M S B) s e s' :
  bind c k s = Raise e s' ->
  c s = Raise e s' \/ exists a s1, c s = Ok a s1 /\ k a s1 = Raise e s'.
Proof.
  unfold bind. destruct (c s) as [a s1|e1 s1].
  - intros H. right. exists a, s1. split; [reflexivity|exact H].
  - intros H. left. inversion H; subst. reflexivity.
Qed.

Lemma bind_Ok {A B} (c : M S A) (k : A -> M S B) s a s1 :
  c s = Ok a s1 -> bind c k s = k a s1.
Proof. unfold bind. now intros ->. Qed.

Lemma bind_Raise {A B} (c : M S A) (k : A -> M S B) s e s1 :
  c s = Raise e s1 -> bind c k s = Raise e s1.
Proof. unfold bind. now intros ->. Qed.

Lemma lift_Ok_inv {A} (r : result A) (s : S) a s' :
  lift r s = Ok a s' -> r = inr a /\ s' = s.
Proof. destruct r; cbn; intros H; inversion H; now subst. Qed.

Lemma lift_Raise_inv {A} (r : result A) (s : S) e s' :
  lift r s = Raise e s' -> r = inl e /\ s' = s.
Proof. destruct r; cbn; intros H; inversion H; now subst. Qed.

Lemma for_each_app {A} (l1 l2 : list A) (body : A -> M S unit) s :
  for_each (l1 ++ l2) body s =
  bind (for_each l1 body) (fun _ => for_each l2 body) s.
Proof.
  revert s. induction l1 as [|x l1 IH]; intros s; simpl.
  - reflexivity.
  - unfold bind in *.
    destruct (body x s) as [[] s1|e s1]; [apply IH|reflexivity].
Qed.

End EffectFacts.

Section TraceFacts.

Lemma for_each_emit {A} (f : A -> event) (l : list A) (t : trace) :
  for_each l (fun x => emit (f x)) t = Ok tt (t ++ map f l).
Proof.
  revert t. induction l as [|x l IH]; intros t; simpl.
  - now rewrite app_nil_r.
  - unfold bind, emit, modify. rewrite IH. now rewrite <- app_assoc.
Qed.

End TraceFacts.

(* ===================================================================== *)
(** * Facts about the tool *)
(* ===================================================================== *)

Section EnsureXY.

Context {S : Type}.

(** A coordinate that tests false ([None], an empty list, zero, ...) is
    rejected before anything else is looked at. *)
Lemma ensure_xy_falsy (coordinate : pyval) (s : S) :
  truthy coordinate = false ->
  _ensure_xy coordinate s = Raise (coordinate_error) s.
Proof. unfold _ensure_xy. now intros ->. Qed.

(** A list is accepted only with two items. *)
Lemma ensure_xy_list_length (l : list pyval) (s : S) :
  List.length l <> 2%nat ->
  _ensure_xy (PList l) s = Raise (coordinate_error) s.
Proof.
  intros Hlen. destruct l as [|a l]; [reflexivity|].
  unfold _ensure_xy. cbn [truthy negb len].
  rewrite bind_Ok with (a := Z.of_nat (List.length (a :: l))) (s1 := s) by reflexivity.
  destruct (Z.of_nat (List.length (a :: l)) =? 2) eqn:E; [|reflexivity].
  apply Z.eqb_eq in E. lia.
Qed.

End EnsureXY.

Section ToolFacts.

Variable env : environment.
Variable self : ComputerUseTool.

(** The screenshot is attached whenever the configured monitor exists. *)
Lemma attach_screenshot_Ok (result : dict) (t : trace) (m : monitor) :
  list_index (monitors env) (monitor_index self) = inr m ->
  exists p,
    _attach_screenshot env self result t =
    Ok (dict_update result
          [("screenshot" : str,
            PStr (("data:image/png;base64," : str)
                  ++ png_base64 env (t ++ [SctGrab m; ImgSave p])));
           ("screenshot_path" : str, PStr (path_str p));
           ("cursor" : str,
            PDict [("x" : str, PInt (fst (position env (t ++ [SctGrab m; ImgSave p]))));
                   ("y" : str, PInt (snd (position env (t ++ [SctGrab m; ImgSave p]))))]);
           ("display" : str, PDict [("width" : str, PInt (mon_width m));
                                    ("height" : str, PInt (mon_height m))])])
       (t ++ [SctGrab m; ImgSave p]).
Proof.
  intros Hm. eexists. unfold _attach_screenshot. rewrite Hm.
  unfold bind, lift, ret, emit, modify, _now_ts, gets.
  rewrite <- !app_assoc. reflexivity.
Qed.

(** What [_attach_screenshot] returns when it returns *)
Lemma attach_screenshot_inv (result : dict) (t : trace) (p' : dict) (t' : trace) :
  _attach_screenshot env self result t = Ok p' t' ->
  exists m encoded spath cursor,
    list_index (monitors env) (monitor_index self) = inr m /\
    p' = dict_update result
           [("screenshot" : str, PStr (("data:image/png;base64," : str) ++ encoded));
            ("screenshot_path" : str, PStr spath);
            ("cursor" : str, PDict [("x" : str, PInt (fst cursor));
                                    ("y" : str, PInt (snd cursor))]);
            ("display" : str, PDict [("width" : str, PInt (mon_width m));
                                     ("height" : str, PInt (mon_height m))])].
Proof.
  unfold _attach_screenshot.
  destruct (list_index (monitors env) (monitor_index self)) as [e|m] eqn:Hm.
  - discriminate.
  - unfold bind, lift, ret, emit, modify, _now_ts, gets.
    intros H. inversion H; subst. now repeat eexists.
Qed.

(** How [call] unfolds on a request that names one of the handlers *)
Lemma call_known_action (d : dict) (name : str) (h : dict -> T dict) (t : trace) :
  dict_lookup d "action" = Some (PStr name) ->
  table_get (handlers self) name = Some h ->
  call env self (PDict d) t =
  bind (h d) (fun result =>
    if existsb (eq_str (PStr name)) ["answer" : str; "terminate" : str]
    then ret {| payload := result |}
    else bind (_attach_screenshot env self result)
              (fun attached => ret {| payload := attached |})) t.
Proof.
  intros Ha Hh. unfold call, action_of. rewrite Ha.
  unfold handler_for. cbn [hashable negb].
  unfold bind at 1, ret at 1. unfold bind at 1, ret at 1. rewrite Hh.
  reflexivity.
Qed.

(** A handler that raises makes [call] raise the same exception. *)
Lemma call_handler_raises (d : dict) (name : str) (h : dict -> T dict)
    (t : trace) (e : exn) (t' : trace) :
  dict_lookup d "action" = Some (PStr name) ->
  table_get (handlers self) name = Some h ->
  h d t = Raise e t' ->
  call env self (PDict d) t = Raise e t'.
Proof.
  intros Ha Hh Hr. rewrite (call_known_action d name h t Ha Hh).
  now apply bind_Raise.
Qed.

(** A physical action that succeeds is followed by the screenshot. *)
Lemma call_physical_Ok (d : dict) (name : str) (h : dict -> T dict)
    (t : trace) (detail : pyval) (t1 : trace) (m : monitor) :
  dict_lookup d "action" = Some (PStr name) ->
  table_get (handlers self) name = Some h ->
  existsb (eq_str (PStr name)) ["answer" : str; "terminate" : str] = false ->
  h d t = Ok (ok detail) t1 ->
  list_index (monitors env) (monitor_index self) = inr m ->
  exists r p,
    call env self (PDict d) t = Ok r (t1 ++ [SctGrab m; ImgSave p]) /\
    dict_lookup (payload r) "status" = Some (PStr "ok") /\
    dict_lookup (payload r) "detail" = Some detail.
Proof.
  intros Ha Hh Hb Hr Hm.
  destruct (attach_screenshot_Ok (ok detail) t1 m Hm) as [p Hp].
  eexists; exists p. rewrite (call_known_action d name h t Ha Hh).
  erewrite bind_Ok by exact Hr. rewrite Hb. erewrite bind_Ok by exact Hp.
  split; [reflexivity|]. split; reflexivity.
Qed.

(** The click handlers with a coordinate that tests false: one click with
    no position, which pyautogui performs where the cursor is. *)
Lemma left_click_in_place (d : dict) (t : trace) :
  truthy (dict_get d "coordinate") = false ->
  _left_click d t =
  Ok (ok (PStr "Left click at current cursor.")) (t ++ [PgClick None "left"]).
Proof. unfold _left_click. now intros ->. Qed.

Lemma right_click_in_place (d : dict) (t : trace) :
  truthy (dict_get d "coordinate") = false ->
  _right_click d t =
  Ok (ok (PStr "Right click at current cursor.")) (t ++ [PgClick None "right"]).
Proof. unfold _right_click. now intros ->. Qed.

Lemma middle_click_in_place (d : dict) (t : trace) :
  truthy (dict_get d "coordinate") = false ->
  _middle_click d t =
  Ok (ok (PStr "Middle click at current cursor.")) (t ++ [PgClick None "middle"]).
Proof. unfold _middle_click. now intros ->. Qed.

Lemma call_click_in_place (d : dict) (t : trace) (name button : str) (m : monitor) :
  In (name, button) click_buttons ->
  dict_lookup d "action" = Some (PStr name) ->
  truthy (dict_get d "coordinate") = false ->
  list_index (monitors env) (monitor_index self) = inr m ->
  exists r p,
    call env self (PDict d) t = Ok r (t ++ [PgClick None button; SctGrab m; ImgSave p]) /\
    dict_lookup (payload r) "status" = Some (PStr "ok").
Proof.
  intros Hin Ha Hc Hm.
  assert (Hcase : exists h detail,
             table_get (handlers self) name = Some h /\
             existsb (eq_str (PStr name)) ["answer" : str; "terminate" : str] = false /\
             h d t = Ok (ok detail) (t ++ [PgClick None button])).
  { destruct Hin as [E|[E|[E|[]]]]; inversion E; subst name button.
    - exists _left_click; eexists. repeat split. now apply left_click_in_place.
    - exists _right_click; eexists. repeat split. now apply right_click_in_place.
    - exists _middle_click; eexists. repeat split. now apply middle_click_in_place. }
  destruct Hcase as (h & detail & Hh & Hb & Hr).
  destruct (call_physical_Ok d name h t detail _ m Ha Hh Hb Hr Hm)
    as (r & p & Hcall & Hs & _).
  exists r, p. rewrite <- app_assoc in Hcall. now split.
Qed.

End ToolFacts.

(* ===================================================================== *)
(** * The executor: coordinates, clicks, typing and key chords *)
(* ===================================================================== *)

Section Executor.

Variable env : environment.
Variable self : ComputerUseTool.

(** [call] raises what the handler of the requested action raises. *)
Ltac call_raises H :=
  eapply call_handler_raises; [eassumption | reflexivity | exact H].

(** C10. For the actions that require a coordinate ([mouse_move],
    [double_click], [triple_click], [left_click_drag]) a coordinate list
    whose length is not exactly 2 (shorter or longer) fails with the
    validation error of [_ensure_xy], before any input event is issued;
    [call] fails in the same way. *)
Theorem coordinate_list_of_wrong_length_rejected (d : dict) (l : list pyval) (t : trace) :
  dict_lookup d "coordinate" = Some (PList l) ->
  List.length l <> 2%nat ->
  _mouse_move self d t = Raise coordinate_error t /\
  _double_click d t = Raise coordinate_error t /\
  _triple_click d t = Raise coordinate_error t /\
  _left_click_drag self d t = Raise coordinate_error t /\
  (forall name : str,
     In name ["mouse_move" : str; "double_click" : str;
              "triple_click" : str; "left_click_drag" : str] ->
     dict_lookup d "action" = Some (PStr name) ->
     call env self (PDict d) t = Raise coordinate_error t).
Proof.
  intros Hc Hlen.
  assert (Hxy : _ensure_xy (dict_get d "coordinate") t = Raise coordinate_error t).
  { rewrite (dict_get_present d _ _ Hc). now apply ensure_xy_list_length. }
  assert (H1 : _mouse_move self d t = Raise coordinate_error t)
    by (unfold _mouse_move; now apply bind_Raise).
  assert (H2 : _double_click d t = Raise coordinate_error t)
    by (unfold _double_click; now apply bind_Raise).
  assert (H3 : _triple_click d t = Raise coordinate_error t)
    by (unfold _triple_click; now apply bind_Raise).
  assert (H4 : _left_click_drag self d t = Raise coordinate_error t)
    by (unfold _left_click_drag; now apply bind_Raise).
  repeat split; try assumption.
  intros name Hin Ha.
  destruct Hin as [E|[E|[E|[E|[]]]]]; subst name.
  - call_raises H1.
  - call_raises H2.
  - call_raises H3.
  - call_raises H4.
Qed.

(** C1, amended. For [left_click], [right_click] and [middle_click] the
    coordinate is optional: with no coordinate in the request the handler
    issues one click without a position (pyautogui clicks where the cursor
    is) and returns status "ok"; through [call], with the configured
    monitor present, the result has status "ok" and the screenshot follows
    the click. [mouse_move] is not among them: with no coordinate it raises
    the validation error and moves nothing. *)
Theorem click_without_coordinate_in_place (d : dict) (t : trace) :
  dict_lookup d "coordinate" = None ->
  _left_click d t =
    Ok (ok (PStr "Left click at current cursor.")) (t ++ [PgClick None "left"]) /\
  _right_click d t =
    Ok (ok (PStr "Right click at current cursor.")) (t ++ [PgClick None "right"]) /\
  _middle_click d t =
    Ok (ok (PStr "Middle click at current cursor.")) (t ++ [PgClick None "middle"]) /\
  (forall (name button : str) (m : monitor),
     In (name, button) click_buttons ->
     dict_lookup d "action" = Some (PStr name) ->
     list_index (monitors env) (monitor_index self) = inr m ->
     exists r p,
       call env self (PDict d) t = Ok r (t ++ [PgClick None button; SctGrab m; ImgSave p]) /\
       dict_lookup (payload r) "status" = Some (PStr "ok")) /\
  _mouse_move self d t = Raise coordinate_error t /\
  (dict_lookup d "action" = Some (PStr "mouse_move") ->
   call env self (PDict d) t = Raise coordinate_error t).
Proof.
  intros Hc.
  assert (Hf : truthy (dict_get d "coordinate") = false)
    by now rewrite (dict_get_absent d _ Hc).
  assert (Hmv : _mouse_move self d t = Raise coordinate_error t).
  { unfold _mouse_move. apply bind_Raise. now apply ensure_xy_falsy. }
  split; [now apply left_click_in_place|].
  split; [now apply right_click_in_place|].
  split; [now apply middle_click_in_place|].
  split; [|split; [exact Hmv|]].
  - intros name button m Hin Ha Hm.
    eapply call_click_in_place; eassumption.
  - intros Ha. call_raises Hmv.
Qed.

(** C9. For [left_click], [right_click] and [middle_click] a coordinate
    that is present but is the empty list is treated as an absent one:
    the click is issued without a position, at the current cursor, and the
    result has status "ok"; no validation error is raised for the
    malformed coordinate. *)
Theorem click_with_empty_coordinate_in_place (d : dict) (t : trace) :
  dict_lookup d "coordinate" = Some (PList []) ->
  _left_click d t =
    Ok (ok (PStr "Left click at current cursor.")) (t ++ [PgClick None "left"]) /\
  _right_click d t =
    Ok (ok (PStr "Right click at current cursor.")) (t ++ [PgClick None "right"]) /\
  _middle_click d t =
    Ok (ok (PStr "Middle click at current cursor.")) (t ++ [PgClick None "middle"]) /\
  (forall (name button : str) (m : monitor),
     In (name, button) click_buttons ->
     dict_lookup d "action" = Some (PStr name) ->
     list_index (monitors env) (monitor_index self) = inr m ->
     exists r p,
       call env self (PDict d) t = Ok r (t ++ [PgClick None button; SctGrab m; ImgSave p]) /\
       dict_lookup (payload r) "status" = Some (PStr "ok")).
Proof.
  intros Hc.
  assert (Hf : truthy (dict_get d "coordinate") = false)
    by now rewrite (dict_get_present d _ _ Hc).
  split; [now apply left_click_in_place|].
  split; [now apply right_click_in_place|].
  split; [now apply middle_click_in_place|].
  intros name button m Hin Ha Hm.
  eapply call_click_in_place; eassumption.
Qed.

(** C8. For the [type] action a request with no [text] fails with the
    validation error and types nothing, while a request whose [text] is
    the empty string succeeds: the empty text is handed to the typing
    primitive and the result has status "ok". Only absence is invalid. *)
Theorem type_needs_text_but_accepts_empty (d : dict) (t : trace) :
  (dict_lookup d "text" = None ->
     _type d t = Raise text_error t /\
     (dict_lookup d "action" = Some (PStr "type") ->
      call env self (PDict d) t = Raise text_error t)) /\
  (dict_lookup d "text" = Some (PStr []) ->
     _type d t = Ok (ok (typed_detail (PStr [])))
                    (t ++ [PgTypewrite (PStr []) typewrite_interval]) /\
     (forall m : monitor,
        dict_lookup d "action" = Some (PStr "type") ->
        list_index (monitors env) (monitor_index self) = inr m ->
        exists r p,
          call env self (PDict d) t =
            Ok r (t ++ [PgTypewrite (PStr []) typewrite_interval; SctGrab m; ImgSave p]) /\
          dict_lookup (payload r) "status" = Some (PStr "ok"))).
Proof.
  split.
  - intros Hx.
    assert (Hr : _type d t = Raise text_error t)
      by (unfold _type; now rewrite (dict_get_absent d _ Hx)).
    split; [exact Hr|]. intros Ha.
    call_raises Hr.
  - intros Hx.
    assert (Hr : _type d t = Ok (ok (typed_detail (PStr [])))
                               (t ++ [PgTypewrite (PStr []) typewrite_interval]))
      by (unfold _type; now rewrite (dict_get_present d _ _ Hx)).
    split; [exact Hr|]. intros m Ha Hm.
    edestruct (call_physical_Ok env self d) as (r & p & Hcall & Hs & _);
      [exact Ha | reflexivity | reflexivity | exact Hr | exact Hm |].
    exists r, p. rewrite <- app_assoc in Hcall. now split.
Qed.

(** C7. For the [key] action an empty [keys] list fails with the
    validation error and presses nothing; for every non-empty list the
    handler issues a key-down for each listed key in request order and
    then a key-up for each in reverse order (a chord), and nothing else. *)
Theorem key_presses_chord (d : dict) (t : trace) :
  (dict_lookup d "keys" = Some (PList []) ->
     _key d t = Raise keys_error t /\
     (dict_lookup d "action" = Some (PStr "key") ->
      call env self (PDict d) t = Raise keys_error t)) /\
  (forall ks : list pyval,
     ks <> [] ->
     dict_lookup d "keys" = Some (PList ks) ->
     _key d t = Ok (ok (pressed_detail (PList ks)))
                   (t ++ map PgKeyDown ks ++ map PgKeyUp (rev ks))).
Proof.
  split.
  - intros Hk.
    assert (Hr : _key d t = Raise keys_error t)
      by (unfold _key; now rewrite (dict_get_present d _ _ Hk)).
    split; [exact Hr|]. intros Ha.
    call_raises Hr.
  - intros ks Hne Hk. destruct ks as [|k ks]; [contradiction|].
    unfold _key. rewrite (dict_get_present d _ _ Hk).
    cbn [por truthy negb iter reversed rbind].
    unfold bind at 1. cbn [lift ret].
    unfold bind at 1. rewrite for_each_emit.
    unfold bind at 1. cbn [lift ret].
    unfold bind at 1. rewrite for_each_emit.
    unfold ret. now rewrite <- app_assoc.
Qed.

End Executor.

(** C1 as stated fails: a [mouse_move] request without a coordinate is not
    applied at the cursor; it raises the validation error and no result is
    produced. *)
Lemma mouse_move_without_coordinate_raises :
  let d : dict := [("action" : str, PStr "mouse_move")] in
  Json.loads (Json.dq "{'action': 'mouse_move'}") = inr (PDict d) /\
  dict_lookup d "coordinate" = None /\
  call desktop default_tool (PDict d) [] =
    Raise coordinate_error [] /\
  ~ (exists r t', call desktop default_tool (PDict d) [] = Ok r t').
Proof.
  cbv zeta. repeat split.
  intros (r & t' & H). vm_compute in H. discriminate.
Qed.

(* ===================================================================== *)
(** * What a handler returns when it returns *)
(* ===================================================================== *)

Section Returns.

Context {S : Type}.

Lemma returns_ret {A} (a : A) (Q : A -> Prop) :
  Q a -> returns (S := S) (ret a) Q.
Proof. intros H s a' s' E. inversion E; now subst. Qed.

Lemma returns_raise {A} (e : exn) (Q : A -> Prop) :
  returns (S := S) (raise e) Q.
Proof. intros s a s' E. discriminate. Qed.

Lemma returns_bind {A B} (c : M S A) (k : A -> M S B) (Q : B -> Prop) :
  (forall a, returns (k a) Q) -> returns (bind c k) Q.
Proof.
  intros H s b s' E. apply bind_Ok_inv in E as (a & s1 & _ & E).
  exact (H a s1 b s' E).
Qed.

End Returns.

Ltac returns_step :=
  lazymatch goal with
  | |- returns (ret _) _ => apply returns_ret
  | |- returns (raise _) _ => apply returns_raise
  | |- returns (value_error _) _ => apply returns_raise
  | |- returns (bind _ _) _ => apply returns_bind; intros; cbv beta
  | |- returns (if ?b then _ else _) _ => destruct b
  | |- returns (match ?x with _ => _ end) _ => destruct x
  end.

Section Shapes.

Variable self : ComputerUseTool.

Ltac returns_ok := repeat returns_step; eexists; reflexivity.

Lemma mouse_move_returns d : returns (_mouse_move self d) ok_payload.
Proof. unfold _mouse_move. returns_ok. Qed.

Lemma left_click_returns d : returns (_left_click d) ok_payload.
Proof. unfold _left_click. cbv zeta. returns_ok. Qed.

Lemma right_click_returns d : returns (_right_click d) ok_payload.
Proof. unfold _right_click. cbv zeta. returns_ok. Qed.

Lemma middle_click_returns d : returns (_middle_click d) ok_payload.
Proof. unfold _middle_click. cbv zeta. returns_ok. Qed.

Lemma double_click_returns d : returns (_double_click d) ok_payload.
Proof. unfold _double_click. returns_ok. Qed.

Lemma triple_click_returns d : returns (_triple_click d) ok_payload.
Proof. unfold _triple_click. returns_ok. Qed.

Lemma left_click_drag_returns d : returns (_left_click_drag self d) ok_payload.
Proof. unfold _left_click_drag. returns_ok. Qed.

Lemma scroll_returns d : returns (_scroll d) ok_payload.
Proof. unfold _scroll. returns_ok. Qed.

Lemma hscroll_returns d : returns (_hscroll d) ok_payload.
Proof. unfold _hscroll. returns_ok. Qed.

Lemma type_returns d : returns (_type d) ok_payload.
Proof. unfold _type. cbv zeta. returns_ok. Qed.

Lemma key_returns d : returns (_key d) ok_payload.
Proof. unfold _key. cbv zeta. returns_ok. Qed.

Lemma wait_returns d : returns (_wait d) ok_payload.
Proof. unfold _wait. cbv zeta. returns_ok. Qed.

Lemma answer_returns d : returns (_answer d) answer_payload.
Proof. unfold _answer. cbv zeta. returns_step. eexists; reflexivity. Qed.

Lemma terminate_returns d : returns (_terminate d) terminate_payload.
Proof.
  unfold _terminate. cbv zeta. intros t p t' H.
  unfold bind, in_str_set in H.
  destruct (dict_get d "status") as [| | | |verdict| | |];
    cbn [hashable lift ret raise existsb eq_str orb negb value_error] in H;
    try discriminate.
  destruct (str_eqb verdict "success" || (str_eqb verdict "failure" || false))
    eqn:Hin; cbn [negb value_error raise ret] in H; [|discriminate].
  injection H as Hp _. exists verdict. split; [|now symmetry].
  apply orb_true_iff in Hin as [E|E].
  - left. now apply str_eqb_eq.
  - right. rewrite orb_false_r in E. now apply str_eqb_eq.
Qed.

Lemma table_get_Forall {A} (P : str -> A -> Prop) (table : list (str * A)) k a :
  Forall (fun ka => P (fst ka) (snd ka)) table ->
  (forall k1 k2 a, str_eqb k1 k2 = true -> P k1 a -> P k2 a) ->
  table_get table k = Some a -> P k a.
Proof.
  intros HF Hext. induction HF as [|[k' a'] rest Hhd _ IH]; cbn [table_get].
  - discriminate.
  - destruct (str_eqb k' k) eqn:E.
    + intros H; inversion H; subst. exact (Hext _ _ _ E Hhd).
    + exact IH.
Qed.

(** Every handler of the dispatch table returns the payload of its kind. *)
Lemma handler_shape (name : str) (h : dict -> T dict) (d : dict) :
  table_get (handlers self) name = Some h -> returns (h d) (shape name).
Proof.
  apply (table_get_Forall (fun name h => returns (h d) (shape name))).
  - unfold handlers.
    repeat (apply Forall_cons; [cbn [fst snd]; unfold shape|]);
      [ .. | apply Forall_nil ];
      match goal with
      | |- returns _ (if ?b then _ else _) =>
          let v := eval vm_compute in b in change b with v; cbv iota
      end;
      try match goal with
      | |- returns _ (if ?b then _ else _) =>
          let v := eval vm_compute in b in change b with v; cbv iota
      end;
      auto using mouse_move_returns, left_click_returns, right_click_returns,
        middle_click_returns, double_click_returns, triple_click_returns,
        left_click_drag_returns, scroll_returns, hscroll_returns, type_returns,
        key_returns, wait_returns, answer_returns, terminate_returns.
  - intros k1 k2 a E. apply str_eqb_eq in E. now subst.
Qed.

End Shapes.

(* ===================================================================== *)
(** * The screenshot policy of [call] *)
(* ===================================================================== *)

Section ScreenshotPolicy.

Variable env : environment.
Variable self : ComputerUseTool.

(** An action outside the dispatch table is refused. *)
Lemma call_unsupported_action (d : dict) (name : str) (t : trace) :
  dict_lookup d "action" = Some (PStr name) ->
  table_get (handlers self) name = None ->
  call env self (PDict d) t =
  Raise (ValueError (Some (PFString [inl ("Unsupported action: " : str);
                                     inr (PStr name)]))) t.
Proof.
  intros Ha Hh. unfold call, action_of. rewrite Ha.
  unfold handler_for. cbn [hashable negb].
  unfold bind at 1, ret at 1. unfold bind at 1, ret at 1. rewrite Hh.
  reflexivity.
Qed.

(** The actions announced to the model are those of the dispatch table. *)
Lemma announced_actions_have_handlers (name : str) :
  In name TOOL_SPEC_ACTIONS <-> table_get (handlers self) name <> None.
Proof.
  split.
  - unfold TOOL_SPEC_ACTIONS. cbn [In].
    intros H; repeat (destruct H as [<-|H]; [discriminate|]); contradiction.
  - destruct (table_get (handlers self) name) as [h|] eqn:E; [|contradiction].
    intros _. revert E.
    apply (table_get_Forall (fun name _ => In name TOOL_SPEC_ACTIONS)).
    + unfold handlers, TOOL_SPEC_ACTIONS.
      repeat (apply Forall_cons; [cbn [fst In]; tauto|]). apply Forall_nil.
    + intros k1 k2 _ E. apply str_eqb_eq in E. now subst.
Qed.

(** What [call] did when it returned: the request was an object naming a
    handler, the handler returned, and the screenshot was attached unless
    the action is one of the two bookkeeping ones. *)
Lemma call_inv (params : pyval) (t : trace) (r : ToolResult) (t' : trace) :
  call env self params t = Ok r t' ->
  exists d name h p t1,
    params = PDict d /\
    dict_lookup d "action" = Some (PStr name) /\
    table_get (handlers self) name = Some h /\
    h d t = Ok p t1 /\
    if existsb (eq_str (PStr name)) ["answer" : str; "terminate" : str]
    then r = {| payload := p |} /\ t' = t1
    else _attach_screenshot env self p t1 = Ok (payload r) t'.
Proof.
  intros H.
  destruct params as [| | | | | |d|]; try discriminate.
  unfold call, action_of in H.
  destruct (dict_lookup d "action") as [action|] eqn:Ha; [|discriminate].
  fold (action_of (PDict d)) in H.
  destruct action as [| | | |name| | |]; try discriminate.
  cbn [bind ret handler_for hashable negb] in H. unfold bind at 1, ret at 1 in H.
  unfold bind at 1, ret at 1 in H.
  destruct (table_get (handlers self) name) as [h|] eqn:Hh; [|discriminate].
  apply bind_Ok_inv in H as (p & t1 & Hp & H).
  exists d, name, h, p, t1. repeat (split; [assumption || reflexivity|]).
  cbn [lift in_str_set hashable] in H. unfold bind at 1, ret at 1 in H.
  destruct (existsb (eq_str (PStr name)) ["answer" : str; "terminate" : str]).
  - inversion H; now subst.
  - apply bind_Ok_inv in H as (p' & t2 & Hatt & H).
    inversion H; subst. exact Hatt.
Qed.


End ScreenshotPolicy.

(* ===================================================================== *)
(** * Facts about the agent loop *)
(* ===================================================================== *)

Section StatusFacts.

Variable env : environment.
Variable self : ComputerUseTool.

(** The status of a result is one of three words; a terminate result
    carries one of the two verdicts. *)
Lemma call_status (params : pyval) (t : trace) (r : ToolResult) (t' : trace) :
  call env self params t = Ok r t' ->
  dict_get (payload r) "status" = PStr "ok" \/
  dict_get (payload r) "status" = PStr "answer" \/
  (dict_get (payload r) "status" = PStr "terminate" /\
   (dict_get (payload r) "result" = PStr "success" \/
    dict_get (payload r) "result" = PStr "failure")).
Proof.
  intros H.
  apply call_inv in H as (d & name & h & p & t1 & -> & Ha & Hh & Hp & H).
  pose proof (handler_shape self name h d Hh t p t1 Hp) as Hshape.
  unfold shape in Hshape. cbn [existsb eq_str] in H.
  destruct (str_eqb name "answer") eqn:E1;
    [|destruct (str_eqb name "terminate") eqn:E2]; cbn [orb] in H.
  - destruct H as [-> ->]. destruct Hshape as [text ->]. right; left. reflexivity.
  - destruct H as [-> ->]. destruct Hshape as (verdict & [-> | ->] & ->);
      right; right; (split; [reflexivity|]); [left|right]; reflexivity.
  - destruct Hshape as [detail ->].
    apply attach_screenshot_inv in H as (m & encoded & spath & cursor & _ & ->).
    left. reflexivity.
Qed.

End StatusFacts.

Section AgentFacts.

Variable env : environment.
Variable self : ComputerUseAgent.

(** What one iteration of the [for] loop did when it completed *)
Lemma dispatch_Ok_inv (tc : tool_call) (s s' : state) :
  dispatch env self tc s = Ok tt s' ->
  exists args r t',
    Json.loads (arguments_or_empty (function_arguments tc)) = inr args /\
    call env (tool self) args (events s) = Ok r t' /\
    messages s' = messages s ++ [ToolMessage (id tc) (function_name tc) (payload r)] /\
    final_answer s' =
      (if is_answer (payload r)
       then dict_get_default (payload r) "text" (PStr []) else final_answer s) /\
    terminated s' =
      (if is_terminate (payload r)
       then dict_get (payload r) "result" else terminated s).
Proof.
  unfold dispatch. intros H.
  apply bind_Ok_inv in H as (args & s1 & Hl & H).
  apply lift_Ok_inv in Hl as [Hl ->].
  apply bind_Ok_inv in H as (r & s1 & Hc & H).
  unfold on_trace in Hc.
  destruct (call env (tool self) args (events s)) as [r' t'|e t'] eqn:Hcall;
    [|discriminate].
  inversion Hc; subst r' s1; clear Hc.
  exists args, r, t'. split; [exact Hl|]. split; [exact Hcall|].
  unfold is_answer, is_terminate.
  destruct (eq_str (dict_get (payload r) "status") "answer");
    destruct (eq_str (dict_get (payload r) "status") "terminate");
    cbv [bind modify gets print on_trace emit append ret raise] in H;
    repeat lazymatch type of H with
           | context [if stdout_accepts ?v ?line then _ else _] =>
               destruct (stdout_accepts v line)
           end;
    inversion H; subst; repeat split.
Qed.

(** An iteration that raises appends nothing: the decoder, the tool and
    [print] all come before the append. *)
Lemma dispatch_Raise_inv (tc : tool_call) (s : state) (e : exn) (s' : state) :
  dispatch env self tc s = Raise e s' ->
  messages s' = messages s.
Proof.
  unfold dispatch. intros H.
  apply bind_Raise_inv in H as [H|(args & s1 & Hl & H)].
  - apply lift_Raise_inv in H as [_ ->]. reflexivity.
  - apply lift_Ok_inv in Hl as [_ ->].
    apply bind_Raise_inv in H as [H|(r & s1 & Hc & H)].
    + unfold on_trace in H.
      destruct (call env (tool self) args (events s)); inversion H; subst.
      reflexivity.
    + unfold on_trace in Hc.
      destruct (call env (tool self) args (events s)); inversion Hc; subst.
      destruct (eq_str (dict_get (payload r) "status") "answer");
        destruct (eq_str (dict_get (payload r) "status") "terminate");
        cbv [bind modify gets print on_trace emit append ret raise] in H;
        repeat lazymatch type of H with
               | context [if stdout_accepts ?v ?line then _ else _] =>
                   destruct (stdout_accepts v line)
               end;
        inversion H; subst; reflexivity.
Qed.

End AgentFacts.

Section Rounds.

Variable env : environment.
Variable create : str -> list message -> float -> result chat_message.
Variable self : ComputerUseAgent.

Lemma dispatch_appends (tc : tool_call) (s s' : state) :
  dispatch env self tc s = Ok tt s' ->
  exists m,
    messages s' = messages s ++ [m] /\
    answers tc m /\
    (terminate_message m = false -> terminated s' = terminated s) /\
    (terminate_message m = true -> truthy (terminated s') = true).
Proof.
  intros H.
  apply dispatch_Ok_inv in H as (args & r & t' & _ & Hcall & Hm & _ & Ht).
  exists (ToolMessage (id tc) (function_name tc) (payload r)).
  split; [exact Hm|]. split; [split; [reflexivity|now eexists]|].
  cbn [terminate_message]. rewrite Ht.
  split; intros E; rewrite E; [reflexivity|].
  apply call_status in Hcall as [Hs|[Hs|[_ [Hr|Hr]]]].
  - unfold is_terminate in E. rewrite Hs in E. discriminate.
  - unfold is_terminate in E. rewrite Hs in E. discriminate.
  - now rewrite Hr.
  - now rewrite Hr.
Qed.

(** A round that completes: one tool message per call, in call order; the
    verdict is recorded exactly when one of them is a terminate result. *)
Lemma round_Ok (calls : list tool_call) (s s' : state) :
  for_each calls (dispatch env self) s = Ok tt s' ->
  exists new,
    messages s' = messages s ++ new /\
    Forall2 answers calls new /\
    (existsb terminate_message new = false -> terminated s' = terminated s) /\
    (existsb terminate_message new = true -> truthy (terminated s') = true).
Proof.
  revert s. induction calls as [|tc calls IH]; intros s H.
  - inversion H; subst. exists []. rewrite app_nil_r.
    repeat split; [constructor|discriminate].
  - cbn [for_each] in H. apply bind_Ok_inv in H as ([] & s1 & Hd & H).
    apply dispatch_appends in Hd as (m & Hm & Ham & Hkeep & Hset).
    apply IH in H as (new & Hnew & Hall & Hkeep' & Hset').
    exists (m :: new). split; [|split; [|split]].
    + rewrite Hnew, Hm, <- app_assoc. reflexivity.
    + now constructor.
    + cbn [existsb]. intros E. apply orb_false_iff in E as [E1 E2].
      rewrite (Hkeep' E2). exact (Hkeep E1).
    + cbn [existsb]. intros E.
      destruct (existsb terminate_message new) eqn:E2; [now apply Hset'|].
      rewrite orb_false_r in E. rewrite (Hkeep' eq_refl). exact (Hset E).
Qed.

(** A round cut short by an exception: the calls before the failing one
    have their tool messages, the failing one and those after it have
    none. *)
Lemma round_Raise (calls : list tool_call) (s : state) (e : exn) (s' : state) :
  for_each calls (dispatch env self) s = Raise e s' ->
  exists done tc rest new,
    calls = done ++ tc :: rest /\
    messages s' = messages s ++ new /\
    Forall2 answers done new.
Proof.
  revert s. induction calls as [|tc calls IH]; intros s H; [discriminate|].
  cbn [for_each] in H. apply bind_Raise_inv in H as [H|([] & s1 & Hd & H)].
  - apply dispatch_Raise_inv in H as Hm.
    exists [], tc, calls, []. rewrite app_nil_r. repeat split; [exact Hm|constructor].
  - apply dispatch_appends in Hd as (m & Hm & Ham & _ & _).
    apply IH in H as (done & tc' & rest & new & -> & Hnew & Hall).
    exists (tc :: done), tc', rest, (m :: new). repeat split.
    + rewrite Hnew, Hm, <- app_assoc. reflexivity.
    + now constructor.
Qed.

(** One iteration of [run] on a reply that carries tool calls *)
Lemma run_loop_round (n : nat) (s : state) (reply : chat_message)
    (tc : tool_call) (calls : list tool_call) :
  create (model self) (messages s) (temperature self) = inr reply ->
  tool_calls_or_empty reply = tc :: calls ->
  run_loop env create self (S n) s =
  match for_each (tc :: calls) (dispatch env self) (replied s reply) with
  | Ok _ s1 =>
      if truthy (terminated s1) then Ok Terminated s1
      else run_loop env create self n s1
  | Raise e s1 => Raise e s1
  end.
Proof.
  intros Hc Hcalls. cbn [run_loop].
  unfold bind at 1, gets at 1. rewrite Hc.
  unfold bind at 1, lift at 1, ret at 1.
  unfold bind at 1, append at 1, modify at 1.
  rewrite Hcalls. fold (replied s reply).
  unfold bind at 1.
  destruct (for_each (tc :: calls) (dispatch env self) (replied s reply))
    as [[] s1|e s1]; [|reflexivity].
  unfold bind, gets. destruct (truthy (terminated s1)); reflexivity.
Qed.

End Rounds.

(* ===================================================================== *)
(** * The conversation loop *)
(* ===================================================================== *)

Section Loop.

Variable env : environment.
Variable create : str -> list message -> float -> result chat_message.
Variable self : ComputerUseAgent.




(** C2, amended. When the arguments of a tool call are not valid JSON,
    [json.loads] raises and nothing in [run] catches it: the call appends
    no tool message and changes nothing, and the run ends with that
    exception in the state the earlier calls of the round left; the later
    calls of the round are not dispatched and the model is not asked
    again. *)
Theorem malformed_arguments_abort_run
    (n : nat) (s : state) (reply : chat_message)
    (before after : list tool_call) (tc : tool_call) (e : exn) (s1 : state) :
  create (model self) (messages s) (temperature self) = inr reply ->
  tool_calls_or_empty reply = before ++ tc :: after ->
  for_each before (dispatch env self) (replied s reply) = Ok tt s1 ->
  Json.loads (arguments_or_empty (function_arguments tc)) = inl e ->
  dispatch env self tc s1 = Raise e s1 /\
  run_loop env create self (S n) s = Raise e s1 /\
  exists new : list message,
    messages s1 = messages s ++ Assistant reply :: new /\
    Forall2 answers before new.
Proof.
  intros Hc Hcalls Hbefore Hbad.
  assert (Htc : dispatch env self tc s1 = Raise e s1).
  { unfold dispatch. apply bind_Raise. now rewrite Hbad. }
  assert (Hround : for_each (before ++ tc :: after) (dispatch env self)
                     (replied s reply) = Raise e s1).
  { rewrite for_each_app. erewrite bind_Ok by exact Hbefore.
    cbn [for_each]. now apply bind_Raise. }
  split; [exact Htc|]. split.
  - destruct before as [|b before']; cbn [app] in Hcalls, Hround.
    + rewrite (run_loop_round env create self n s reply tc after Hc Hcalls).
      now rewrite Hround.
    + rewrite (run_loop_round env create self n s reply b _ Hc Hcalls).
      now rewrite Hround.
  - destruct (round_Ok env self before _ s1 Hbefore) as (new & Hnew & Hall & _).
    exists new. split; [|exact Hall].
    rewrite Hnew. unfold replied. cbn [messages with_messages].
    now rewrite <- app_assoc.
Qed.




End Loop.

(* ===================================================================== *)
(** * The theorems at work on the concrete desktop *)
(* ===================================================================== *)

(** A [double_click] with three numbers is rejected. *)
Lemma coordinate_list_of_wrong_length_rejected_witness :
  let d : dict := [("action" : str, PStr "double_click");
                   ("coordinate" : str, PList [PInt 1; PInt 2; PInt 3])] in
  request "{'action': 'double_click', 'coordinate': [1, 2, 3]}" = PDict d /\
  dict_lookup d "coordinate" = Some (PList [PInt 1; PInt 2; PInt 3]) /\
  List.length [PInt 1; PInt 2; PInt 3] <> 2%nat /\
  call desktop default_tool (PDict d) [] =
    Raise coordinate_error [].
Proof.
  intros d.
  assert (H1 : dict_lookup d "coordinate" = Some (PList [PInt 1; PInt 2; PInt 3]))
    by reflexivity.
  assert (H2 : List.length [PInt 1; PInt 2; PInt 3] <> 2%nat) by (simpl; lia).
  split; [vm_compute; reflexivity|]. split; [exact H1|]. split; [exact H2|].
  destruct (coordinate_list_of_wrong_length_rejected desktop default_tool d _ [] H1 H2)
    as (_ & _ & _ & _ & Hcall).
  apply (Hcall "double_click"); [right; left; reflexivity | reflexivity].
Defined.

(** A [left_click] without a coordinate clicks where the cursor is. *)
Lemma click_without_coordinate_in_place_witness :
  let d : dict := [("action" : str, PStr "left_click")] in
  request "{'action': 'left_click'}" = PDict d /\
  dict_lookup d "coordinate" = None /\
  In ("left_click" : str, "left" : str) click_buttons /\
  dict_lookup d "action" = Some (PStr "left_click") /\
  list_index (monitors desktop) (monitor_index default_tool) =
    inr {| mon_left := 0; mon_top := 0; mon_width := 1920; mon_height := 1080 |} /\
  exists r p,
    call desktop default_tool (PDict d) [] =
      Ok r [PgClick None "left";
            SctGrab {| mon_left := 0; mon_top := 0; mon_width := 1920; mon_height := 1080 |};
            ImgSave p] /\
    dict_lookup (payload r) "status" = Some (PStr "ok").
Proof.
  intros d.
  assert (H1 : dict_lookup d "coordinate" = None) by reflexivity.
  assert (H2 : In ("left_click" : str, "left" : str) click_buttons)
    by (left; reflexivity).
  assert (H3 : dict_lookup d "action" = Some (PStr "left_click")) by reflexivity.
  assert (H4 : list_index (monitors desktop) (monitor_index default_tool) =
               inr {| mon_left := 0; mon_top := 0; mon_width := 1920; mon_height := 1080 |})
    by reflexivity.
  split; [vm_compute; reflexivity|].
  split; [exact H1|]. split; [exact H2|]. split; [exact H3|]. split; [exact H4|].
  destruct (click_without_coordinate_in_place desktop default_tool d [] H1)
    as (_ & _ & _ & Hcall & _ & _).
  exact (Hcall _ _ _ H2 H3 H4).
Defined.

(** A [right_click] with an empty coordinate list does the same. *)
Lemma click_with_empty_coordinate_in_place_witness :
  let d : dict := [("action" : str, PStr "right_click");
                   ("coordinate" : str, PList [])] in
  request "{'action': 'right_click', 'coordinate': []}" = PDict d /\
  dict_lookup d "coordinate" = Some (PList []) /\
  In ("right_click" : str, "right" : str) click_buttons /\
  dict_lookup d "action" = Some (PStr "right_click") /\
  list_index (monitors desktop) (monitor_index default_tool) =
    inr {| mon_left := 0; mon_top := 0; mon_width := 1920; mon_height := 1080 |} /\
  exists r p,
    call desktop default_tool (PDict d) [] =
      Ok r [PgClick None "right";
            SctGrab {| mon_left := 0; mon_top := 0; mon_width := 1920; mon_height := 1080 |};
            ImgSave p] /\
    dict_lookup (payload r) "status" = Some (PStr "ok").
Proof.
  intros d.
  assert (H1 : dict_lookup d "coordinate" = Some (PList [])) by reflexivity.
  assert (H2 : In ("right_click" : str, "right" : str) click_buttons)
    by (right; left; reflexivity).
  assert (H3 : dict_lookup d "action" = Some (PStr "right_click")) by reflexivity.
  assert (H4 : list_index (monitors desktop) (monitor_index default_tool) =
               inr {| mon_left := 0; mon_top := 0; mon_width := 1920; mon_height := 1080 |})
    by reflexivity.
  split; [vm_compute; reflexivity|].
  split; [exact H1|]. split; [exact H2|]. split; [exact H3|]. split; [exact H4|].
  destruct (click_with_empty_coordinate_in_place desktop default_tool d [] H1)
    as (_ & _ & _ & Hcall).
  exact (Hcall _ _ _ H2 H3 H4).
Defined.

(** [type] without a text fails; [type] with the empty text types it. *)
Lemma type_needs_text_but_accepts_empty_witness :
  let absent : dict := [("action" : str, PStr "type")] in
  let empty : dict := [("action" : str, PStr "type"); ("text" : str, PStr [])] in
  request "{'action': 'type'}" = PDict absent /\
  request "{'action': 'type', 'text': ''}" = PDict empty /\
  dict_lookup absent "text" = None /\
  dict_lookup empty "text" = Some (PStr []) /\
  _type absent [] =
    Raise text_error [] /\
  _type empty [] =
    Ok (ok (typed_detail (PStr []))) [PgTypewrite (PStr []) typewrite_interval].
Proof.
  intros absent empty.
  assert (H1 : dict_lookup absent "text" = None) by reflexivity.
  assert (H2 : dict_lookup empty "text" = Some (PStr [])) by reflexivity.
  split; [vm_compute; reflexivity|]. split; [vm_compute; reflexivity|].
  split; [exact H1|]. split; [exact H2|]. split.
  - exact (proj1 (proj1 (type_needs_text_but_accepts_empty
                           desktop default_tool absent []) H1)).
  - exact (proj1 (proj2 (type_needs_text_but_accepts_empty
                           desktop default_tool empty []) H2)).
Defined.

(** The chord ctrl+c: down ctrl, down c, up c, up ctrl. *)
Lemma key_presses_chord_witness :
  let none : dict := [("action" : str, PStr "key"); ("keys" : str, PList [])] in
  let ks : list pyval := [PStr "ctrl"; PStr "c"] in
  let chord : dict := [("action" : str, PStr "key"); ("keys" : str, PList ks)] in
  request "{'action': 'key', 'keys': ['ctrl', 'c']}" = PDict chord /\
  dict_lookup none "keys" = Some (PList []) /\
  ks <> [] /\
  dict_lookup chord "keys" = Some (PList ks) /\
  _key none [] =
    Raise keys_error [] /\
  _key chord [] =
    Ok (ok (pressed_detail (PList ks)))
       [PgKeyDown (PStr "ctrl"); PgKeyDown (PStr "c");
        PgKeyUp (PStr "c"); PgKeyUp (PStr "ctrl")].
Proof.
  intros none ks chord.
  assert (H1 : dict_lookup none "keys" = Some (PList [])) by reflexivity.
  assert (H2 : ks <> []) by discriminate.
  assert (H3 : dict_lookup chord "keys" = Some (PList ks)) by reflexivity.
  split; [vm_compute; reflexivity|].
  split; [exact H1|]. split; [exact H2|]. split; [exact H3|]. split.
  - exact (proj1 (proj1 (key_presses_chord desktop default_tool none []) H1)).
  - exact (proj2 (key_presses_chord desktop default_tool chord []) ks H2 H3).
Defined.




(** C2 as stated fails: a call whose arguments are cut off in the middle
    makes [run] raise the decoding error. The history ends with the reply
    of the model: no tool message was appended, and although four turns
    remain the model is not asked again. *)
Lemma malformed_arguments_crash_the_run :
  let a := agent_with 5 in
  let reply := reply_with [malformed_call] in
  Json.loads (arguments_or_empty (function_arguments malformed_call))
    = inl JSONDecodeError /\
  run desktop (always reply) a (init a) =
    Raise JSONDecodeError
      {| messages := [RoleContent "system" SYSTEM_PROMPT;
                      RoleContent "user" (task a);
                      Assistant reply];
         final_answer := PNone;
         terminated := PNone;
         events := [] |} /\
  ~ (exists x s', run desktop (always reply) a (init a) = Ok x s').
Proof.
  intros a reply. split; [vm_compute; reflexivity|].
  split; [vm_compute; reflexivity|].
  intros (x & s' & H). vm_compute in H. discriminate.
Qed.

(** A click, a malformed call and an answer in one round: the run raises at
    the malformed call, after the message of the click only. *)
Lemma malformed_arguments_abort_run_witness :
  let a := agent_with 5 in
  let reply := reply_with [click_call; malformed_call; answer_call] in
  let s1 := state_of (for_each [click_call] (dispatch desktop a)
                        (replied (init a) reply)) in
  always reply (model a) (messages (init a)) (temperature a) = inr reply /\
  tool_calls_or_empty reply = [click_call] ++ malformed_call :: [answer_call] /\
  for_each [click_call] (dispatch desktop a) (replied (init a) reply) = Ok tt s1 /\
  Json.loads (arguments_or_empty (function_arguments malformed_call))
    = inl JSONDecodeError /\
  run desktop (always reply) a (init a) = Raise JSONDecodeError s1 /\
  List.length (messages s1) = 4%nat.
Proof.
  intros a reply s1.
  assert (H1 : always reply (model a) (messages (init a)) (temperature a) = inr reply)
    by reflexivity.
  assert (H2 : tool_calls_or_empty reply = [click_call] ++ malformed_call :: [answer_call])
    by reflexivity.
  assert (H3 : for_each [click_call] (dispatch desktop a) (replied (init a) reply)
               = Ok tt s1) by (vm_compute; reflexivity).
  assert (H4 : Json.loads (arguments_or_empty (function_arguments malformed_call))
               = inl JSONDecodeError) by (vm_compute; reflexivity).
  split; [exact H1|]. split; [exact H2|]. split; [exact H3|]. split; [exact H4|].
  split.
  - exact (proj1 (proj2 (malformed_arguments_abort_run desktop (always reply) a 4
                           (init a) reply [click_call] [answer_call] malformed_call
                           JSONDecodeError s1 H1 H2 H3 H4))).
  - vm_compute. reflexivity.
Defined.





(* ===================================================================== *)
(** * Further facts: what a computation does to the state *)
(* ===================================================================== *)

Import Startup Behaviour.

Section Discipline.

Context {S : Type}.

Lemma unchanged_ret {A} (a : A) : unchanged (S := S) (ret a).
Proof. intros s. left. now exists a. Qed.

Lemma unchanged_raise {A} (e : exn) : unchanged (S := S) (A := A) (raise e).
Proof. intros s. right. now exists e. Qed.

Lemma unchanged_lift {A} (r : result A) : unchanged (S := S) (lift r).
Proof. destruct r; [apply unchanged_raise | apply unchanged_ret]. Qed.

Lemma unchanged_bind {A B} (c : M S A) (k : A -> M S B) :
  unchanged c -> (forall a, unchanged (k a)) -> unchanged (bind c k).
Proof.
  intros Hc Hk s. unfold bind.
  destruct (Hc s) as [[a E]|[e E]]; rewrite E; [apply Hk|].
  right. now exists e.
Qed.

Lemma never_raises_ret {A} (a : A) : never_raises (S := S) (ret a).
Proof. intros s. now exists a, s. Qed.

Lemma never_raises_modify (f : S -> S) : never_raises (modify f).
Proof. intros s. now exists tt, (f s). Qed.

Lemma never_raises_bind {A B} (c : M S A) (k : A -> M S B) :
  never_raises c -> (forall a, never_raises (k a)) -> never_raises (bind c k).
Proof.
  intros Hc Hk s. unfold bind.
  destruct (Hc s) as (a & s1 & E). rewrite E. apply Hk.
Qed.

Lemma never_raises_for_each {A} (l : list A) (body : A -> M S unit) :
  (forall x, never_raises (body x)) -> never_raises (for_each l body).
Proof.
  intros Hb. induction l as [|x l IH]; cbn [for_each].
  - apply never_raises_ret.
  - apply never_raises_bind; [apply Hb | intros _; exact IH].
Qed.

Lemma raises_early_unchanged {A} (c : M S A) : unchanged c -> raises_early c.
Proof.
  intros Hc s e s' E. destruct (Hc s) as [[a E']|[e' E']]; rewrite E' in E.
  - discriminate.
  - now inversion E.
Qed.

Lemma raises_early_never {A} (c : M S A) : never_raises c -> raises_early c.
Proof.
  intros Hc s e s' E. destruct (Hc s) as (a & s1 & E'). rewrite E' in E.
  discriminate.
Qed.

(** Checks first: after a step that leaves the state alone, an early
    raise is still early. *)
Lemma raises_early_after_check {A B} (c : M S A) (k : A -> M S B) :
  unchanged c -> (forall a, raises_early (k a)) -> raises_early (bind c k).
Proof.
  intros Hc Hk s e s' E. unfold bind in E.
  destruct (Hc s) as [[a E']|[e' E']]; rewrite E' in E.
  - exact (Hk a s e s' E).
  - now inversion E.
Qed.

(** Effects last: a step that raises early, followed by steps that never
    raise. *)
Lemma raises_early_before_effects {A B} (c : M S A) (k : A -> M S B) :
  raises_early c -> (forall a, never_raises (k a)) -> raises_early (bind c k).
Proof.
  intros Hc Hk s e s' E. apply bind_Raise_inv in E as [E|(a & s1 & _ & E)].
  - exact (Hc s e s' E).
  - destruct (Hk a s1) as (b & s2 & E'). rewrite E' in E. discriminate.
Qed.

Lemma ensure_xy_unchanged (coordinate : pyval) :
  unchanged (S := S) (_ensure_xy coordinate).
Proof.
  unfold _ensure_xy.
  destruct (negb (truthy coordinate)); [apply unchanged_raise|].
  apply unchanged_bind; [apply unchanged_lift|]. intros n.
  destruct (negb (n =? 2)); [apply unchanged_raise|].
  repeat (apply unchanged_bind; [apply unchanged_lift|]; intros ?).
  apply unchanged_ret.
Qed.

Lemma maybe_int_unchanged (value : pyval) (default : Z) :
  unchanged (S := S) (_maybe_int value default).
Proof.
  unfold _maybe_int.
  destruct value; try apply unchanged_lift. apply unchanged_ret.
Qed.

End Discipline.

Section TraceDiscipline.

Lemma never_raises_emit (e : event) : never_raises (emit e).
Proof. apply never_raises_modify. Qed.

Lemma time_sleep_raises_early (secs : float) : raises_early (time_sleep secs).
Proof.
  assert (Hemit : raises_early (emit (TimeSleep secs)))
    by (apply raises_early_never, never_raises_emit).
  assert (Hraise : forall e : exn, raises_early (S := trace) (A := unit) (raise e))
    by (intros e; apply raises_early_unchanged, unchanged_raise).
  unfold time_sleep.
  destruct secs; try apply Hraise;
    destruct (round_away _) as [ns|]; try apply Hraise;
    destruct ((ns <? - 2 ^ 63) || (2 ^ 63 <? ns)); try apply Hraise;
    destruct ((ns <? 0) || (ns =? 2 ^ 63)); try apply Hraise; exact Hemit.
Qed.

End TraceDiscipline.

Ltac early_step :=
  lazymatch goal with
  | |- raises_early (ret _) => apply raises_early_unchanged, unchanged_ret
  | |- raises_early (raise _) => apply raises_early_unchanged, unchanged_raise
  | |- raises_early (value_error _) => apply raises_early_unchanged, unchanged_raise
  | |- raises_early (bind (_ensure_xy _) _) =>
      apply raises_early_after_check; [apply ensure_xy_unchanged|intros; cbv beta]
  | |- raises_early (bind (_maybe_int _ _) _) =>
      apply raises_early_after_check; [apply maybe_int_unchanged|intros; cbv beta]
  | |- raises_early (bind (lift _) _) =>
      apply raises_early_after_check; [apply unchanged_lift|intros; cbv beta]
  | |- raises_early (bind (emit _) _) => apply raises_early_never
  | |- raises_early (bind (time_sleep _) _) =>
      apply raises_early_before_effects; [apply time_sleep_raises_early|intros]
  | |- raises_early (if ?b then _ else _) => destruct b
  | |- raises_early (match ?x with _ => _ end) => destruct x
  end.

Ltac never_step :=
  lazymatch goal with
  | |- never_raises (ret _) => apply never_raises_ret
  | |- never_raises (emit _) => apply never_raises_emit
  | |- never_raises (bind _ _) => apply never_raises_bind; [|intros; cbv beta]
  | |- never_raises (for_each _ _) => apply never_raises_for_each; intros
  end.

Section HandlerDiscipline.

Variable env : environment.
Variable self : ComputerUseTool.

Ltac early := repeat early_step; repeat never_step.

Lemma mouse_move_early d : raises_early (_mouse_move self d).
Proof. unfold _mouse_move. early. Qed.

Lemma left_click_early d : raises_early (_left_click d).
Proof. unfold _left_click. cbv zeta. early. Qed.

Lemma right_click_early d : raises_early (_right_click d).
Proof. unfold _right_click. cbv zeta. early. Qed.

Lemma middle_click_early d : raises_early (_middle_click d).
Proof. unfold _middle_click. cbv zeta. early. Qed.

Lemma double_click_early d : raises_early (_double_click d).
Proof. unfold _double_click. early. Qed.

Lemma triple_click_early d : raises_early (_triple_click d).
Proof. unfold _triple_click. early. Qed.

Lemma left_click_drag_early d : raises_early (_left_click_drag self d).
Proof. unfold _left_click_drag. early. Qed.

Lemma scroll_early d : raises_early (_scroll d).
Proof. unfold _scroll. early. Qed.

Lemma hscroll_early d : raises_early (_hscroll d).
Proof. unfold _hscroll. early. Qed.

Lemma wait_early d : raises_early (_wait d).
Proof. unfold _wait. cbv zeta. early. Qed.

Lemma answer_early d : raises_early (_answer d).
Proof. unfold _answer. cbv zeta. early. Qed.

Lemma terminate_early d : raises_early (_terminate d).
Proof. unfold _terminate. cbv zeta. early. Qed.

Lemma key_early d : raises_early (_key d).
Proof.
  unfold _key. cbv zeta.
  destruct (negb (truthy (por (dict_get d "keys") (PList [])))); [early|].
  unfold reversed.
  destruct (iter (por (dict_get d "keys") (PList []))) as [e|ks]; cbn [lift rbind].
  - intros t e' t' E. now inversion E.
  - apply raises_early_never. repeat never_step.
Qed.

(** [_type] hands the text to the backend before it slices it. *)
Lemma type_raises d t e t' :
  _type d t = Raise e t' ->
  t' = t \/
  (e = TypeError /\ t' = t ++ [PgTypewrite (dict_get d "text") typewrite_interval]).
Proof.
  unfold _type. cbv zeta.
  destruct (dict_get d "text") eqn:Ht;
    try (intros H; inversion H; now left);
    unfold bind, emit, modify, slice_to, lift, ret, raise;
    intros H; inversion H; subst; right; now split.
Qed.

End HandlerDiscipline.

(* ===================================================================== *)
(** * Further properties of the executor *)
(* ===================================================================== *)

Section MoreToolFacts.

Lemma list_index_in_range {A} (l : list A) (i : Z) :
  - Z.of_nat (List.length l) <= i < Z.of_nat (List.length l) ->
  exists a,
    list_index l i = inr a /\
    nth_error l (Z.to_nat (if i <? 0 then i + Z.of_nat (List.length l) else i)) = Some a.
Proof.
  intros Hi. unfold list_index.
  set (n := Z.of_nat (List.length l)) in *.
  set (j := if i <? 0 then i + n else i).
  assert (Hj : 0 <= j < n) by (unfold j; destruct (Z.ltb_spec i 0); lia).
  destruct ((j <? 0) || (n <=? j)) eqn:E.
  - apply orb_true_iff in E as [E|E]; [apply Z.ltb_lt in E|apply Z.leb_le in E]; lia.
  - destruct (nth_error l (Z.to_nat j)) as [a|] eqn:Hn; [now exists a|].
    apply nth_error_None in Hn. unfold n in Hj. lia.
Qed.

Lemma list_index_out_of_range {A} (l : list A) (i : Z) :
  ~ (- Z.of_nat (List.length l) <= i < Z.of_nat (List.length l)) ->
  list_index l i = inl IndexError.
Proof.
  intros Hi. unfold list_index.
  set (n := Z.of_nat (List.length l)) in *.
  set (j := if i <? 0 then i + n else i).
  assert (Hj : j < 0 \/ n <= j) by (unfold j; destruct (Z.ltb_spec i 0); lia).
  destruct ((j <? 0) || (n <=? j)) eqn:E; [reflexivity|].
  apply orb_false_iff in E as [E1 E2].
  apply Z.ltb_ge in E1. apply Z.leb_gt in E2. lia.
Qed.

Lemma ensure_xy_pair {S} (a b : pyval) (x y : Z) (s : S) :
  int a = inr x -> int b = inr y ->
  _ensure_xy (PList [a; b]) s = Ok (x, y) s.
Proof.
  intros Ha Hb. unfold _ensure_xy. cbn [truthy negb len List.length].
  unfold bind, lift, ret. cbn [Z.of_nat Z.eqb Pos.of_succ_nat Pos.succ Pos.eqb negb].
  assert (E0 : getitem_int (PList [a; b]) 0 = inr a) by reflexivity.
  assert (E1 : getitem_int (PList [a; b]) 1 = inr b) by reflexivity.
  rewrite E0, E1, Ha, Hb. reflexivity.
Qed.

Lemma int_of_digit (c : N) :
  is_digit c = true -> int (PStr [c]) = inr (Z.of_N (c - 48)).
Proof.
  unfold is_digit. intros H. apply andb_true_iff in H as [H1 H2].
  apply N.leb_le in H1, H2.
  assert (Hc : (c = 48 \/ c = 49 \/ c = 50 \/ c = 51 \/ c = 52 \/ c = 53 \/
                c = 54 \/ c = 55 \/ c = 56 \/ c = 57)%N) by lia.
  repeat (destruct Hc as [->|Hc]; [reflexivity|]). subst. reflexivity.
Qed.

End MoreToolFacts.

Section MoreExecutor.

Variable env : environment.
Variable self : ComputerUseTool.

(** X1. A request whose action is not one of the fourteen names the tool
    announces (an unknown word, a number, [null], a boolean) is refused
    with [ValueError("Unsupported action: ...")], before anything is sent
    to the backend. *)
Theorem unsupported_action_rejected (d : dict) (action : pyval) (t : trace) :
  dict_lookup d "action" = Some action ->
  hashable action = true ->
  (forall name, action = PStr name -> ~ In name TOOL_SPEC_ACTIONS) ->
  call env self (PDict d) t =
    Raise (ValueError (Some (PFString [inl ("Unsupported action: " : str);
                                       inr action]))) t.
Proof.
  intros Ha Hh Hname.
  destruct action as [| | | |name| | |]; try discriminate;
    try (unfold call, action_of; rewrite Ha; reflexivity).
  apply call_unsupported_action; [exact Ha|].
  destruct (table_get (handlers self) name) eqn:E; [|reflexivity].
  exfalso. apply (Hname name eq_refl).
  apply (announced_actions_have_handlers self). now rewrite E.
Qed.

(** X2. A request that names no action is not answered with the
    validation error: arguments that are not a JSON object raise
    [TypeError], an object without an "action" key raises [KeyError], and
    an action that is a list or an object raises [TypeError]; in each case
    nothing is sent to the backend. *)
Theorem request_without_action_rejected (params : pyval) (t : trace) :
  ((forall d, params <> PDict d) -> call env self params t = Raise TypeError t) /\
  (forall d, params = PDict d -> dict_lookup d "action" = None ->
     call env self params t = Raise KeyError t) /\
  (forall d action, params = PDict d -> dict_lookup d "action" = Some action ->
     hashable action = false ->
     call env self params t = Raise TypeError t).
Proof.
  split; [|split].
  - intros Hn. destruct params; try reflexivity. now destruct (Hn d).
  - intros d -> Ha. unfold call, action_of. now rewrite Ha.
  - intros d action -> Ha Hh. unfold call, action_of. rewrite Ha.
    destruct action; try discriminate; reflexivity.
Qed.

(** X3. The action names announced to the model in
    [COMPUTER_USE_TOOL_SPEC] are exactly the names [call] has a handler
    for. *)
Theorem announced_actions_are_dispatched (name : str) :
  In name TOOL_SPEC_ACTIONS <-> exists h, table_get (handlers self) name = Some h.
Proof.
  rewrite (announced_actions_have_handlers self name).
  destruct (table_get (handlers self) name) as [h|].
  - split; [intros _; now exists h|discriminate].
  - split; [intros H; now destruct H|intros [h H]; discriminate].
Qed.

(** X4. Validation comes before effect: when a handler raises, nothing
    has been sent to the backend. The one exception is [type], which hands
    its text to the typing primitive before it slices it for the detail:
    a text that cannot be sliced raises [TypeError] after that call. *)
Theorem rejected_request_does_nothing
    (name : str) (h : dict -> T dict) (d : dict) (t : trace) (e : exn) (t' : trace) :
  table_get (handlers self) name = Some h ->
  h d t = Raise e t' ->
  t' = t \/
  (name = "type" /\ e = TypeError /\
   t' = t ++ [PgTypewrite (dict_get d "text") typewrite_interval]).
Proof.
  intros Hh. revert t e t'.
  apply (table_get_Forall
           (fun name h => forall t e t', h d t = Raise e t' ->
              t' = t \/
              (name = "type" /\ e = TypeError /\
               t' = t ++ [PgTypewrite (dict_get d "text") typewrite_interval])))
    with (table := handlers self); [| |exact Hh].
  - unfold handlers.
    repeat (apply Forall_cons; [cbn [fst snd]|]); [ .. | apply Forall_nil ].
    all: intros t e t' H.
    all: try (left; revert H;
              first [ apply mouse_move_early | apply left_click_early
                    | apply right_click_early | apply middle_click_early
                    | apply double_click_early | apply triple_click_early
                    | apply left_click_drag_early | apply scroll_early
                    | apply hscroll_early | apply key_early | apply wait_early
                    | apply answer_early | apply terminate_early ]).
    apply type_raises in H as [H|[He Ht]]; [now left|right]. now repeat split.
  - intros k1 k2 a E H. apply str_eqb_eq in E. now subst.
Qed.

(** X5. [answer] always succeeds and touches nothing: whatever the
    request holds, [call] returns the status "answer" with the text of the
    request, or the empty string when the text is absent or tests false,
    and the trace is as before. *)
Theorem answer_always_succeeds (d : dict) (t : trace) :
  dict_lookup d "action" = Some (PStr "answer") ->
  call env self (PDict d) t =
    Ok {| payload := [("status" : str, PStr "answer"); ("text" : str, answer_text d)] |} t.
Proof.
  intros Ha.
  now rewrite (call_known_action env self d "answer" _answer t Ha eq_refl).
Qed.

(** X6. [terminate] accepts exactly the two verdicts: with the status
    "success" or "failure" [call] returns the status "terminate" and that
    verdict; with any other status, or none, it raises the validation
    error ([TypeError] for a list or an object). Either way the trace is
    as before. *)
Theorem terminate_accepts_two_verdicts (d : dict) (t : trace) :
  dict_lookup d "action" = Some (PStr "terminate") ->
  (dict_get d "status" = PStr "success" \/ dict_get d "status" = PStr "failure" ->
   call env self (PDict d) t =
     Ok {| payload := [("status" : str, PStr "terminate");
                       ("result" : str, dict_get d "status")] |} t) /\
  (dict_get d "status" <> PStr "success" ->
   dict_get d "status" <> PStr "failure" ->
   call env self (PDict d) t =
     Raise (if hashable (dict_get d "status") then status_required else TypeError) t).
Proof.
  intros Ha.
  rewrite (call_known_action env self d "terminate" _terminate t Ha eq_refl).
  unfold _terminate. cbv zeta. split.
  - intros [E|E]; rewrite E; reflexivity.
  - intros H1 H2.
    destruct (dict_get d "status") as [| | | |verdict| | |]; try reflexivity.
    assert (E1 : str_eqb verdict "success" = false)
      by (apply str_eqb_neq; intros ->; now apply H1).
    assert (E2 : str_eqb verdict "failure" = false)
      by (apply str_eqb_neq; intros ->; now apply H2).
    unfold bind, in_str_set. cbn [hashable lift ret existsb eq_str].
    now rewrite E1, E2.
Qed.

(** X7. Every result [call] returns has one of three statuses, "ok",
    "answer" or "terminate", and a "terminate" result always carries
    "success" or "failure" as its verdict. *)
Theorem result_status_is_one_of_three
    (params : pyval) (t : trace) (r : ToolResult) (t' : trace) :
  call env self params t = Ok r t' ->
  dict_get (payload r) "status" = PStr "ok" \/
  dict_get (payload r) "status" = PStr "answer" \/
  (dict_get (payload r) "status" = PStr "terminate" /\
   (dict_get (payload r) "result" = PStr "success" \/
    dict_get (payload r) "result" = PStr "failure")).
Proof. apply call_status. Qed.

(** X8. The screenshot is taken of [sct.monitors[monitor_index]] with
    Python's indexing: with n monitors listed, every index from -n to n-1
    selects one (negative ones count from the end, 0 is the first entry)
    and the capture succeeds; any other index raises [IndexError] before
    anything is grabbed or saved. *)
Theorem screenshot_needs_listed_monitor (result : dict) (t : trace) :
  let n := Z.of_nat (List.length (monitors env)) in
  let i := monitor_index self in
  (- n <= i < n ->
   exists p' m file,
     nth_error (monitors env) (Z.to_nat (if i <? 0 then i + n else i)) = Some m /\
     _attach_screenshot env self result t = Ok p' (t ++ [SctGrab m; ImgSave file])) /\
  (~ (- n <= i < n) ->
   _attach_screenshot env self result t = Raise IndexError t).
Proof.
  cbv zeta. split.
  - intros Hi. apply list_index_in_range in Hi as (m & Hm & Hn).
    destruct (attach_screenshot_Ok env self result t m Hm) as [file Hf].
    eexists; exists m, file. split; [exact Hn|exact Hf].
  - intros Hi. apply list_index_out_of_range in Hi.
    unfold _attach_screenshot. now rewrite Hi.
Qed.

(** X9. Attaching the screenshot keeps the result of the handler: every
    field other than the four it writes is as the handler returned it.
    The path it reports is the path it saved the image to, a file named
    by the timestamp under the screenshot directory; the display it
    reports is the geometry of the monitor it grabbed. *)
Theorem screenshot_keeps_the_result
    (result : dict) (t : trace) (p' : dict) (t' : trace) :
  _attach_screenshot env self result t = Ok p' t' ->
  (forall k, ~ In k screenshot_keys -> dict_lookup p' k = dict_lookup result k) /\
  exists m file,
    list_index (monitors env) (monitor_index self) = inr m /\
    file = path_join (screenshot_dir self)
             (strftime env (t ++ [SctGrab m]) ++ (".png" : str)) /\
    t' = t ++ [SctGrab m; ImgSave file] /\
    dict_lookup p' "screenshot_path" = Some (PStr (path_str file)) /\
    dict_lookup p' "screenshot" =
      Some (PStr (("data:image/png;base64," : str) ++ png_base64 env t')) /\
    dict_lookup p' "cursor" =
      Some (PDict [("x" : str, PInt (fst (position env t')));
                   ("y" : str, PInt (snd (position env t')))]) /\
    dict_lookup p' "display" =
      Some (PDict [("width" : str, PInt (mon_width m));
                   ("height" : str, PInt (mon_height m))]).
Proof.
  unfold _attach_screenshot.
  destruct (list_index (monitors env) (monitor_index self)) as [e|m] eqn:Hm;
    [discriminate|].
  unfold bind, lift, ret, emit, modify, _now_ts, gets.
  rewrite <- !app_assoc. cbn [app].
  intros H. injection H as <- <-.
  unfold dict_update. cbn [fold_left fst snd].
  split.
  - intros k Hk. unfold screenshot_keys in Hk. cbn [In] in Hk.
    rewrite !dict_lookup_set_other; [reflexivity| | | |]; intros E; apply Hk; auto.
  - exists m; eexists. split; [reflexivity|]. split; [reflexivity|]. split; [reflexivity|].
    split; [|split; [|split]].
    + rewrite !dict_lookup_set_other by discriminate. apply dict_lookup_set_same.
    + rewrite !dict_lookup_set_other by discriminate. apply dict_lookup_set_same.
    + rewrite !dict_lookup_set_other by discriminate. apply dict_lookup_set_same.
    + apply dict_lookup_set_same.
Qed.

(** X10. With a monitor index outside the list, an input action is
    performed and then lost: the handler has issued its events when the
    capture raises [IndexError], and [call] returns no result. *)
Theorem input_action_without_monitor_acts_then_fails
    (d : dict) (name : str) (h : dict -> T dict) (t : trace) (p : dict) (t1 : trace) :
  dict_lookup d "action" = Some (PStr name) ->
  table_get (handlers self) name = Some h ->
  name <> "answer" -> name <> "terminate" ->
  h d t = Ok p t1 ->
  ~ (- Z.of_nat (List.length (monitors env)) <= monitor_index self
       < Z.of_nat (List.length (monitors env))) ->
  call env self (PDict d) t = Raise IndexError t1.
Proof.
  intros Ha Hh H1 H2 Hp Hi.
  rewrite (call_known_action env self d name h t Ha Hh).
  erewrite bind_Ok by exact Hp.
  cbn [existsb eq_str]. apply str_eqb_neq in H1, H2. rewrite H1, H2. cbn [orb].
  apply bind_Raise. apply list_index_out_of_range in Hi.
  unfold _attach_screenshot. now rewrite Hi.
Qed.

(** X11. A click with a coordinate list that is neither empty nor of
    length two is rejected with the validation error and clicks nothing
    (only the empty list counts as no coordinate). *)
Theorem click_with_malformed_coordinate_rejected
    (d : dict) (l : list pyval) (t : trace) :
  dict_lookup d "coordinate" = Some (PList l) ->
  l <> [] ->
  List.length l <> 2%nat ->
  _left_click d t = Raise coordinate_error t /\
  _right_click d t = Raise coordinate_error t /\
  _middle_click d t = Raise coordinate_error t.
Proof.
  intros Hc Hne Hlen.
  unfold _left_click, _right_click, _middle_click.
  rewrite (dict_get_present d _ _ Hc).
  destruct l as [|a l]; [contradiction|]. cbn [truthy].
  repeat split; apply bind_Raise; now apply ensure_xy_list_length.
Qed.

(** X12. Every pointer action given a coordinate of two items that
    convert to integers acts at exactly that point: the move, the click
    with its button, the double and triple click, and the drag as a
    press, a drag to the point and a release. *)
Theorem pointer_actions_act_at_the_coordinate
    (d : dict) (a b : pyval) (x y : Z) (t : trace) :
  dict_lookup d "coordinate" = Some (PList [a; b]) ->
  int a = inr x ->
  int b = inr y ->
  _mouse_move self d t =
    Ok (ok (at_xy "Moved to (" x y)) (t ++ [PgMoveTo x y (mouse_move_duration self)]) /\
  _left_click d t =
    Ok (ok (at_xy "Left click at (" x y)) (t ++ [PgClick (Some (x, y)) "left"]) /\
  _right_click d t =
    Ok (ok (at_xy "Right click at (" x y)) (t ++ [PgClick (Some (x, y)) "right"]) /\
  _middle_click d t =
    Ok (ok (at_xy "Middle click at (" x y)) (t ++ [PgClick (Some (x, y)) "middle"]) /\
  _double_click d t =
    Ok (ok (at_xy "Double click at (" x y)) (t ++ [PgDoubleClick x y]) /\
  _triple_click d t =
    Ok (ok (at_xy "Triple click at (" x y)) (t ++ [PgTripleClick x y]) /\
  _left_click_drag self d t =
    Ok (ok (at_xy "Drag to (" x y))
       (t ++ [PgMouseDown; PgDragTo x y (drag_duration self) "left"; PgMouseUp]).
Proof.
  intros Hc Ha Hb.
  pose proof (ensure_xy_pair a b x y t Ha Hb) as Hxy.
  unfold _mouse_move, _left_click, _right_click, _middle_click,
    _double_click, _triple_click, _left_click_drag.
  rewrite (dict_get_present d _ _ Hc). cbn [truthy].
  repeat split; erewrite bind_Ok by exact Hxy;
    unfold bind, emit, modify, ret; rewrite <- ?app_assoc; reflexivity.
Qed.

(** X13. [_ensure_xy] checks truth value and length only, so a malformed
    coordinate is not always answered with the validation error: a text
    of two digits is accepted as the point of its two digits, an object
    with two entries raises [KeyError], and a non-zero number or [true]
    raises [TypeError]. *)
Theorem malformed_coordinate_kinds {S : Type} (s : S) :
  (forall c0 c1 : N,
     is_digit c0 = true -> is_digit c1 = true ->
     _ensure_xy (PStr [c0; c1]) s = Ok (Z.of_N (c0 - 48), Z.of_N (c1 - 48)) s) /\
  (forall kv1 kv2 : str * pyval,
     _ensure_xy (PDict [kv1; kv2]) s = Raise KeyError s) /\
  (forall n : Z, n <> 0%Z -> _ensure_xy (PInt n) s = Raise TypeError s) /\
  _ensure_xy (PBool true) s = Raise TypeError s.
Proof.
  split; [|split; [|split]].
  - intros c0 c1 H0 H1. unfold _ensure_xy. cbn [truthy negb len List.length].
    unfold bind, lift, ret.
    cbn [Z.of_nat Z.eqb Pos.of_succ_nat Pos.succ Pos.eqb negb].
    assert (E0 : getitem_int (PStr [c0; c1]) 0 = inr (PStr [c0])) by reflexivity.
    assert (E1 : getitem_int (PStr [c0; c1]) 1 = inr (PStr [c1])) by reflexivity.
    rewrite E0, E1, (int_of_digit c0 H0), (int_of_digit c1 H1). reflexivity.
  - intros kv1 kv2. reflexivity.
  - intros n Hn. unfold _ensure_xy. cbn [truthy].
    apply Z.eqb_neq in Hn. now rewrite Hn.
  - reflexivity.
Qed.

(** X14. The scroll amount is optional: with no [pixels] in the request,
    or [null], both scroll actions scroll by 0 and return status "ok"; an
    integer amount is passed on unchanged. *)
Theorem scroll_amount_defaults_to_zero (d : dict) (t : trace) :
  let amount (n : Z) (way : string) : pyval :=
    PFString [inl ("Scroll " : str); inr (PInt n); inl (way : str)] in
  (dict_get d "pixels" = PNone ->
   _scroll d t = Ok (ok (amount 0%Z " vertically.")) (t ++ [PgScroll 0]) /\
   _hscroll d t = Ok (ok (amount 0%Z " horizontally.")) (t ++ [PgHscroll 0])) /\
  (forall n : Z,
     dict_get d "pixels" = PInt n ->
     _scroll d t = Ok (ok (amount n " vertically.")) (t ++ [PgScroll n]) /\
     _hscroll d t = Ok (ok (amount n " horizontally.")) (t ++ [PgHscroll n])).
Proof.
  cbv zeta. unfold _scroll, _hscroll. split.
  - intros ->. now split.
  - intros n ->. now split.
Qed.

(** X15. [_key] presses whatever iterating [keys] yields: a text given
    in place of a list is pressed character by character, as a chord. A
    value that tests false (absent, [null], the empty text, 0, [false])
    raises the validation error, and a non-zero number raises
    [TypeError]; in both cases nothing is pressed. *)
Theorem key_iterates_whatever_it_is_given (d : dict) (t : trace) :
  (truthy (dict_get d "keys") = false -> _key d t = Raise keys_error t) /\
  (forall s : str,
     s <> [] ->
     dict_get d "keys" = PStr s ->
     _key d t =
       Ok (ok (pressed_detail (PStr s)))
          (t ++ map (fun c => PgKeyDown (PStr [c])) s
             ++ map (fun c => PgKeyUp (PStr [c])) (rev s))) /\
  (forall n : Z,
     n <> 0%Z ->
     dict_get d "keys" = PInt n ->
     _key d t = Raise TypeError t).
Proof.
  split; [|split].
  - intros Hf. unfold _key, por. now rewrite Hf.
  - intros s Hne Hk. destruct s as [|c s]; [contradiction|].
    unfold _key. rewrite Hk.
    cbn [por truthy negb iter reversed rbind].
    unfold bind at 1. cbn [lift ret].
    unfold bind at 1. rewrite for_each_emit.
    unfold bind at 1. cbn [lift ret].
    unfold bind at 1. rewrite for_each_emit.
    unfold ret. rewrite <- app_assoc, !map_map, <- map_rev, map_map.
    reflexivity.
  - intros n Hn Hk. unfold _key, por. rewrite Hk.
    apply Z.eqb_neq in Hn. cbn [truthy]. rewrite Hn. cbn [negb truthy].
    rewrite Hn. reflexivity.
Qed.

(** X16. [_type] types the whole text but reports at most its first
    fifty characters: the text handed to the typing primitive is the text
    of the request, the detail quotes its prefix of length 50, which is
    the text itself when that is no longer. *)
Theorem type_reports_first_fifty_characters (d : dict) (s : str) (t : trace) :
  dict_lookup d "text" = Some (PStr s) ->
  _type d t =
    Ok (ok (typed_detail (PStr (firstn 50 s))))
       (t ++ [PgTypewrite (PStr s) typewrite_interval]) /\
  (List.length (firstn 50 s) <= 50)%nat /\
  ((List.length s <= 50)%nat -> firstn 50 s = s).
Proof.
  intros Hx. split; [|split].
  - unfold _type. now rewrite (dict_get_present d _ _ Hx).
  - apply firstn_le_length.
  - apply firstn_all2.
Qed.

End MoreExecutor.

(* ===================================================================== *)
(** * Further properties of the conversation loop *)
(* ===================================================================== *)

Section HistoryFacts.

Lemma replies_app (l l' : list message) :
  replies (l ++ l') = (replies l + replies l')%nat.
Proof. unfold replies. now rewrite filter_app, length_app. Qed.

Lemma replies_tool_messages (calls : list tool_call) (new : list message) :
  Forall2 answers calls new -> replies new = 0%nat.
Proof.
  induction 1 as [|tc m calls new [_ [p ->]] _ IH]; [reflexivity|exact IH].
Qed.

Lemma with_events_same (s : state) : with_events s (events s) = s.
Proof. now destruct s. Qed.

End HistoryFacts.

Section MoreLoop.

Variable env : environment.
Variable create : str -> list message -> float -> result chat_message.
Variable self : ComputerUseAgent.

Lemma run_loop_api_error (n : nat) (s : state) (e : exn) :
  create (model self) (messages s) (temperature self) = inl e ->
  run_loop env create self (S n) s = Raise e s.
Proof.
  intros Hc. cbn [run_loop]. unfold bind at 1, gets at 1. now rewrite Hc.
Qed.

Lemma run_loop_text_reply (n : nat) (s : state) (reply : chat_message) :
  create (model self) (messages s) (temperature self) = inr reply ->
  tool_calls_or_empty reply = [] ->
  run_loop env create self (S n) s =
    if stdout_accepts env (reply_line reply)
    then Ok NoToolCalls (text_reply s reply)
    else Raise UnicodeEncodeError (replied s reply).
Proof.
  intros Hc Hcalls. cbn [run_loop].
  unfold bind at 1, gets at 1. rewrite Hc.
  unfold bind at 1, lift at 1, ret at 1.
  unfold bind at 1, append at 1, modify at 1.
  rewrite Hcalls. unfold bind at 1, print, reply_line.
  destruct (stdout_accepts env _); reflexivity.
Qed.

(** The verdict is [None] or one of the two words, before and after every
    completed call. *)
Lemma dispatch_verdict (tc : tool_call) (s s' : state) :
  dispatch env self tc s = Ok tt s' ->
  terminated s = PNone \/ terminated s = PStr "success" \/ terminated s = PStr "failure" ->
  terminated s' = PNone \/ terminated s' = PStr "success" \/ terminated s' = PStr "failure".
Proof.
  intros H Hs.
  apply dispatch_Ok_inv in H as (args & r & t' & _ & Hcall & _ & _ & Ht).
  rewrite Ht. destruct (is_terminate (payload r)) eqn:E; [|exact Hs].
  apply call_status in Hcall as [Hst|[Hst|[_ Hr]]].
  - unfold is_terminate in E. rewrite Hst in E. discriminate.
  - unfold is_terminate in E. rewrite Hst in E. discriminate.
  - now right.
Qed.

Lemma round_verdict (calls : list tool_call) (s s' : state) :
  for_each calls (dispatch env self) s = Ok tt s' ->
  terminated s = PNone \/ terminated s = PStr "success" \/ terminated s = PStr "failure" ->
  terminated s' = PNone \/ terminated s' = PStr "success" \/ terminated s' = PStr "failure".
Proof.
  revert s. induction calls as [|tc calls IH]; intros s H Hs.
  - inversion H; now subst.
  - cbn [for_each] in H. apply bind_Ok_inv in H as ([] & s1 & Hd & H).
    apply (IH s1 H). exact (dispatch_verdict tc s s1 Hd Hs).
Qed.

Lemma run_loop_verdict (n : nat) (s : state) (x : exit) (s' : state) :
  terminated s = PNone ->
  run_loop env create self n s = Ok x s' ->
  (x = Terminated ->
   terminated s' = PStr "success" \/ terminated s' = PStr "failure") /\
  (x <> Terminated -> terminated s' = PNone).
Proof.
  revert s. induction n as [|n IH]; intros s Hs H.
  - inversion H; subst. split; [discriminate|now intros _].
  - destruct (create (model self) (messages s) (temperature self))
      as [e|reply] eqn:Hc.
    + rewrite (run_loop_api_error n s e Hc) in H. discriminate.
    + destruct (tool_calls_or_empty reply) as [|tc calls] eqn:Hcalls.
      * rewrite (run_loop_text_reply n s reply Hc Hcalls) in H.
        destruct (stdout_accepts env (reply_line reply)); [|discriminate].
        inversion H; subst. split; [discriminate|now intros _].
      * rewrite (run_loop_round env create self n s reply tc calls Hc Hcalls) in H.
        destruct (for_each (tc :: calls) (dispatch env self) (replied s reply))
          as [[] s1|e s1] eqn:Hround; [|discriminate].
        assert (Hv : terminated s1 = PNone \/ terminated s1 = PStr "success" \/
                     terminated s1 = PStr "failure").
        { apply (round_verdict _ _ _ Hround). left. exact Hs. }
        destruct (truthy (terminated s1)) eqn:Ht.
        -- inversion H; subst. split; [|now intros E].
           intros _. destruct Hv as [Hv|Hv]; [|exact Hv].
           rewrite Hv in Ht. discriminate.
        -- apply (IH s1); [|exact H].
           destruct Hv as [Hv|[Hv|Hv]]; [exact Hv| |]; rewrite Hv in Ht; discriminate.
Qed.

(** X17. Whatever way a run ends, the history only grows, and what it
    gains is a sequence of rounds: each round is the reply of the model as
    received, followed by one tool message per dispatched call, in call
    order. When the run returns, every call of every reply has its tool
    message; only a run that raised can leave a last reply with calls
    unanswered. *)
Theorem history_is_a_sequence_of_rounds (n : nat) (s : state) :
  exists new,
    messages (state_of (run_loop env create self n s)) = messages s ++ new /\
    rounds new /\
    (forall x s', run_loop env create self n s = Ok x s' -> full_rounds new).
Proof.
  revert s. induction n as [|n IH]; intros s.
  - exists []. cbn. rewrite app_nil_r. repeat split; constructor.
  - destruct (create (model self) (messages s) (temperature self))
      as [e|reply] eqn:Hc.
    + rewrite (run_loop_api_error n s e Hc). exists []. cbn.
      rewrite app_nil_r. repeat split; [constructor|discriminate].
    + destruct (tool_calls_or_empty reply) as [|tc calls] eqn:Hcalls.
      * rewrite (run_loop_text_reply n s reply Hc Hcalls).
        exists [Assistant reply].
        split; [now destruct (stdout_accepts env (reply_line reply))|]. split.
        -- apply (rounds_last reply [] [] []); [exact Hcalls|constructor].
        -- intros _ _ _.
           apply (full_rounds_cons reply [] []); [rewrite Hcalls|]; constructor.
      * rewrite (run_loop_round env create self n s reply tc calls Hc Hcalls).
        destruct (for_each (tc :: calls) (dispatch env self) (replied s reply))
          as [[] s1|e s1] eqn:Hround.
        -- apply round_Ok in Hround as (new & Hnew & Hall & _ & _).
           assert (Hm : messages s1 = messages s ++ Assistant reply :: new).
           { rewrite Hnew. unfold replied. cbn [messages with_messages].
             now rewrite <- app_assoc. }
           rewrite <- Hcalls in Hall.
           destruct (truthy (terminated s1)).
           ++ exists (Assistant reply :: new ++ []). cbn [state_of].
              rewrite app_nil_r. split; [exact Hm|]. rewrite <- (app_nil_r new).
              split; [|intros _ _ _]; constructor; (exact Hall || constructor).
           ++ destruct (IH s1) as (more & Hmore & Hr & Hf).
              exists (Assistant reply :: new ++ more).
              split; [|split].
              ** rewrite Hmore, Hm, <- app_assoc. reflexivity.
              ** now constructor.
              ** intros x s' H. constructor; [exact Hall|]. exact (Hf x s' H).
        -- apply round_Raise in Hround as (done & tc' & rest & new & Hsplit & Hnew & Hall).
           exists (Assistant reply :: new). cbn [state_of]. split; [|split].
           ++ rewrite Hnew. unfold replied. cbn [messages with_messages].
              now rewrite <- app_assoc.
           ++ apply (rounds_last reply done (tc' :: rest) new); [|exact Hall].
              now rewrite Hcalls.
           ++ discriminate.
Qed.

Lemma run_loop_replies (n : nat) (s : state) :
  (replies (messages (state_of (run_loop env create self n s)))
   <= replies (messages s) + n)%nat /\
  (forall s', run_loop env create self n s = Ok TurnLimit s' ->
     replies (messages s') = (replies (messages s) + n)%nat).
Proof.
  revert s. induction n as [|n IH]; intros s.
  - cbn. split; [lia|]. intros s' H. inversion H; subst. lia.
  - destruct (create (model self) (messages s) (temperature self))
      as [e|reply] eqn:Hc.
    + rewrite (run_loop_api_error n s e Hc). cbn [state_of].
      split; [lia|discriminate].
    + destruct (tool_calls_or_empty reply) as [|tc calls] eqn:Hcalls.
      * rewrite (run_loop_text_reply n s reply Hc Hcalls).
        destruct (stdout_accepts env (reply_line reply));
          cbn [state_of text_reply replied with_messages messages];
          rewrite replies_app; (split; [cbn; lia|discriminate]).
      * rewrite (run_loop_round env create self n s reply tc calls Hc Hcalls).
        destruct (for_each (tc :: calls) (dispatch env self) (replied s reply))
          as [[] s1|e s1] eqn:Hround.
        -- apply round_Ok in Hround as (new & Hnew & Hall & _ & _).
           assert (Hm : replies (messages s1) = (replies (messages s) + 1)%nat).
           { rewrite Hnew. unfold replied. cbn [messages with_messages].
             rewrite !replies_app, (replies_tool_messages _ _ Hall). cbn. lia. }
           destruct (truthy (terminated s1)).
           ++ cbn [state_of]. split; [lia|discriminate].
           ++ destruct (IH s1) as [Hle Heq]. split; [lia|].
              intros s' H. rewrite (Heq s' H). lia.
        -- apply round_Raise in Hround as (done & tc' & rest & new & _ & Hnew & Hall).
           cbn [state_of]. split; [|discriminate].
           rewrite Hnew. unfold replied. cbn [messages with_messages].
           rewrite !replies_app, (replies_tool_messages _ _ Hall). cbn. lia.
Qed.

(** X21. Within a round the last result of a kind wins: after a
    completed round the verdict is that of the last terminate result
    among its tool messages, and the final answer the text of the last
    answer result; with no such result they are as before the round. *)
Theorem last_verdict_and_answer_win (calls : list tool_call) (s s' : state) :
  for_each calls (dispatch env self) s = Ok tt s' ->
  exists new,
    messages s' = messages s ++ new /\
    terminated s' = verdict_after new (terminated s) /\
    final_answer s' = answer_after new (final_answer s).
Proof.
  revert s. induction calls as [|tc calls IH]; intros s H.
  - inversion H; subst. exists []. rewrite app_nil_r. now repeat split.
  - cbn [for_each] in H. apply bind_Ok_inv in H as ([] & s1 & Hd & H).
    apply dispatch_Ok_inv in Hd as (args & r & t' & _ & _ & Hm & Ha & Ht).
    apply IH in H as (new & Hnew & Hv & Hf).
    exists (ToolMessage (id tc) (function_name tc) (payload r) :: new).
    split; [|split].
    + rewrite Hnew, Hm, <- app_assoc. reflexivity.
    + rewrite Hv, Ht. reflexivity.
    + rewrite Hf, Ha. reflexivity.
Qed.

(** X18. The model is asked once per turn and never twice in a turn: a
    run holds at most [max_turns] replies in its history, and exactly
    [max_turns] when it ends by running out of turns. With [max_turns]
    zero or negative the run returns at once, with the model never asked
    and nothing changed. *)
Theorem turn_limit_bounds_the_replies :
  (replies (messages (state_of (run env create self (init self))))
   <= Z.to_nat (max_turns self))%nat /\
  (forall s', run env create self (init self) = Ok TurnLimit s' ->
     replies (messages s') = Z.to_nat (max_turns self)) /\
  (max_turns self <= 0 ->
   run env create self (init self) = Ok TurnLimit (init self)).
Proof.
  unfold run. split; [|split].
  - exact (proj1 (run_loop_replies (Z.to_nat (max_turns self)) (init self))).
  - intros s' H.
    exact (proj2 (run_loop_replies (Z.to_nat (max_turns self)) (init self)) s' H).
  - intros Hn. destruct (max_turns self); try lia; reflexivity.
Qed.

(** X19. A reply without tool calls ([tool_calls] is [None] or the empty
    list) ends the run at once, one way or the other. Its text, or the
    empty string when it has none, is printed first: when the standard
    output can encode it, the text then replaces whatever final answer an
    earlier [answer] call recorded and the run returns, the verdict left
    as it was; when it cannot, [print] raises [UnicodeEncodeError] and the
    run ends with the reply appended and the final answer as before. *)
Theorem reply_without_tool_calls_ends_run
    (n : nat) (s : state) (reply : chat_message) :
  create (model self) (messages s) (temperature self) = inr reply ->
  tool_calls reply = None \/ tool_calls reply = Some [] ->
  (stdout_accepts env (reply_line reply) = true ->
   run_loop env create self (S n) s = Ok NoToolCalls (text_reply s reply)) /\
  (stdout_accepts env (reply_line reply) = false ->
   run_loop env create self (S n) s = Raise UnicodeEncodeError (replied s reply)).
Proof.
  intros Hc Hcalls.
  assert (He : tool_calls_or_empty reply = [])
    by (unfold tool_calls_or_empty; now destruct Hcalls as [-> | ->]).
  rewrite (run_loop_text_reply n s reply Hc He).
  split; intros ->; reflexivity.
Qed.

(** X20. A run that returns has recorded a verdict exactly when it was
    ended by a terminate result, and the verdict is then "success" or
    "failure"; a run ended by a reply without tool calls or by the turn
    limit leaves [terminated] at [None]. *)
Theorem verdict_recorded_iff_terminated (x : exit) (s' : state) :
  run env create self (init self) = Ok x s' ->
  (x = Terminated ->
   terminated s' = PStr "success" \/ terminated s' = PStr "failure") /\
  (x <> Terminated -> terminated s' = PNone).
Proof.
  apply (run_loop_verdict (Z.to_nat (max_turns self)) (init self) x s').
  reflexivity.
Qed.

(** X22. A tool call without a usable request raises and changes
    nothing: with no arguments, or the empty text, the request is the
    empty object and [call] raises [KeyError] for the missing action;
    with arguments that are valid JSON but not an object it raises
    [TypeError]. *)
Theorem tool_call_without_request_raises (tc : tool_call) (s : state) :
  (function_arguments tc = None \/ function_arguments tc = Some [] ->
   dispatch env self tc s = Raise KeyError s) /\
  (forall v,
     Json.loads (arguments_or_empty (function_arguments tc)) = inr v ->
     (forall d, v <> PDict d) ->
     dispatch env self tc s = Raise TypeError s).
Proof.
  split.
  - intros H.
    assert (E : Json.loads (arguments_or_empty (function_arguments tc)) = inr (PDict [])).
    { destruct H as [-> | ->]; reflexivity. }
    unfold dispatch. rewrite E.
    unfold bind at 1, lift at 1, ret at 1.
    apply bind_Raise. unfold on_trace. cbn. now rewrite with_events_same.
  - intros v E Hv. unfold dispatch. rewrite E.
    unfold bind at 1, lift at 1, ret at 1.
    apply bind_Raise. unfold on_trace.
    destruct v; try (cbn; now rewrite with_events_same).
    now destruct (Hv d).
Qed.

End MoreLoop.

(* ===================================================================== *)
(** * Start-up and the closing report *)
(* ===================================================================== *)

Section StartupFacts.

Lemma in_environ_false (h : host) (k : str) :
  in_environ h k = false -> forall v, ~ In (k, v) (environ h).
Proof.
  unfold in_environ. intros H v Hin.
  assert (E : existsb (fun kv => str_eqb (fst kv) k) (environ h) = true).
  { apply existsb_exists. exists (k, v). split; [exact Hin|]. apply str_eqb_refl. }
  rewrite E in H. discriminate.
Qed.

Lemma in_environ_true (h : host) (k v : str) :
  In (k, v) (environ h) -> in_environ h k = true.
Proof.
  intros Hin. unfold in_environ. apply existsb_exists.
  exists (k, v). split; [exact Hin|]. apply str_eqb_refl.
Qed.

Lemma report_spec (env : environment) (s : state) :
  report env s =
    if accepted env (report_lines s)
    then Ok tt (with_events s (events s ++ report_lines s))
    else Raise UnicodeEncodeError
           (if truthy (final_answer s) &&
               stdout_accepts env
                 (PFString [inl ("[Final Answer] " : str); inr (final_answer s)])
            then with_events s
                   (events s ++
                    [Print (PFString [inl ("[Final Answer] " : str);
                                      inr (final_answer s)])])
            else s).
Proof.
  destruct s as [ms fa tm ev].
  cbv [report report_lines accepted bind gets print on_trace emit modify ret raise
       with_events events messages final_answer terminated].
  destruct (truthy fa) eqn:Efa; destruct (truthy tm) eqn:Etm;
    cbn [app forallb andb];
    repeat (lazymatch goal with
            | |- context [stdout_accepts ?v ?line] =>
                destruct (stdout_accepts v line)
            end;
            cbn [app forallb andb messages final_answer terminated events];
            rewrite ?Efa, ?Etm);
    rewrite <- ?app_assoc, ?app_nil_r; reflexivity.
Qed.

End StartupFacts.

Section MoreStartup.

Variable env : environment.
Variable OpenAI :
  str -> str -> float -> str -> list message -> float -> result chat_message.
Variable h : host.

(** X23. The display is checked on the first load only. [_get_pyautogui]
    raises only when nothing is cached, on a platform whose name starts
    with "linux", with no DISPLAY entry in the environment (an entry with
    any value, even the empty text, passes), and then caches nothing. The
    module it returns is cached with FAILSAFE switched off, and every
    later call returns that module without looking at the host again. *)
Theorem display_checked_on_first_load_only
    (global : option pyautogui) (r : startup_exn + pyautogui)
    (global' : option pyautogui) :
  _get_pyautogui h global = (r, global') ->
  match r with
  | inl e =>
      e = RuntimeError DISPLAY_MESSAGE /\
      global = None /\ global' = None /\
      startswith (platform h) "linux" = true /\
      (forall v, ~ In ("DISPLAY" : str, v) (environ h))
  | inr pg =>
      global' = Some pg /\
      (global = None -> FAILSAFE pg = false) /\
      (forall h', _get_pyautogui h' global' = (inr pg, global'))
  end.
Proof.
  unfold _get_pyautogui, _ensure_display.
  destruct global as [pg|].
  - intros H. inversion H; subst. repeat split. discriminate.
  - destruct (startswith (platform h) "linux") eqn:E1;
      [destruct (in_environ h "DISPLAY") eqn:E2|];
      cbn [andb negb]; intros H; inversion H; subst; repeat split.
    now apply in_environ_false.
Qed.

(** X24. The tool is built only behind the display check: on a Linux
    host without DISPLAY and with nothing cached, the constructor raises
    the [RuntimeError] and leaves the process as it was, the screenshot
    directory not made. In every other case it returns the tool with the
    four settings as given, and has asked for exactly that directory. *)
Theorem tool_is_built_behind_the_display_check
    (dir : path) (index : Z) (move_duration drag : float) (p : process) :
  (_pyautogui p = None ->
   startswith (platform h) "linux" = true ->
   (forall v, ~ In ("DISPLAY" : str, v) (environ h)) ->
   ComputerUseTool__init__ h dir index move_duration drag p =
     (inl (RuntimeError DISPLAY_MESSAGE), p)) /\
  (_pyautogui p <> None \/ startswith (platform h) "linux" = false \/
   (exists v, In ("DISPLAY" : str, v) (environ h)) ->
   exists pg,
     ComputerUseTool__init__ h dir index move_duration drag p =
       (inr {| screenshot_dir := dir; monitor_index := index;
               mouse_move_duration := move_duration; drag_duration := drag |},
        {| _pyautogui := Some pg; mkdir_calls := mkdir_calls p ++ [dir] |})).
Proof.
  unfold ComputerUseTool__init__, _get_pyautogui, _ensure_display. split.
  - intros Hp Hl Hd. destruct p as [g calls]. cbn [_pyautogui mkdir_calls] in *.
    subst g. rewrite Hl.
    destruct (in_environ h "DISPLAY") eqn:E; [|reflexivity].
    exfalso. unfold in_environ in E. apply existsb_exists in E as ([k v] & Hin & Hk).
    apply str_eqb_eq in Hk. cbn [fst] in Hk. subst k. exact (Hd v Hin).
  - intros H. destruct (_pyautogui p) as [pg|] eqn:Hp; [now exists pg|].
    destruct H as [H|[H|[v H]]]; [now destruct H| |].
    + rewrite H. now eexists.
    + rewrite (in_environ_true h _ v H), andb_false_r. now eexists.
Qed.

(** X25. [main] runs the agent only with the tool it has built, and
    reports what the run recorded only after a run that returned. When
    the constructor of the tool raises, [main] ends with that exception
    and no run. When the run raises, [main] ends with that exception in
    the state the run left, nothing printed after it. When the run
    returns, the closing lines are the final answer if it is not empty,
    and the task status exactly when the run was ended by a terminate
    result, the status then being "success" or "failure"; [main] ends
    with these lines after the events of the run when the standard output
    can encode them, and with [UnicodeEncodeError], after the lines
    printed before the one it cannot encode, otherwise. *)
Theorem main_reports_what_the_run_recorded (args : Namespace) (p : process) :
  let client := OpenAI (arg_api_key args) (arg_base_url args) (arg_timeout args) in
  let built :=
    ComputerUseTool__init__ h (arg_screenshot_dir args) (arg_monitor_index args)
      (arg_mouse_move_duration args) (arg_drag_duration args) p in
  (forall e p', built = (inl e, p') ->
     main env OpenAI h args p = StartupFailed e p') /\
  (forall tool p', built = (inr tool, p') ->
     let agent := agent_of args tool in
     (forall e s,
        run env client agent (init agent) = Raise e s ->
        main env OpenAI h args p = RunFailed e s p') /\
     (forall x s1,
        run env client agent (init agent) = Ok x s1 ->
        let final_line :=
          if truthy (final_answer s1)
          then [Print (PFString [inl ("[Final Answer] " : str); inr (final_answer s1)])]
          else [] in
        (accepted env (report_lines s1) = true ->
         main env OpenAI h args p =
           Finished (with_events s1 (events s1 ++ report_lines s1)) p') /\
        (accepted env (report_lines s1) = false ->
         main env OpenAI h args p =
           RunFailed UnicodeEncodeError
             (if truthy (final_answer s1) &&
                 stdout_accepts env
                   (PFString [inl ("[Final Answer] " : str); inr (final_answer s1)])
              then with_events s1 (events s1 ++ final_line)
              else s1) p') /\
        (x <> Terminated -> report_lines s1 = final_line) /\
        (x = Terminated ->
         exists verdict : str,
           (verdict = "success" \/ verdict = "failure") /\
           report_lines s1 =
             final_line ++
             [Print (PFString [inl ("[Task Status] " : str); inr (PStr verdict)])]))).
Proof.
  cbv zeta. unfold main. split.
  - intros e p' ->. reflexivity.
  - intros tool p' ->. split.
    + intros e s Hrun. unfold bind. now rewrite Hrun.
    + intros x s1 Hrun. unfold bind. rewrite Hrun, report_spec.
      split; [now intros ->|]. split.
      { intros ->. destruct (truthy (final_answer s1)); reflexivity. }
      apply run_loop_verdict in Hrun as [Hyes Hno]; [|reflexivity].
      unfold report_lines. split.
      * intros Hx. rewrite (Hno Hx). cbn [truthy]. now rewrite app_nil_r.
      * intros Hx. destruct (Hyes Hx) as [E|E]; rewrite E; cbn [truthy];
          [exists ("success" : str)|exists ("failure" : str)];
          (split; [auto|reflexivity]).
Qed.

End MoreStartup.

(* ===================================================================== *)
(** * Waiting, and errors of the tool inside a run *)
(* ===================================================================== *)

Section WaitFacts.

(** X26. [wait] sleeps once or not at all. When it returns it has slept
    exactly once, for the time of the request converted to a float, a
    whole count of nanoseconds from 0 up to (not including) 2^63, and the
    detail quotes the time as it was given; when it raises (no time, a
    time that is no number, a negative one, one too large) it has not
    slept. *)
Theorem wait_sleeps_once_or_not_at_all (d : dict) (t : trace) :
  match _wait d t with
  | Ok p t' =>
      exists secs ns,
        dict_get d "time" <> PNone /\
        to_float (dict_get d "time") = inr secs /\
        round_away (SFmul prec emax secs ns_per_s) = Some ns /\
        0 <= ns < 2 ^ 63 /\
        t' = t ++ [TimeSleep secs] /\
        p = ok (PFString [inl ("Waited " : str); inr (dict_get d "time");
                          inl (" seconds." : str)])
  | Raise e t' => t' = t
  end.
Proof.
  destruct (_wait d t) as [p t'|e t'] eqn:H; [|exact (wait_early d t e t' H)].
  unfold _wait in H. cbv zeta in H.
  assert (Hb : dict_get d "time" <> PNone ->
          bind (lift (to_float (dict_get d "time")))
            (fun secs => bind (time_sleep secs) (fun _ =>
               ret (ok (PFString [inl ("Waited " : str); inr (dict_get d "time");
                                  inl (" seconds." : str)])))) t = Ok p t' ->
          exists secs ns,
            dict_get d "time" <> PNone /\
            to_float (dict_get d "time") = inr secs /\
            round_away (SFmul prec emax secs ns_per_s) = Some ns /\
            0 <= ns < 2 ^ 63 /\
            t' = t ++ [TimeSleep secs] /\
            p = ok (PFString [inl ("Waited " : str); inr (dict_get d "time");
                              inl (" seconds." : str)])).
  { intros Hne Hr.
    apply bind_Ok_inv in Hr as (secs & t1 & Hf & Hr).
    apply lift_Ok_inv in Hf as [Hf ->].
    apply bind_Ok_inv in Hr as ([] & t1 & Hs & Hr).
    inversion Hr; subst p t1; clear Hr.
    unfold time_sleep in Hs.
    assert (Hns : forall o : option Z,
              match o with
              | None => raise OverflowError
              | Some ns =>
                  if (ns <? - 2 ^ 63) || (2 ^ 63 <? ns) then raise OverflowError
                  else if (ns <? 0) || (ns =? 2 ^ 63) then raise (ValueError None)
                  else emit (TimeSleep secs)
              end t = Ok tt t' ->
              exists ns, o = Some ns /\ 0 <= ns < 2 ^ 63 /\ t' = t ++ [TimeSleep secs]).
    { intros [ns|] Ho; [|discriminate]. exists ns.
      destruct ((ns <? - 2 ^ 63) || (2 ^ 63 <? ns)) eqn:E1; [discriminate|].
      destruct ((ns <? 0) || (ns =? 2 ^ 63)) eqn:E2; [discriminate|].
      apply orb_false_iff in E1 as [_ E1]. apply orb_false_iff in E2 as [E2 E3].
      apply Z.ltb_ge in E1, E2. apply Z.eqb_neq in E3.
      inversion Ho; subst. repeat split; lia. }
    assert (Hs' : exists ns,
              round_away (SFmul prec emax secs ns_per_s) = Some ns /\
              0 <= ns < 2 ^ 63 /\ t' = t ++ [TimeSleep secs]).
    { destruct secs; try discriminate;
        lazymatch type of Hs with
        | match ?o with _ => _ end _ = _ => exact (Hns o Hs)
        end. }
    destruct Hs' as (ns & Ho & Hr & Ht).
    exists secs, ns. repeat split; try assumption; lia. }
  destruct (dict_get d "time") eqn:E; try discriminate;
    apply Hb in H; try discriminate; exact H.
Qed.

End WaitFacts.

Section ToolErrors.

Variable env : environment.
Variable create : str -> list message -> float -> result chat_message.
Variable self : ComputerUseAgent.

(** X27. An exception of the tool is not caught either: when [call]
    raises for a call of a round (a validation error, a conversion that
    fails, a missing monitor), the run ends with that exception. The calls
    before it keep their tool messages, the failing call gets none, so
    the history ends with calls of the last reply unanswered; the calls
    after it are not dispatched and the model is not told of the error. *)
Theorem tool_error_aborts_run
    (n : nat) (s : state) (reply : chat_message)
    (before after : list tool_call) (tc : tool_call)
    (args : pyval) (e : exn) (t' : trace) (s1 : state) :
  create (model self) (messages s) (temperature self) = inr reply ->
  tool_calls_or_empty reply = before ++ tc :: after ->
  for_each before (dispatch env self) (replied s reply) = Ok tt s1 ->
  Json.loads (arguments_or_empty (function_arguments tc)) = inr args ->
  call env (tool self) args (events s1) = Raise e t' ->
  run_loop env create self (S n) s = Raise e (with_events s1 t') /\
  exists new : list message,
    messages (with_events s1 t') = messages s ++ Assistant reply :: new /\
    Forall2 answers before new.
Proof.
  intros Hc Hcalls Hbefore Hargs Hcall.
  assert (Htc : dispatch env self tc s1 = Raise e (with_events s1 t')).
  { unfold dispatch. rewrite Hargs.
    unfold bind at 1, lift at 1, ret at 1.
    apply bind_Raise. unfold on_trace. now rewrite Hcall. }
  assert (Hround : for_each (before ++ tc :: after) (dispatch env self)
                     (replied s reply) = Raise e (with_events s1 t')).
  { rewrite for_each_app. erewrite bind_Ok by exact Hbefore.
    cbn [for_each]. now apply bind_Raise. }
  split.
  - destruct before as [|b before']; cbn [app] in Hcalls, Hround.
    + rewrite (run_loop_round env create self n s reply tc after Hc Hcalls).
      now rewrite Hround.
    + rewrite (run_loop_round env create self n s reply b _ Hc Hcalls).
      now rewrite Hround.
  - destruct (round_Ok env self before _ s1 Hbefore) as (new & Hnew & Hall & _).
    exists new. split; [|exact Hall].
    cbn [messages with_events]. rewrite Hnew. unfold replied.
    cbn [messages with_messages]. now rewrite <- app_assoc.
Qed.

End ToolErrors.

(* ===================================================================== *)
(** * The further statements on concrete requests and runs *)
(* ===================================================================== *)

Import Examples.

(** The action "screenshot" is not one the tool knows. *)
Lemma unsupported_action_rejected_witness :
  let d : dict := [("action" : str, PStr "screenshot")] in
  request "{'action': 'screenshot'}" = PDict d /\
  dict_lookup d "action" = Some (PStr "screenshot") /\
  hashable (PStr "screenshot") = true /\
  ~ In ("screenshot" : str) TOOL_SPEC_ACTIONS /\
  call desktop default_tool (PDict d) [] =
    Raise (ValueError (Some (PFString [inl ("Unsupported action: " : str);
                                       inr (PStr "screenshot")]))) [].
Proof.
  intros d.
  assert (H1 : dict_lookup d "action" = Some (PStr "screenshot")) by reflexivity.
  assert (H2 : hashable (PStr "screenshot") = true) by reflexivity.
  assert (H3 : ~ In ("screenshot" : str) TOOL_SPEC_ACTIONS).
  { intros H. cbv in H. repeat (destruct H as [H|H]; [discriminate H|]). exact H. }
  split; [vm_compute; reflexivity|].
  split; [exact H1|]. split; [exact H2|]. split; [exact H3|].
  apply (unsupported_action_rejected desktop default_tool d (PStr "screenshot") [] H1 H2).
  intros name E. injection E as <-. exact H3.
Defined.

(** A list, the empty object, and an object whose action is a list *)
Lemma request_without_action_rejected_witness :
  call desktop default_tool (PList []) [] = Raise TypeError [] /\
  call desktop default_tool (PDict []) [] = Raise KeyError [] /\
  call desktop default_tool
    (PDict [("action" : str, PList [PStr "left_click"])]) [] = Raise TypeError [].
Proof.
  split; [|split].
  - apply (proj1 (request_without_action_rejected desktop default_tool (PList []) [])).
    intros d. discriminate.
  - apply (proj1 (proj2 (request_without_action_rejected desktop default_tool
                           (PDict []) [])) []); reflexivity.
  - apply (proj2 (proj2 (request_without_action_rejected desktop default_tool
                           (PDict [("action" : str, PList [PStr "left_click"])]) []))
             [("action" : str, PList [PStr "left_click"])] (PList [PStr "left_click"]));
      reflexivity.
Defined.

(** A double click with one number raises with the trace as it was; a
    [type] with a number for its text raises after the typing call. *)
Lemma rejected_request_does_nothing_witness :
  let t : trace := [PgScroll 3] in
  let click : dict := [("action" : str, PStr "double_click");
                       ("coordinate" : str, PList [PInt 1])] in
  let typing : dict := [("action" : str, PStr "type"); ("text" : str, PInt 5)] in
  let typed : trace := t ++ [PgTypewrite (PInt 5) typewrite_interval] in
  table_get (handlers default_tool) "double_click" = Some _double_click /\
  _double_click click t = Raise coordinate_error t /\
  table_get (handlers default_tool) "type" = Some _type /\
  _type typing t = Raise TypeError typed /\
  (t = t \/
   (("double_click" : str) = ("type" : str) /\ coordinate_error = TypeError /\
    t = t ++ [PgTypewrite (dict_get click "text") typewrite_interval])) /\
  (typed = t \/
   (("type" : str) = ("type" : str) /\ TypeError = TypeError /\
    typed = t ++ [PgTypewrite (dict_get typing "text") typewrite_interval])).
Proof.
  intros t click typing typed.
  assert (H1 : table_get (handlers default_tool) "double_click" = Some _double_click)
    by reflexivity.
  assert (H2 : _double_click click t = Raise coordinate_error t) by reflexivity.
  assert (H3 : table_get (handlers default_tool) "type" = Some _type) by reflexivity.
  assert (H4 : _type typing t = Raise TypeError typed) by reflexivity.
  split; [exact H1|]. split; [exact H2|]. split; [exact H3|]. split; [exact H4|].
  split.
  - exact (rejected_request_does_nothing default_tool "double_click" _double_click
             click t coordinate_error t H1 H2).
  - exact (rejected_request_does_nothing default_tool "type" _type
             typing t TypeError typed H3 H4).
Defined.

(** An answer whose text is the number 0 records the empty string. *)
Lemma answer_always_succeeds_witness :
  let d : dict := [("action" : str, PStr "answer"); ("text" : str, PInt 0)] in
  request "{'action': 'answer', 'text': 0}" = PDict d /\
  dict_lookup d "action" = Some (PStr "answer") /\
  call desktop default_tool (PDict d) [PgScroll 3] =
    Ok {| payload := [("status" : str, PStr "answer"); ("text" : str, PStr [])] |}
       [PgScroll 3].
Proof.
  intros d.
  assert (H1 : dict_lookup d "action" = Some (PStr "answer")) by reflexivity.
  split; [vm_compute; reflexivity|]. split; [exact H1|].
  exact (answer_always_succeeds desktop default_tool d [PgScroll 3] H1).
Defined.

(** "failure" is a verdict, "done" is not, and neither is a list. *)
Lemma terminate_accepts_two_verdicts_witness :
  let failed : dict := [("action" : str, PStr "terminate");
                        ("status" : str, PStr "failure")] in
  let done : dict := [("action" : str, PStr "terminate");
                      ("status" : str, PStr "done")] in
  let listed : dict := [("action" : str, PStr "terminate");
                        ("status" : str, PList [PStr "success"])] in
  request "{'action': 'terminate', 'status': 'done'}" = PDict done /\
  call desktop default_tool (PDict failed) [] =
    Ok {| payload := [("status" : str, PStr "terminate");
                      ("result" : str, PStr "failure")] |} [] /\
  call desktop default_tool (PDict done) [] = Raise status_required [] /\
  call desktop default_tool (PDict listed) [] = Raise TypeError [].
Proof.
  intros failed done listed.
  split; [vm_compute; reflexivity|]. split; [|split].
  - apply (proj1 (terminate_accepts_two_verdicts desktop default_tool failed []
                    eq_refl)).
    right. reflexivity.
  - apply (proj2 (terminate_accepts_two_verdicts desktop default_tool done []
                    eq_refl)); intros E; vm_compute in E; discriminate E.
  - apply (proj2 (terminate_accepts_two_verdicts desktop default_tool listed []
                    eq_refl)); intros E; vm_compute in E; discriminate E.
Defined.

(** The result of a terminate request *)
Lemma result_status_is_one_of_three_witness :
  let params := request "{'action': 'terminate', 'status': 'success'}" in
  let r := {| payload := [("status" : str, PStr "terminate");
                          ("result" : str, PStr "success")] |} in
  call desktop default_tool params [] = Ok r [] /\
  (dict_get (payload r) "status" = PStr "ok" \/
   dict_get (payload r) "status" = PStr "answer" \/
   (dict_get (payload r) "status" = PStr "terminate" /\
    (dict_get (payload r) "result" = PStr "success" \/
     dict_get (payload r) "result" = PStr "failure"))).
Proof.
  intros params r.
  assert (H : call desktop default_tool params [] = Ok r [])
    by (vm_compute; reflexivity).
  split; [exact H|].
  exact (result_status_is_one_of_three desktop default_tool params [] r [] H).
Defined.

(** The desktop lists two monitors: index 1 is there, index 5 is not. *)
Lemma screenshot_needs_listed_monitor_witness :
  let result : dict := ok (PStr "done") in
  (- 2 <= monitor_index default_tool < 2) /\
  ~ (- 2 <= monitor_index far_tool < 2) /\
  (exists p' m file,
     nth_error (monitors desktop) 1 = Some m /\
     _attach_screenshot desktop default_tool result [] =
       Ok p' [SctGrab m; ImgSave file]) /\
  _attach_screenshot desktop far_tool result [] = Raise IndexError [].
Proof.
  intros result.
  assert (H1 : - 2 <= monitor_index default_tool < 2) by (simpl; lia).
  assert (H2 : ~ (- 2 <= monitor_index far_tool < 2)) by (simpl; lia).
  split; [exact H1|]. split; [exact H2|]. split.
  - exact (proj1 (screenshot_needs_listed_monitor desktop default_tool result []) H1).
  - exact (proj2 (screenshot_needs_listed_monitor desktop far_tool result []) H2).
Defined.

(** The detail of the handler is still there after the screenshot. *)
Lemma screenshot_keeps_the_result_witness :
  let result : dict := ok (PStr "done") in
  let p' := match _attach_screenshot desktop default_tool result [] with
            | Ok p _ => p | Raise _ _ => [] end in
  let t' := state_of (_attach_screenshot desktop default_tool result []) in
  _attach_screenshot desktop default_tool result [] = Ok p' t' /\
  dict_lookup p' "detail" = Some (PStr "done") /\
  dict_lookup p' "status" = Some (PStr "ok").
Proof.
  intros result p' t'.
  assert (H : _attach_screenshot desktop default_tool result [] = Ok p' t')
    by (vm_compute; reflexivity).
  split; [exact H|].
  destruct (screenshot_keeps_the_result desktop default_tool result [] p' t' H)
    as [Hkeep _].
  split.
  - rewrite (Hkeep ("detail" : str)); [reflexivity|].
    intros Hin. cbv in Hin. repeat (destruct Hin as [Hin|Hin]; [discriminate Hin|]).
    exact Hin.
  - rewrite (Hkeep ("status" : str)); [reflexivity|].
    intros Hin. cbv in Hin. repeat (destruct Hin as [Hin|Hin]; [discriminate Hin|]).
    exact Hin.
Defined.

(** With monitor 5 configured, the click is made and [call] raises. *)
Lemma input_action_without_monitor_acts_then_fails_witness :
  let d : dict := [("action" : str, PStr "left_click")] in
  let p := match _left_click d [] with Ok p _ => p | Raise _ _ => [] end in
  dict_lookup d "action" = Some (PStr "left_click") /\
  table_get (handlers far_tool) "left_click" = Some _left_click /\
  _left_click d [] = Ok p [PgClick None "left"] /\
  call desktop far_tool (PDict d) [] = Raise IndexError [PgClick None "left"].
Proof.
  intros d p.
  assert (H1 : dict_lookup d "action" = Some (PStr "left_click")) by reflexivity.
  assert (H2 : table_get (handlers far_tool) "left_click" = Some _left_click)
    by reflexivity.
  assert (H3 : _left_click d [] = Ok p [PgClick None "left"]) by reflexivity.
  split; [exact H1|]. split; [exact H2|]. split; [exact H3|].
  apply (input_action_without_monitor_acts_then_fails desktop far_tool d
           "left_click" _left_click [] p [PgClick None "left"] H1 H2).
  - apply str_eqb_neq. reflexivity.
  - apply str_eqb_neq. reflexivity.
  - exact H3.
  - simpl. lia.
Defined.

(** One number is not a coordinate. *)
Lemma click_with_malformed_coordinate_rejected_witness :
  let d : dict := [("action" : str, PStr "right_click");
                   ("coordinate" : str, PList [PInt 7])] in
  dict_lookup d "coordinate" = Some (PList [PInt 7]) /\
  _left_click d [] = Raise coordinate_error [] /\
  _right_click d [] = Raise coordinate_error [] /\
  _middle_click d [] = Raise coordinate_error [].
Proof.
  intros d.
  assert (H1 : dict_lookup d "coordinate" = Some (PList [PInt 7])) by reflexivity.
  split; [exact H1|].
  apply (click_with_malformed_coordinate_rejected d [PInt 7] [] H1).
  - discriminate.
  - simpl. lia.
Defined.

(** A coordinate of a number and a numeral: the actions act at (100, 200). *)
Lemma pointer_actions_act_at_the_coordinate_witness :
  let d : dict := [("coordinate" : str, PList [PInt 100; PStr "200"])] in
  dict_lookup d "coordinate" = Some (PList [PInt 100; PStr "200"]) /\
  int (PInt 100) = inr 100 /\
  int (PStr "200") = inr 200 /\
  _mouse_move default_tool d [] =
    Ok (ok (at_xy "Moved to (" 100 200))
       [PgMoveTo 100 200 (mouse_move_duration default_tool)] /\
  _left_click_drag default_tool d [] =
    Ok (ok (at_xy "Drag to (" 100 200))
       [PgMouseDown; PgDragTo 100 200 (drag_duration default_tool) "left"; PgMouseUp].
Proof.
  intros d.
  assert (H1 : dict_lookup d "coordinate" = Some (PList [PInt 100; PStr "200"]))
    by reflexivity.
  assert (H2 : int (PInt 100) = inr 100) by reflexivity.
  assert (H3 : int (PStr "200") = inr 200) by (vm_compute; reflexivity).
  split; [exact H1|]. split; [exact H2|]. split; [exact H3|].
  destruct (pointer_actions_act_at_the_coordinate default_tool d
              (PInt 100) (PStr "200") 100 200 [] H1 H2 H3)
    as (Hmove & _ & _ & _ & _ & _ & Hdrag).
  split; [exact Hmove|exact Hdrag].
Defined.

(** The text "12" is taken for the point (1, 2); the number 5 is not
    answered with the validation error. *)
Lemma malformed_coordinate_kinds_witness :
  is_digit 49 = true /\ is_digit 50 = true /\
  _ensure_xy (PStr "12") ([] : trace) = Ok (1, 2) [] /\
  _ensure_xy (PInt 5) ([] : trace) = Raise TypeError [].
Proof.
  split; [reflexivity|]. split; [reflexivity|]. split.
  - exact (proj1 (malformed_coordinate_kinds ([] : trace)) 49%N 50%N eq_refl eq_refl).
  - apply (proj1 (proj2 (proj2 (malformed_coordinate_kinds ([] : trace)))) 5).
    discriminate.
Defined.

(** A scroll without an amount, and one by -3 *)
Lemma scroll_amount_defaults_to_zero_witness :
  let none : dict := [("action" : str, PStr "scroll")] in
  let up : dict := [("action" : str, PStr "scroll"); ("pixels" : str, PInt (-3))] in
  dict_get none "pixels" = PNone /\
  dict_get up "pixels" = PInt (-3) /\
  (exists p, _scroll none [] = Ok p [PgScroll 0]) /\
  (exists p, _hscroll up [] = Ok p [PgHscroll (-3)]).
Proof.
  intros none up.
  assert (H1 : dict_get none "pixels" = PNone) by reflexivity.
  assert (H2 : dict_get up "pixels" = PInt (-3)) by reflexivity.
  split; [exact H1|]. split; [exact H2|]. split.
  - eexists. exact (proj1 (proj1 (scroll_amount_defaults_to_zero none []) H1)).
  - eexists. exact (proj2 (proj2 (scroll_amount_defaults_to_zero up []) (-3) H2)).
Defined.

(** The keys "ab" given as a text: down a, down b, up b, up a. *)
Lemma key_iterates_whatever_it_is_given_witness :
  let text : dict := [("action" : str, PStr "key"); ("keys" : str, PStr "ab")] in
  let zero : dict := [("action" : str, PStr "key"); ("keys" : str, PInt 0)] in
  let five : dict := [("action" : str, PStr "key"); ("keys" : str, PInt 5)] in
  _key text [] =
    Ok (ok (pressed_detail (PStr "ab")))
       [PgKeyDown (PStr "a"); PgKeyDown (PStr "b");
        PgKeyUp (PStr "b"); PgKeyUp (PStr "a")] /\
  _key zero [] = Raise keys_error [] /\
  _key five [] = Raise TypeError [].
Proof.
  intros text zero five. split; [|split].
  - apply (proj1 (proj2 (key_iterates_whatever_it_is_given text [])) ("ab" : str));
      [discriminate|reflexivity].
  - apply (proj1 (key_iterates_whatever_it_is_given zero [])). reflexivity.
  - apply (proj2 (proj2 (key_iterates_whatever_it_is_given five [])) 5);
      [discriminate|reflexivity].
Defined.

(** A text of 52 letters is typed in full and reported up to its 50th. *)
Lemma type_reports_first_fifty_characters_witness :
  let s : str := "abcdefghijklmnopqrstuvwxyzabcdefghijklmnopqrstuvwxyz" in
  let d : dict := [("action" : str, PStr "type"); ("text" : str, PStr s)] in
  dict_lookup d "text" = Some (PStr s) /\
  _type d [] =
    Ok (ok (typed_detail (PStr "abcdefghijklmnopqrstuvwxyzabcdefghijklmnopqrstuvwx")))
       [PgTypewrite (PStr s) typewrite_interval].
Proof.
  intros s d.
  assert (H1 : dict_lookup d "text" = Some (PStr s)) by reflexivity.
  split; [exact H1|].
  exact (proj1 (type_reports_first_fifty_characters d s [] H1)).
Defined.

(** A wait of two seconds *)
Lemma wait_sleeps_once_or_not_at_all_witness :
  let d : dict := [("action" : str, PStr "wait"); ("time" : str, PInt 2)] in
  exists secs ns,
    _wait d [] = Ok (ok (PFString [inl ("Waited " : str); inr (PInt 2);
                                   inl (" seconds." : str)])) [TimeSleep secs] /\
    to_float (PInt 2) = inr secs /\
    round_away (SFmul prec emax secs ns_per_s) = Some ns /\
    0 <= ns < 2 ^ 63.
Proof.
  intros d.
  pose proof (wait_sleeps_once_or_not_at_all d []) as H.
  destruct (_wait d []) as [p t'|e t'] eqn:E; [|vm_compute in E; discriminate E].
  destruct H as (secs & ns & _ & Hf & Hns & Hr & Ht & Hp).
  exists secs, ns. subst p t'. repeat split; try assumption; apply Hr.
Defined.

(** A round cut short by a malformed call: the history gains the reply
    and the tool message of the click before it. *)
Lemma history_is_a_sequence_of_rounds_witness :
  let a := agent_with 2 in
  let create := always (reply_with [click_call; malformed_call]) in
  exists new,
    messages (state_of (run_loop desktop create a 2 (init a))) =
      messages (init a) ++ new /\
    rounds new /\
    (forall x s', run_loop desktop create a 2 (init a) = Ok x s' -> full_rounds new).
Proof.
  intros a create.
  exact (history_is_a_sequence_of_rounds desktop create a 2 (init a)).
Defined.

(** With three turns and a model that keeps clicking, the history holds
    three replies; with no turn nothing happens. *)
Lemma turn_limit_bounds_the_replies_witness :
  let create := always (reply_with [click_call]) in
  let s' := state_of (run desktop create (agent_with 3) (init (agent_with 3))) in
  run desktop create (agent_with 3) (init (agent_with 3)) = Ok TurnLimit s' /\
  replies (messages s') = 3%nat /\
  max_turns (agent_with 0) <= 0 /\
  run desktop create (agent_with 0) (init (agent_with 0)) =
    Ok TurnLimit (init (agent_with 0)).
Proof.
  intros create s'.
  assert (H1 : run desktop create (agent_with 3) (init (agent_with 3)) = Ok TurnLimit s')
    by (vm_compute; reflexivity).
  assert (H2 : max_turns (agent_with 0) <= 0) by (simpl; lia).
  split; [exact H1|]. split; [|split; [exact H2|]].
  - exact (proj1 (proj2 (turn_limit_bounds_the_replies desktop create (agent_with 3)))
             s' H1).
  - exact (proj2 (proj2 (turn_limit_bounds_the_replies desktop create (agent_with 0)))
             H2).
Defined.

(** A reply that is text only ends a run of five turns in its first; one
    whose text is a lone surrogate ends it with the exception of [print]. *)
Lemma reply_without_tool_calls_ends_run_witness :
  let a := agent_with 5 in
  always text_only (model a) (messages (init a)) (temperature a) = inr text_only /\
  tool_calls text_only = None /\
  stdout_accepts desktop (reply_line text_only) = true /\
  run desktop (always text_only) a (init a) =
    Ok NoToolCalls (text_reply (init a) text_only) /\
  final_answer (text_reply (init a) text_only) = PStr "All done." /\
  tool_calls unprintable_text = Some [] /\
  stdout_accepts desktop (reply_line unprintable_text) = false /\
  run desktop (always unprintable_text) a (init a) =
    Raise UnicodeEncodeError (replied (init a) unprintable_text).
Proof.
  intros a.
  assert (H1 : always text_only (model a) (messages (init a)) (temperature a)
               = inr text_only) by reflexivity.
  assert (H2 : tool_calls text_only = None) by reflexivity.
  assert (H3 : stdout_accepts desktop (reply_line text_only) = true) by reflexivity.
  assert (H4 : always unprintable_text (model a) (messages (init a)) (temperature a)
               = inr unprintable_text) by reflexivity.
  assert (H5 : tool_calls unprintable_text = Some []) by reflexivity.
  assert (H6 : stdout_accepts desktop (reply_line unprintable_text) = false)
    by reflexivity.
  split; [exact H1|]. split; [exact H2|]. split; [exact H3|].
  split; [|split; [reflexivity|]].
  - exact (proj1 (reply_without_tool_calls_ends_run desktop (always text_only) a 4
                    (init a) text_only H1 (or_introl H2)) H3).
  - split; [exact H5|]. split; [exact H6|].
    exact (proj2 (reply_without_tool_calls_ends_run desktop (always unprintable_text)
                    a 4 (init a) unprintable_text H4 (or_intror H5)) H6).
Defined.

(** A run ended by a terminate call has recorded its verdict. *)
Lemma verdict_recorded_iff_terminated_witness :
  let a := agent_with 3 in
  let create := always (reply_with [fail_call]) in
  let s' := state_of (run desktop create a (init a)) in
  run desktop create a (init a) = Ok Terminated s' /\
  (terminated s' = PStr "success" \/ terminated s' = PStr "failure").
Proof.
  intros a create s'.
  assert (H : run desktop create a (init a) = Ok Terminated s')
    by (vm_compute; reflexivity).
  split; [exact H|].
  exact (proj1 (verdict_recorded_iff_terminated desktop create a Terminated s' H)
           eq_refl).
Defined.

(** Two verdicts and two answers in one round: the later ones stay. *)
Lemma last_verdict_and_answer_win_witness :
  let a := agent_with 1 in
  let calls := [terminate_call; answer_call; fail_call; second_answer_call] in
  let s' := state_of (for_each calls (dispatch desktop a) (init a)) in
  for_each calls (dispatch desktop a) (init a) = Ok tt s' /\
  terminated s' = PStr "failure" /\
  final_answer s' = PStr "done twice" /\
  exists new,
    messages s' = messages (init a) ++ new /\
    terminated s' = verdict_after new (terminated (init a)) /\
    final_answer s' = answer_after new (final_answer (init a)).
Proof.
  intros a calls s'.
  assert (H : for_each calls (dispatch desktop a) (init a) = Ok tt s')
    by (vm_compute; reflexivity).
  split; [exact H|]. split; [vm_compute; reflexivity|].
  split; [vm_compute; reflexivity|].
  exact (last_verdict_and_answer_win desktop a calls (init a) s' H).
Defined.

(** A call without arguments, and one whose arguments are a list *)
Lemma tool_call_without_request_raises_witness :
  let a := agent_with 1 in
  function_arguments bare_call = None /\
  Json.loads (arguments_or_empty (function_arguments list_call)) =
    inr (PList [PInt 1; PInt 2]) /\
  dispatch desktop a bare_call (init a) = Raise KeyError (init a) /\
  dispatch desktop a list_call (init a) = Raise TypeError (init a).
Proof.
  intros a.
  assert (H1 : function_arguments bare_call = None) by reflexivity.
  assert (H2 : Json.loads (arguments_or_empty (function_arguments list_call)) =
               inr (PList [PInt 1; PInt 2])) by (vm_compute; reflexivity).
  split; [exact H1|]. split; [exact H2|]. split.
  - exact (proj1 (tool_call_without_request_raises desktop a bare_call (init a))
             (or_introl H1)).
  - apply (proj2 (tool_call_without_request_raises desktop a list_call (init a))
             (PList [PInt 1; PInt 2]) H2).
    intros d. discriminate.
Defined.

(** A double click with one number in the middle of a round ends the run
    with the validation error; the click before it has its message. *)
Lemma tool_error_aborts_run_witness :
  let a := agent_with 4 in
  let reply := reply_with [click_call; bad_click_call; answer_call] in
  let s1 := state_of (for_each [click_call] (dispatch desktop a)
                        (replied (init a) reply)) in
  let args : pyval := PDict [("action" : str, PStr "double_click");
                             ("coordinate" : str, PList [PInt 1])] in
  always reply (model a) (messages (init a)) (temperature a) = inr reply /\
  tool_calls_or_empty reply = [click_call] ++ bad_click_call :: [answer_call] /\
  for_each [click_call] (dispatch desktop a) (replied (init a) reply) = Ok tt s1 /\
  Json.loads (arguments_or_empty (function_arguments bad_click_call)) = inr args /\
  call desktop (tool a) args (events s1) = Raise coordinate_error (events s1) /\
  run desktop (always reply) a (init a) =
    Raise coordinate_error (with_events s1 (events s1)) /\
  exists new : list message,
    messages (with_events s1 (events s1)) =
      messages (init a) ++ Assistant reply :: new /\
    Forall2 answers [click_call] new.
Proof.
  intros a reply s1 args.
  assert (H1 : always reply (model a) (messages (init a)) (temperature a) = inr reply)
    by reflexivity.
  assert (H2 : tool_calls_or_empty reply =
               [click_call] ++ bad_click_call :: [answer_call]) by reflexivity.
  assert (H3 : for_each [click_call] (dispatch desktop a) (replied (init a) reply)
               = Ok tt s1) by (vm_compute; reflexivity).
  assert (H4 : Json.loads (arguments_or_empty (function_arguments bad_click_call))
               = inr args) by (vm_compute; reflexivity).
  assert (H5 : call desktop (tool a) args (events s1)
               = Raise coordinate_error (events s1)) by (vm_compute; reflexivity).
  split; [exact H1|]. split; [exact H2|]. split; [exact H3|]. split; [exact H4|].
  split; [exact H5|].
  exact (tool_error_aborts_run desktop (always reply) a 3 (init a) reply
           [click_call] [answer_call] bad_click_call args coordinate_error
           (events s1) s1 H1 H2 H3 H4 H5).
Defined.

(** A headless Linux host fails the first load; a DISPLAY set to the
    empty text passes, and the module then stays loaded. *)
Lemma display_checked_on_first_load_only_witness :
  let pg := {| FAILSAFE := false |} in
  _get_pyautogui headless None = (inl (RuntimeError DISPLAY_MESSAGE), None) /\
  _get_pyautogui empty_display None = (inr pg, Some pg) /\
  startswith (platform headless) "linux" = true /\
  (forall v, ~ In ("DISPLAY" : str, v) (environ headless)) /\
  (forall h', _get_pyautogui h' (Some pg) = (inr pg, Some pg)).
Proof.
  intros pg.
  assert (H1 : _get_pyautogui headless None = (inl (RuntimeError DISPLAY_MESSAGE), None))
    by reflexivity.
  assert (H2 : _get_pyautogui empty_display None = (inr pg, Some pg)) by reflexivity.
  split; [exact H1|]. split; [exact H2|].
  destruct (display_checked_on_first_load_only headless None _ _ H1)
    as (_ & _ & _ & Hl & Hd).
  destruct (display_checked_on_first_load_only empty_display None _ _ H2)
    as (_ & _ & Hcached).
  split; [exact Hl|]. split; [exact Hd|exact Hcached].
Defined.

(** The constructor on a headless host, and on a host that is not Linux *)
Lemma tool_is_built_behind_the_display_check_witness :
  let dir := screenshot_dir default_tool in
  _pyautogui unloaded = None /\
  startswith (platform headless) "linux" = true /\
  (forall v, ~ In ("DISPLAY" : str, v) (environ headless)) /\
  startswith (platform mac) "linux" = false /\
  ComputerUseTool__init__ headless dir 1 (S754_zero false) (S754_zero false) unloaded =
    (inl (RuntimeError DISPLAY_MESSAGE), unloaded) /\
  exists pg,
    ComputerUseTool__init__ mac dir 1 (S754_zero false) (S754_zero false) unloaded =
      (inr {| screenshot_dir := dir; monitor_index := 1;
              mouse_move_duration := S754_zero false;
              drag_duration := S754_zero false |},
       {| _pyautogui := Some pg; mkdir_calls := mkdir_calls unloaded ++ [dir] |}).
Proof.
  intros dir.
  assert (H1 : _pyautogui unloaded = None) by reflexivity.
  assert (H2 : startswith (platform headless) "linux" = true) by reflexivity.
  assert (H3 : forall v, ~ In ("DISPLAY" : str, v) (environ headless))
    by (apply in_environ_false; reflexivity).
  assert (H4 : startswith (platform mac) "linux" = false) by reflexivity.
  split; [exact H1|]. split; [exact H2|]. split; [exact H3|]. split; [exact H4|].
  split.
  - exact (proj1 (tool_is_built_behind_the_display_check headless dir 1
                    (S754_zero false) (S754_zero false) unloaded) H1 H2 H3).
  - exact (proj2 (tool_is_built_behind_the_display_check mac dir 1
                    (S754_zero false) (S754_zero false) unloaded)
             (or_intror (or_introl H4))).
Defined.

(** [main] with the default arguments against a model that answers and
    terminates at once: both closing lines are printed. On a headless
    Linux host [main] ends before any run. *)
Lemma main_reports_what_the_run_recorded_witness :
  let tool : ComputerUseTool :=
    {| screenshot_dir := arg_screenshot_dir DEFAULTS;
       monitor_index := arg_monitor_index DEFAULTS;
       mouse_move_duration := arg_mouse_move_duration DEFAULTS;
       drag_duration := arg_drag_duration DEFAULTS |} in
  let p' : process :=
    {| _pyautogui := Some {| FAILSAFE := false |};
       mkdir_calls := [arg_screenshot_dir DEFAULTS] |} in
  let client := answering_client (arg_api_key DEFAULTS) (arg_base_url DEFAULTS)
                  (arg_timeout DEFAULTS) in
  let agent := agent_of DEFAULTS tool in
  let s1 := state_of (run desktop client agent (init agent)) in
  ComputerUseTool__init__ mac (arg_screenshot_dir DEFAULTS) (arg_monitor_index DEFAULTS)
    (arg_mouse_move_duration DEFAULTS) (arg_drag_duration DEFAULTS) unloaded
    = (inr tool, p') /\
  run desktop client agent (init agent) = Ok Terminated s1 /\
  accepted desktop (report_lines s1) = true /\
  main desktop answering_client mac DEFAULTS unloaded =
    Finished (with_events s1 (events s1 ++ report_lines s1)) p' /\
  report_lines s1 =
    [Print (PFString [inl ("[Final Answer] " : str); inr (PStr "done")]);
     Print (PFString [inl ("[Task Status] " : str); inr (PStr "success")])] /\
  ComputerUseTool__init__ headless (arg_screenshot_dir DEFAULTS)
    (arg_monitor_index DEFAULTS) (arg_mouse_move_duration DEFAULTS)
    (arg_drag_duration DEFAULTS) unloaded
    = (inl (RuntimeError DISPLAY_MESSAGE), unloaded) /\
  main desktop answering_client headless DEFAULTS unloaded =
    StartupFailed (RuntimeError DISPLAY_MESSAGE) unloaded.
Proof.
  intros tool p' client agent s1.
  assert (H1 : ComputerUseTool__init__ mac (arg_screenshot_dir DEFAULTS)
                 (arg_monitor_index DEFAULTS) (arg_mouse_move_duration DEFAULTS)
                 (arg_drag_duration DEFAULTS) unloaded = (inr tool, p'))
    by reflexivity.
  assert (H2 : run desktop client agent (init agent) = Ok Terminated s1)
    by (vm_compute; reflexivity).
  assert (H3 : accepted desktop (report_lines s1) = true)
    by (vm_compute; reflexivity).
  assert (H4 : ComputerUseTool__init__ headless (arg_screenshot_dir DEFAULTS)
                 (arg_monitor_index DEFAULTS) (arg_mouse_move_duration DEFAULTS)
                 (arg_drag_duration DEFAULTS) unloaded
               = (inl (RuntimeError DISPLAY_MESSAGE), unloaded)) by reflexivity.
  split; [exact H1|]. split; [exact H2|]. split; [exact H3|].
  split; [|split; [vm_compute; reflexivity|split; [exact H4|]]].
  - pose proof (main_reports_what_the_run_recorded desktop answering_client mac
                  DEFAULTS unloaded) as H.
    cbv zeta in H. destruct H as [_ H].
    destruct (H tool p' H1) as [_ Hok].
    destruct (Hok Terminated s1 H2) as [Hfin _].
    exact (Hfin H3).
  - pose proof (main_reports_what_the_run_recorded desktop answering_client headless
                  DEFAULTS unloaded) as H.
    cbv zeta in H. destruct H as [H _].
    exact (H _ _ H4).
Defined.
